(** * Deployment tool: the app set-up CLI and the Nginx site manager CLI

    A shallow embedding of [src/app-setup-cli.js] and
    [src/nginx/nginx-cli.js].  Template literals become string
    concatenations, the asynchronous functions become computations of a
    small state-and-exception monad over a world made of a file store and
    a trace of console and child-process events, and the external programs
    ([which], [apt-get], [certbot], [nginx], [docker-compose], [npm]) are
    an oracle telling which command fails and with what message. *)

From stdpp Require Import base strings list gmap.
From Stdlib Require Import Ascii ZArith.
From Stdlib Require String.

(** ** Text *)

(** The line feed and the double quote, which a string literal of the
    embedding cannot hold. *)
Definition LF : string := String "010"%char "".
Definition DQ : string := String "034"%char "".

Definition is_lf (c : ascii) : bool := Ascii.eqb c "010"%char.

(** A text without line feed. *)
Fixpoint single_line (s : string) : bool :=
  match s with
  | EmptyString => true
  | String c r => negb (is_lf c) && single_line r
  end.

(** The lines of a text: the pieces between line feeds.  A text of [n]
    line feeds has [n + 1] lines. *)
Fixpoint lines (s : string) : list string :=
  match s with
  | EmptyString => [EmptyString]
  | String c r =>
      if is_lf c then EmptyString :: lines r
      else match lines r with
           | h :: t => String c h :: t
           | [] => [String c EmptyString]
           end
  end.

(** A line without its indentation. *)
Fixpoint strip_indent (s : string) : string :=
  match s with
  | String " "%char r => strip_indent r
  | _ => s
  end.

(** [has_line l s]: some line of [s] is [l] once its indentation is
    removed. *)
Definition has_line (l s : string) : bool :=
  existsb (fun x => String.eqb (strip_indent x) l) (lines s).

(** The lines of [s] that start, after their indentation, with the
    directive [d]. *)
Definition directive_lines (d s : string) : list string :=
  List.filter (fun l => String.prefix d (strip_indent l)) (lines s).

(** [is_substring p s]: [p] occurs in [s]. *)
Fixpoint is_substring (p s : string) : bool :=
  String.prefix p s ||
  match s with
  | EmptyString => false
  | String _ r => is_substring p r
  end.

(** Server blocks, by the layout the generator writes: a block opens at a
    line [server {] in the first column and closes at the next line [}] in
    the first column; its lines are those in between. *)
Fixpoint blocks_from (cur : option (list string)) (ls : list string)
  : list (list string) :=
  match ls with
  | [] => []
  | l :: r =>
      match cur with
      | None =>
          if String.eqb l "server {" then blocks_from (Some []) r
          else blocks_from None r
      | Some acc =>
          if String.eqb l "}" then rev acc :: blocks_from None r
          else blocks_from (Some (l :: acc)) r
      end
  end.

Definition server_blocks (s : string) : list (list string) :=
  blocks_from None (lines s).

(** ** JavaScript values

    The values the two tools move around: what the option parser and the
    prompts give (strings, booleans, [undefined]) and what a metadata file
    holds in its three fields (strings, or [null], a boolean, or nothing).
    Numbers, arrays and objects are left out: the metadata record stores
    its ports as strings. *)
Inductive jsval :=
| JUndefined
| JNull
| JBool (b : bool)
| JStr (s : string).

(** [ToString], as a template literal applies it to a substitution. *)
Definition toString (v : jsval) : string :=
  match v with
  | JUndefined => "undefined"
  | JNull => "null"
  | JBool true => "true"
  | JBool false => "false"
  | JStr s => s
  end.

(** [ToBoolean], as [if (v)] and [!v] apply it. *)
Definition truthy (v : jsval) : bool :=
  match v with
  | JUndefined | JNull => false
  | JBool b => b
  | JStr EmptyString => false
  | JStr _ => true
  end.

(** ** The world: files, console, child processes *)

(** What the file store holds at a path.  A [Dir] stands for a directory
    together with whatever is below it. *)
Inductive node :=
| File (content : string)
| Symlink (target : string)
| Dir.

(** A JavaScript [Error], as far as the tools look at it. *)
Record error := mkError { code : string; message : string }.

(** An argument of [console.error]. *)
Inductive arg :=
| Text (s : string)
| ErrObj (e : error).

Inductive event :=
| Stdout (s : string)                        (* console.log(s) *)
| Stderr (args : list arg)                   (* console.error(...args) *)
| Exec (cmd : string) (cwd : option string). (* execSync(cmd, { cwd }) *)

Record world := mkWorld {
  files : gmap string node;   (* path |-> node *)
  trace : list event          (* oldest event first *)
}.

(** How a child process ends. *)
Inductive status :=
| Succeeds
| Fails (msg : string).

(** What the run does not decide: the fate of every command, what the
    operator types at a prompt, what a JSON file holds, what a directory
    lists.  The external programs are taken not to touch the file store
    of the model. *)
Record env (meta : Type) := mkEnv {
  commands : string -> status;
  typed : string -> string;           (* input prompt, by question name *)
  confirmed : string -> bool;         (* confirm prompt, by question name *)
  json_at : string -> meta + error;   (* fs.readJson(path) *)
  listing : string -> list string + error  (* fs.readdir(path) *)
}.
Arguments commands {meta}.
Arguments typed {meta}.
Arguments confirmed {meta}.
Arguments json_at {meta}.
Arguments listing {meta}.

(** How a computation ends: with a value, by [process.exit], or by a
    thrown error (a rejected promise). *)
Inductive outcome (A : Type) :=
| Done (a : A)
| Exit (status_code : Z)
| Throw (e : error).
Arguments Done {A}.
Arguments Exit {A}.
Arguments Throw {A}.

Definition M (A : Type) : Type := world -> outcome A * world.

Definition ret {A} (a : A) : M A := fun w => (Done a, w).

Definition bind {A B} (m : M A) (k : A -> M B) : M B :=
  fun w =>
    match m w with
    | (Done a, w') => k a w'
    | (Exit c, w') => (Exit c, w')
    | (Throw e, w') => (Throw e, w')
    end.

Notation "'do' x <- m ; k" := (bind m (fun x => k))
  (at level 10, x name, m at level 100, k at level 200).
Notation "m ;;; k" := (bind m (fun _ => k))
  (at level 100, k at level 200, right associativity).

Definition throw {A} (e : error) : M A := fun w => (Throw e, w).

(** [process.exit(c)]: no handler catches it. *)
Definition process_exit {A} (c : Z) : M A := fun w => (Exit c, w).

(** [try { m } catch (e) { h(e) }]. *)
Definition try_catch {A} (m : M A) (h : error -> M A) : M A :=
  fun w =>
    match m w with
    | (Throw e, w') => h e w'
    | r => r
    end.

Definition emit (e : event) : M unit :=
  fun w => (Done tt, mkWorld (files w) (trace w ++ [e])).

Definition console_log (s : string) : M unit := emit (Stdout s).
Definition console_error (args : list arg) : M unit := emit (Stderr args).

(** [execSync(cmd, { cwd })]: runs the command and throws when it fails. *)
Definition execSync {meta} (E : env meta) (cmd : string) (cwd : option string)
  : M unit :=
  emit (Exec cmd cwd) ;;;
  match commands E cmd with
  | Succeeds => ret tt
  | Fails msg => throw (mkError "" msg)
  end.

(** *** The file store *)

(** The path a chain of symbolic links ends at (at most 40 links, as the
    kernel follows). *)
Fixpoint resolve (fuel : nat) (fs : gmap string node) (p : string)
  : option string :=
  match fs !! p with
  | Some (Symlink t) =>
      match fuel with
      | O => None
      | S f => resolve f fs t
      end
  | _ => Some p
  end.

Definition max_links : nat := 40.

(** [stat]: the existing file or directory a path leads to. *)
Definition stat (fs : gmap string node) (p : string) : option string :=
  match resolve max_links fs p with
  | Some q => match fs !! q with Some _ => Some q | None => None end
  | None => None
  end.

Definition fs_error (c what p : string) : error :=
  mkError c (c +:+ ": " +:+ what +:+ " '" +:+ p +:+ "'").

(** [fs.outputFile(p, c)]: creates the file (and its directory) or
    overwrites it; writes through a symbolic link; fails on a directory. *)
Definition outputFile (p c : string) : M unit :=
  fun w =>
    match resolve max_links (files w) p with
    | None => (Throw (fs_error "ELOOP" "too many symbolic links encountered, open" p), w)
    | Some q =>
        match files w !! q with
        | Some Dir => (Throw (fs_error "EISDIR" "illegal operation on a directory, open" p), w)
        | _ => (Done tt, mkWorld (<[q := File c]> (files w)) (trace w))
        end
    end.

(** [fs.symlink(src, dst)]. *)
Definition symlink (src dst : string) : M unit :=
  fun w =>
    match files w !! dst with
    | None => (Done tt, mkWorld (<[dst := Symlink src]> (files w)) (trace w))
    | Some _ => (Throw (fs_error "EEXIST" "file already exists, symlink" dst), w)
    end.

(** [fs.ensureSymlink(src, dst)] for an absolute [src].  The library has
    had two behaviours when [dst] is already there: the older one
    ([legacy = true]) returns at once when [dst] leads to something that
    exists; the newer one returns only when [dst] is a link leading to the
    very file [src] leads to, and otherwise goes on to [fs.symlink], which
    refuses an existing [dst].  Neither replaces anything. *)
Definition ensureSymlink (legacy : bool) (src dst : string) : M unit :=
  fun w =>
    let create : M unit :=
      match files w !! src with
      | None => throw (fs_error "ENOENT" "no such file or directory, ensureSymlink" src)
      | Some _ => symlink src dst
      end in
    if legacy then
      match stat (files w) dst with
      | Some _ => (Done tt, w)
      | None => create w
      end
    else
      match files w !! dst with
      | Some (Symlink _) =>
          match stat (files w) src, stat (files w) dst with
          | Some a, Some b => if String.eqb a b then (Done tt, w) else create w
          | None, _ => (Throw (fs_error "ENOENT" "no such file or directory, stat" src), w)
          | _, None => (Throw (fs_error "ENOENT" "no such file or directory, stat" dst), w)
          end
      | _ => create w
      end.

(** [fs.remove(p)]: deletes whatever is at [p]; nothing there is not an
    error. *)
Definition remove (p : string) : M unit :=
  fun w => (Done tt, mkWorld (delete p (files w)) (trace w)).

(** [fs.readJson(p)] and [fs.readdir(p)]. *)
Definition readJson {meta} (E : env meta) (p : string) : M meta :=
  match json_at E p with
  | inl m => ret m
  | inr e => throw e
  end.

Definition readdir {meta} (E : env meta) (p : string) : M (list string) :=
  match listing E p with
  | inl l => ret l
  | inr e => throw e
  end.

(** An input prompt of [inquirer]: the text typed, or the default when
    nothing is typed. *)
Definition prompt_input {meta} (E : env meta) (name : string)
  (default : option string) : string :=
  match typed E name, default with
  | EmptyString, Some d => d
  | s, _ => s
  end.

(** ** nginx-cli.js: the configuration generator *)

Module Nginx.

Definition generateNginxConfig
  (domain frontendPort backendPort : jsval) (useDomain useSSL : bool) : string :=
  let config :=
    LF +:+
    "server {" +:+ LF +:+
    "    " +:+ (if useDomain then "server_name " +:+ toString domain +:+ ";" else "") +:+ LF +:+
    LF +:+
    "    location / {" +:+ LF +:+
    "        proxy_pass http://localhost:" +:+ toString frontendPort +:+ ";" +:+ LF +:+
    "        proxy_set_header Host $host;" +:+ LF +:+
    "        proxy_set_header X-Real-IP $remote_addr;" +:+ LF +:+
    "    }" +:+ LF +:+
    LF +:+
    "    location /api {" +:+ LF +:+
    "        proxy_pass http://localhost:" +:+ toString backendPort +:+ ";" +:+ LF +:+
    "        proxy_set_header Host $host;" +:+ LF +:+
    "        proxy_set_header X-Real-IP $remote_addr;" +:+ LF +:+
    "    }" +:+ LF in
  let config :=
    if useSSL then
      config +:+
      (LF +:+
       "    listen 443 ssl;" +:+ LF +:+
       "    ssl_certificate /etc/letsencrypt/live/" +:+ toString domain +:+ "/fullchain.pem;" +:+ LF +:+
       "    ssl_certificate_key /etc/letsencrypt/live/" +:+ toString domain +:+ "/privkey.pem;" +:+ LF)
    else
      config +:+
      (LF +:+
       "    listen 80;" +:+ LF) in
  let config :=
    config +:+
    (LF +:+
     "}" +:+ LF) in
  let config :=
    if useDomain && useSSL then
      config +:+
      (LF +:+
       "server {" +:+ LF +:+
       "    listen 80;" +:+ LF +:+
       "    server_name " +:+ toString domain +:+ ";" +:+ LF +:+
       "    return 301 https://$host$request_uri;" +:+ LF +:+
       "}" +:+ LF)
    else config in
  config.

(** The metadata record [add-site] reads: the three fields it takes out
    of the parsed file, [JUndefined] for a field the file does not have. *)
Record metadata := mkMetadata {
  domain : jsval;
  frontendPort : jsval;
  backendPort : jsval
}.

(** The options the command-line parser hands to an action:
    [--metadata <path>], and the negating flags [--no-ssl] and
    [--no-domain], which set [ssl] and [domain] to [false]. *)
Record add_options := mkAddOptions {
  opt_metadata : jsval;
  opt_ssl : jsval;
  opt_domain : jsval
}.

Record remove_options := mkRemoveOptions {
  opt_remove_domain : jsval
}.

(** [v !== false]. *)
Definition is_not_false (v : jsval) : bool :=
  match v with
  | JBool false => false
  | _ => true
  end.

Section Commands.

Variable legacy : bool.      (* which [fs.ensureSymlink] the library has *)
Variable E : env metadata.

Definition ensureNginxInstalled : M unit :=
  try_catch
    (execSync E "which nginx" None ;;;
     console_log "Nginx is already installed.")
    (fun _ =>
       console_log "Nginx is not installed. Installing Nginx..." ;;;
       try_catch
         (execSync E "sudo apt-get update" None ;;;
          execSync E "sudo apt-get install -y nginx" None ;;;
          console_log "Nginx installed successfully.")
         (fun installError =>
            console_error [Text "Failed to install Nginx:"; Text (message installError)] ;;;
            process_exit 1%Z)).

Definition obtainSSLCertificate (domain : jsval) : M unit :=
  try_catch
    (console_log ("Obtaining SSL certificate for " +:+ toString domain +:+ "...") ;;;
     execSync E
       ("certbot --nginx -d " +:+ toString domain +:+
        " --non-interactive --agree-tos --email admin@" +:+ toString domain)
       None ;;;
     console_log "SSL certificate obtained successfully.")
    (fun error =>
       console_error [Text "Error obtaining SSL certificate:"; Text (message error)]).

Definition reloadNginx : M unit :=
  try_catch
    (console_log "Reloading Nginx..." ;;;
     execSync E "nginx -s reload" None ;;;
     console_log "Nginx reloaded successfully.")
    (fun error =>
       console_error [Text "Error reloading Nginx:"; Text (message error)]).

(** The name of the site: the domain, or a name made of the two ports. *)
Definition configName (m : metadata) (useDomain : bool) : jsval :=
  if useDomain then domain m
  else JStr ("site_" +:+ toString (frontendPort m) +:+ "_" +:+ toString (backendPort m)).

Definition available_path (name : string) : string :=
  "/etc/nginx/sites-available/" +:+ name.

Definition enabled_path (name : string) : string :=
  "/etc/nginx/sites-enabled/" +:+ name.

Definition addSite (options : add_options) : M unit :=
  ensureNginxInstalled ;;;
  do m <-
    (if truthy (opt_metadata options) then
       readJson E (toString (opt_metadata options))
     else
       readJson E (prompt_input E "metadataPath" None)) ;
  let useDomain := is_not_false (opt_domain options) in
  let useSSL := is_not_false (opt_ssl options) in
  let nginxConfig :=
    generateNginxConfig (domain m) (frontendPort m) (backendPort m)
      useDomain useSSL in
  let name := configName m useDomain in
  let nginxConfigPath := available_path (toString name) in
  outputFile nginxConfigPath nginxConfig ;;;
  let nginxEnabledPath := enabled_path (toString name) in
  ensureSymlink legacy nginxConfigPath nginxEnabledPath ;;;
  (if useDomain && useSSL then obtainSSLCertificate (domain m) else ret tt) ;;;
  reloadNginx ;;;
  console_log ("Site " +:+ toString name +:+ " added successfully!").

Definition removeSite (options : remove_options) : M unit :=
  ensureNginxInstalled ;;;
  let domain :=
    if truthy (opt_remove_domain options) then opt_remove_domain options
    else JStr (prompt_input E "domain" None) in
  remove (available_path (toString domain)) ;;;
  remove (enabled_path (toString domain)) ;;;
  reloadNginx ;;;
  console_log ("Site " +:+ toString domain +:+ " removed successfully!").

(** The two loops of [listSites]. *)
Fixpoint printEnabled (sitesEnabled : list string) : M unit :=
  match sitesEnabled with
  | [] => ret tt
  | site :: rest =>
      console_log ("- " +:+ site +:+ " (enabled)") ;;;
      printEnabled rest
  end.

(** [Array.prototype.includes] on strings. *)
Fixpoint includes (l : list string) (x : string) : bool :=
  match l with
  | [] => false
  | y :: r => String.eqb y x || includes r x
  end.

Fixpoint printDisabled (sitesAvailable sitesEnabled : list string) : M unit :=
  match sitesAvailable with
  | [] => ret tt
  | site :: rest =>
      (if negb (includes sitesEnabled site)
       then console_log ("- " +:+ site +:+ " (disabled)")
       else ret tt) ;;;
      printDisabled rest sitesEnabled
  end.

Definition listSites : M unit :=
  ensureNginxInstalled ;;;
  do sitesAvailable <- readdir E "/etc/nginx/sites-available" ;
  do sitesEnabled <- readdir E "/etc/nginx/sites-enabled" ;
  console_log "Active sites:" ;;;
  printEnabled sitesEnabled ;;;
  console_log (LF +:+ "Available sites:") ;;;
  printDisabled sitesAvailable sitesEnabled.

End Commands.

End Nginx.

(** ** JSON text

    [JSON.stringify(value, null, 2)] on an object whose fields are the
    values above, as [fs.writeJson] calls it. *)

Definition BS : string := String "092"%char "".

Definition hex_digit (n : nat) : ascii :=
  match n with
  | 0 => "0" | 1 => "1" | 2 => "2" | 3 => "3" | 4 => "4" | 5 => "5"
  | 6 => "6" | 7 => "7" | 8 => "8" | 9 => "9" | 10 => "a" | 11 => "b"
  | 12 => "c" | 13 => "d" | 14 => "e" | _ => "f"
  end%char.

(** One character inside a JSON string: the quote and the backslash are
    escaped, the control characters get their short escape or [\u00XX],
    every other byte stands for itself. *)
Definition escape_char (c : ascii) : string :=
  let n := nat_of_ascii c in
  if Ascii.eqb c "034"%char then BS +:+ DQ
  else if Ascii.eqb c "092"%char then BS +:+ BS
  else if Nat.eqb n 8 then BS +:+ "b"
  else if Nat.eqb n 9 then BS +:+ "t"
  else if Nat.eqb n 10 then BS +:+ "n"
  else if Nat.eqb n 12 then BS +:+ "f"
  else if Nat.eqb n 13 then BS +:+ "r"
  else if Nat.ltb n 32 then
    BS +:+ "u00" +:+ String (hex_digit (n / 16)) (String (hex_digit (n mod 16)) "")
  else String c "".

Fixpoint escape (s : string) : string :=
  match s with
  | EmptyString => ""
  | String c r => escape_char c +:+ escape r
  end.

Definition quote (s : string) : string := DQ +:+ escape s +:+ DQ.

(** A JavaScript object: its own properties in insertion order. *)
Definition jsobject : Type := list (string * jsval).

(** The text of a property value; nothing for [undefined], whose property
    is left out. *)
Definition stringify_value (v : jsval) : option string :=
  match v with
  | JUndefined => None
  | JNull => Some "null"
  | JBool true => Some "true"
  | JBool false => Some "false"
  | JStr s => Some (quote s)
  end.

Fixpoint stringify_members (o : jsobject) : list string :=
  match o with
  | [] => []
  | (k, v) :: r =>
      match stringify_value v with
      | Some t => ("  " +:+ quote k +:+ ": " +:+ t) :: stringify_members r
      | None => stringify_members r
      end
  end.

Fixpoint join (sep : string) (l : list string) : string :=
  match l with
  | [] => ""
  | [x] => x
  | x :: r => x +:+ sep +:+ join sep r
  end.

(** [JSON.stringify(o, null, 2)]. *)
Definition JSON_stringify (o : jsobject) : string :=
  match stringify_members o with
  | [] => "{}"
  | ms => "{" +:+ LF +:+ join ("," +:+ LF) ms +:+ LF +:+ "}"
  end.

(** [fs.writeJson(p, o, { spaces: 2 })]: the text and a final line feed. *)
Definition writeJson (p : string) (o : jsobject) : M unit :=
  outputFile p (JSON_stringify o +:+ LF).

(** *** Reading JSON

    A parser of JSON texts, to say what a written file parses to.  A
    number keeps its literal text.  An escape [\uXXXX] is decoded to the
    UTF-8 bytes of its code unit. *)
#[local] Set Warnings "-register-all".

Inductive json :=
| JsNull
| JsBool (b : bool)
| JsNumber (literal : string)
| JsString (s : string)
| JsArray (elements : list json)
| JsObject (members : list (string * json)).

Definition is_ws (c : ascii) : bool :=
  match c with
  | " " | "009" | "010" | "013" => true
  | _ => false
  end%char.

Fixpoint skip_ws (s : string) : string :=
  match s with
  | String c r => if is_ws c then skip_ws r else s
  | EmptyString => s
  end.

Definition hex_value (c : ascii) : option nat :=
  let n := nat_of_ascii c in
  if (48 <=? n) && (n <=? 57) then Some (n - 48)
  else if (97 <=? n) && (n <=? 102) then Some (n - 87)
  else if (65 <=? n) && (n <=? 70) then Some (n - 55)
  else None.

(** The UTF-8 bytes of a code unit. *)
Definition utf8 (n : nat) : string :=
  if n <? 128 then String (ascii_of_nat n) ""
  else if n <? 2048 then
    String (ascii_of_nat (192 + n / 64)) (String (ascii_of_nat (128 + n mod 64)) "")
  else
    String (ascii_of_nat (224 + n / 4096))
      (String (ascii_of_nat (128 + (n / 64) mod 64))
         (String (ascii_of_nat (128 + n mod 64)) "")).

Definition simple_escape (e : ascii) : option ascii :=
  match e with
  | "034" => Some "034"
  | "092" => Some "092"
  | "/" => Some "/"
  | "b" => Some "008"
  | "f" => Some "012"
  | "n" => Some "010"
  | "r" => Some "013"
  | "t" => Some "009"
  | _ => None
  end%char.

Definition with_text (t : string) (r : option (string * string))
  : option (string * string) :=
  match r with
  | Some (s, rest) => Some (t +:+ s, rest)
  | None => None
  end.

(** The characters of a string after its opening quote: the string and
    what follows its closing quote. *)
Fixpoint parse_chars (s : string) : option (string * string) :=
  match s with
  | EmptyString => None
  | String c r =>
      if Ascii.eqb c "034"%char then Some ("", r)
      else if Ascii.eqb c "092"%char then
        match r with
        | String e r1 =>
            match simple_escape e with
            | Some x => with_text (String x "") (parse_chars r1)
            | None =>
                if Ascii.eqb e "u"%char then
                  match r1 with
                  | String h1 (String h2 (String h3 (String h4 r2))) =>
                      match hex_value h1, hex_value h2, hex_value h3, hex_value h4 with
                      | Some a, Some b, Some c', Some d =>
                          with_text (utf8 (((a * 16 + b) * 16 + c') * 16 + d))
                            (parse_chars r2)
                      | _, _, _, _ => None
                      end
                  | _ => None
                  end
                else None
            end
        | EmptyString => None
        end
      else if nat_of_ascii c <? 32 then None
      else with_text (String c "") (parse_chars r)
  end.

Definition is_digit (c : ascii) : bool :=
  let n := nat_of_ascii c in (48 <=? n) && (n <=? 57).

Fixpoint take_digits (s : string) : string * string :=
  match s with
  | String c r =>
      if is_digit c then let '(d, rest) := take_digits r in (String c d, rest)
      else ("", s)
  | EmptyString => ("", s)
  end.

(** A number: an optional minus, an integer part without a leading zero,
    an optional fraction, an optional exponent. *)
Definition parse_number (s : string) : option (string * string) :=
  let '(sign, s1) :=
    match s with
    | String "-"%char r => ("-", r)
    | _ => ("", s)
    end in
  let '(int, s2) := take_digits s1 in
  let int_ok :=
    match int with
    | EmptyString => false
    | String "0"%char (String _ _) => false
    | _ => true
    end in
  if negb int_ok then None else
  let frac :=
    match s2 with
    | String "."%char r =>
        let '(d, rest) := take_digits r in
        match d with
        | EmptyString => None
        | _ => Some ("." +:+ d, rest)
        end
    | _ => Some ("", s2)
    end in
  match frac with
  | None => None
  | Some (f, s3) =>
      let exp :=
        match s3 with
        | String e r =>
            if Ascii.eqb e "e"%char || Ascii.eqb e "E"%char then
              let '(sg, r1) :=
                match r with
                | String "+"%char r' => ("+", r')
                | String "-"%char r' => ("-", r')
                | _ => ("", r)
                end in
              let '(d, rest) := take_digits r1 in
              match d with
              | EmptyString => None
              | _ => Some (String e sg +:+ d, rest)
              end
            else Some ("", s3)
        | EmptyString => Some ("", s3)
        end in
      match exp with
      | None => None
      | Some (x, rest) => Some (sign +:+ int +:+ f +:+ x, rest)
      end
  end.

(** [expect lit s]: [s] without its prefix [lit]. *)
Fixpoint expect (lit s : string) : option string :=
  match lit with
  | EmptyString => Some s
  | String c l =>
      match s with
      | String c' r => if Ascii.eqb c c' then expect l r else None
      | EmptyString => None
      end
  end.

Fixpoint parse_value (fuel : nat) (s : string) : option (json * string) :=
  match fuel with
  | O => None
  | S f =>
      match skip_ws s with
      | EmptyString => None
      | String c r =>
          if Ascii.eqb c "034"%char then
            match parse_chars r with
            | Some (t, rest) => Some (JsString t, rest)
            | None => None
            end
          else if Ascii.eqb c "{"%char then
            match skip_ws r with
            | String "}"%char rest => Some (JsObject [], rest)
            | _ =>
                match parse_members f r with
                | Some (ms, rest) => Some (JsObject ms, rest)
                | None => None
                end
            end
          else if Ascii.eqb c "["%char then
            match skip_ws r with
            | String "]"%char rest => Some (JsArray [], rest)
            | _ =>
                match parse_elements f r with
                | Some (es, rest) => Some (JsArray es, rest)
                | None => None
                end
            end
          else if Ascii.eqb c "t"%char then
            match expect "rue" r with Some rest => Some (JsBool true, rest) | None => None end
          else if Ascii.eqb c "f"%char then
            match expect "alse" r with Some rest => Some (JsBool false, rest) | None => None end
          else if Ascii.eqb c "n"%char then
            match expect "ull" r with Some rest => Some (JsNull, rest) | None => None end
          else
            match parse_number (String c r) with
            | Some (n, rest) => Some (JsNumber n, rest)
            | None => None
            end
      end
  end

(** The members of an object after its opening brace (at least one), up
    to and including the closing brace. *)
with parse_members (fuel : nat) (s : string)
  : option (list (string * json) * string) :=
  match fuel with
  | O => None
  | S f =>
      match skip_ws s with
      | String "034"%char r =>
          match parse_chars r with
          | Some (k, r1) =>
              match skip_ws r1 with
              | String ":"%char r2 =>
                  match parse_value f r2 with
                  | Some (v, r3) =>
                      match skip_ws r3 with
                      | String ","%char r4 =>
                          match parse_members f r4 with
                          | Some (ms, rest) => Some ((k, v) :: ms, rest)
                          | None => None
                          end
                      | String "}"%char rest => Some ([(k, v)], rest)
                      | _ => None
                      end
                  | None => None
                  end
              | _ => None
              end
          | None => None
          end
      | _ => None
      end
  end

with parse_elements (fuel : nat) (s : string) : option (list json * string) :=
  match fuel with
  | O => None
  | S f =>
      match parse_value f s with
      | Some (v, r1) =>
          match skip_ws r1 with
          | String ","%char r2 =>
              match parse_elements f r2 with
              | Some (es, rest) => Some (v :: es, rest)
              | None => None
              end
          | String "]"%char rest => Some ([v], rest)
          | _ => None
          end
      | None => None
      end
  end.

(** [JSON.parse]: one value, with nothing but white space after it. *)
Definition JSON_parse (s : string) : option json :=
  match parse_value (S (String.length s)) s with
  | Some (v, rest) =>
      match skip_ws rest with
      | EmptyString => Some v
      | _ => None
      end
  | None => None
  end.

(** [o.k] on a parsed object: the last member of that name. *)
Fixpoint member (k : string) (ms : list (string * json)) : option json :=
  match ms with
  | [] => None
  | (k', v) :: r =>
      match member k r with
      | Some v' => Some v'
      | None => if String.eqb k' k then Some v else None
      end
  end.

(** ** Paths: [path.join] *)

(** The pieces of a path between slashes. *)
Fixpoint segments (s : string) : list string :=
  match s with
  | EmptyString => [EmptyString]
  | String c r =>
      if Ascii.eqb c "/"%char then EmptyString :: segments r
      else match segments r with
           | h :: t => String c h :: t
           | [] => [String c EmptyString]
           end
  end.

(** The segments kept by normalisation, last one first: an empty segment
    or [.] is dropped, [..] removes the segment before it, and stays only
    in a relative path with nothing left to remove. *)
Fixpoint normalize_segments (allowAboveRoot : bool) (kept todo : list string)
  : list string :=
  match todo with
  | [] => kept
  | seg :: r =>
      if String.eqb seg "" || String.eqb seg "." then
        normalize_segments allowAboveRoot kept r
      else if String.eqb seg ".." then
        match kept with
        | top :: below =>
            if String.eqb top ".." then
              normalize_segments allowAboveRoot
                (if allowAboveRoot then seg :: kept else kept) r
            else normalize_segments allowAboveRoot below r
        | [] =>
            normalize_segments allowAboveRoot
              (if allowAboveRoot then [seg] else []) r
        end
      else normalize_segments allowAboveRoot (seg :: kept) r
  end.

Definition ends_with_slash (s : string) : bool :=
  match rev (segments s) with
  | EmptyString :: _ :: _ => true
  | _ => false
  end.

Definition normalize (p : string) : string :=
  match p with
  | EmptyString => "."
  | String c _ =>
      let isAbsolute := Ascii.eqb c "/"%char in
      let trailingSeparator := ends_with_slash p in
      let body :=
        join "/" (rev (normalize_segments (negb isAbsolute) [] (segments p))) in
      match body with
      | EmptyString =>
          if isAbsolute then "/" else if trailingSeparator then "./" else "."
      | _ =>
          let body := if trailingSeparator then body +:+ "/" else body in
          if isAbsolute then "/" +:+ body else body
      end
  end.

Definition nonempty (s : string) : bool :=
  match s with
  | EmptyString => false
  | _ => true
  end.

(** The arguments of [path.join] must be strings. *)
Fixpoint strings_of (args : list jsval) : option (list string) :=
  match args with
  | [] => Some []
  | JStr s :: r =>
      match strings_of r with
      | Some l => Some (s :: l)
      | None => None
      end
  | _ :: _ => None
  end.

Definition path_join (args : list jsval) : M string :=
  match strings_of args with
  | None =>
      throw (mkError "ERR_INVALID_ARG_TYPE"
               ("The " +:+ DQ +:+ "path" +:+ DQ +:+ " argument must be of type string."))
  | Some l =>
      match List.filter nonempty l with
      | [] => ret "."
      | parts => ret (normalize (join "/" parts))
      end
  end.

(** ** app-setup-cli.js *)

Module AppSetup.

(** The options object and the answers object: property name |-> value. *)
Definition get (o : gmap string jsval) (k : string) : jsval :=
  default JUndefined (o !! k).

Record question := mkQuestion {
  q_type : string;
  q_name : string;
  q_message : string;
  q_default : jsval
}.

Section Commands.

Context {meta : Type}.
Variable E : env meta.

(** [inquirer.prompt(questions)]: the answers, by question name. *)
Definition answer (q : question) : jsval :=
  if String.eqb (q_type q) "confirm" then JBool (confirmed E (q_name q))
  else JStr (prompt_input E (q_name q)
               (match q_default q with JStr d => Some d | _ => None end)).

Fixpoint inquirer_prompt (questions : list question) : gmap string jsval :=
  match questions with
  | [] => ∅
  | q :: r => <[q_name q := answer q]> (inquirer_prompt r)
  end.

Definition promptForMissingOptions (options : gmap string jsval)
  : gmap string jsval :=
  let questions := [] in
  let questions :=
    if negb (truthy (get options "projectPath")) then
      questions ++
      [mkQuestion "input" "projectPath"
         "Enter the path to the project directory:" (JStr ".")]
    else questions in
  let questions :=
    if negb (truthy (get options "domain")) then
      questions ++
      [mkQuestion "input" "domain"
         "Enter the domain name for the application:" JUndefined]
    else questions in
  let questions :=
    if negb (truthy (get options "frontendPort")) then
      questions ++
      [mkQuestion "input" "frontendPort"
         "Enter the port for the frontend application:" (JStr "3000")]
    else questions in
  let questions :=
    if negb (truthy (get options "backendPort")) then
      questions ++
      [mkQuestion "input" "backendPort"
         "Enter the port for the backend application:" (JStr "5000")]
    else questions in
  let questions :=
    match get options "pm2" with
    | JUndefined =>
        questions ++
        [mkQuestion "confirm" "pm2"
           "Do you want to install PM2 for process management?" (JBool false)]
    | _ => questions
    end in
  let answers := inquirer_prompt questions in
  answers ∪ options.

Definition frontend_dockerfile : string :=
  LF +:+
  "FROM node:14" +:+ LF +:+
  "WORKDIR /app" +:+ LF +:+
  "COPY package*.json ./" +:+ LF +:+
  "RUN npm install" +:+ LF +:+
  "COPY . ." +:+ LF +:+
  "RUN npm run build" +:+ LF +:+
  "EXPOSE 3000" +:+ LF +:+
  "CMD [" +:+ DQ +:+ "npm" +:+ DQ +:+ ", " +:+ DQ +:+ "start" +:+ DQ +:+ "]" +:+ LF +:+
  "  ".

Definition backend_dockerfile : string :=
  LF +:+
  "FROM node:14" +:+ LF +:+
  "WORKDIR /app" +:+ LF +:+
  "COPY package*.json ./" +:+ LF +:+
  "RUN npm install" +:+ LF +:+
  "COPY . ." +:+ LF +:+
  "EXPOSE 5000" +:+ LF +:+
  "CMD [" +:+ DQ +:+ "npm" +:+ DQ +:+ ", " +:+ DQ +:+ "start" +:+ DQ +:+ "]" +:+ LF +:+
  "  ".

Definition generateDockerfiles (projectPath : jsval) : M unit :=
  do frontendDockerfile <- path_join [projectPath; JStr "frontend"; JStr "Dockerfile"] ;
  do backendDockerfile <- path_join [projectPath; JStr "backend"; JStr "Dockerfile"] ;
  outputFile frontendDockerfile frontend_dockerfile ;;;
  outputFile backendDockerfile backend_dockerfile ;;;
  console_log "Dockerfiles generated successfully.".

Definition docker_compose (frontendPort backendPort : jsval) : string :=
  LF +:+
  "version: '3'" +:+ LF +:+
  "services:" +:+ LF +:+
  "  frontend:" +:+ LF +:+
  "    build: ./frontend" +:+ LF +:+
  "    ports:" +:+ LF +:+
  "      - " +:+ DQ +:+ toString frontendPort +:+ ":3000" +:+ DQ +:+ LF +:+
  "    environment:" +:+ LF +:+
  "      - NODE_ENV=production" +:+ LF +:+
  LF +:+
  "  backend:" +:+ LF +:+
  "    build: ./backend" +:+ LF +:+
  "    ports:" +:+ LF +:+
  "      - " +:+ DQ +:+ toString backendPort +:+ ":5000" +:+ DQ +:+ LF +:+
  "    environment:" +:+ LF +:+
  "      - NODE_ENV=production" +:+ LF +:+
  "  ".

Definition generateDockerCompose (projectPath frontendPort backendPort : jsval)
  : M unit :=
  do dockerComposePath <- path_join [projectPath; JStr "docker-compose.yml"] ;
  outputFile dockerComposePath (docker_compose frontendPort backendPort) ;;;
  console_log "docker-compose.yml generated successfully.".

Definition generateMetadata (projectPath domain frontendPort backendPort : jsval)
  : M unit :=
  do metadataPath <- path_join [projectPath; JStr "metadata.json"] ;
  let metadata : jsobject :=
    [("domain", domain);
     ("frontendPort", frontendPort);
     ("backendPort", backendPort)] in
  writeJson metadataPath metadata ;;;
  console_log "metadata.json generated successfully.".

Definition startDockerContainers (projectPath : jsval) : M unit :=
  try_catch
    (console_log "Starting Docker containers..." ;;;
     execSync E "docker-compose up -d" (Some (toString projectPath)) ;;;
     console_log "Docker containers started successfully.")
    (fun error =>
       console_error [Text "Error starting Docker containers:"; Text (message error)]).

Definition installPM2 (projectPath : jsval) : M unit :=
  try_catch
    (console_log "Installing PM2..." ;;;
     execSync E "npm install -g pm2" (Some (toString projectPath)) ;;;
     console_log "PM2 installed successfully.")
    (fun error =>
       console_error [Text "Error installing PM2:"; Text (message error)]).

Definition main (argv_options : gmap string jsval) : M unit :=
  let options := promptForMissingOptions argv_options in
  let projectPath := get options "projectPath" in
  let domain := get options "domain" in
  let frontendPort := get options "frontendPort" in
  let backendPort := get options "backendPort" in
  let pm2 := get options "pm2" in
  generateDockerfiles projectPath ;;;
  generateDockerCompose projectPath frontendPort backendPort ;;;
  generateMetadata projectPath domain frontendPort backendPort ;;;
  startDockerContainers projectPath ;;;
  (if truthy pm2 then installPM2 projectPath else ret tt) ;;;
  console_log "App setup completed successfully!".

(** The last statement of the file: [main().catch(...)]. *)
Definition cli (argv_options : gmap string jsval) : M unit :=
  try_catch (main argv_options)
    (fun error =>
       console_error [Text "An error occurred:"; ErrObj error] ;;;
       process_exit 1%Z).

End Commands.

End AppSetup.

(** The exit status of the process a run ends in; an error nobody
    catches has none here. *)
Definition exit_status (o : outcome unit) : option Z :=
  match o with
  | Done _ => Some 0%Z
  | Exit c => Some c
  | Throw _ => None
  end.

(** * Notions the properties are stated with *)

(** Putting a text without line feed in front of a text lengthens the
    first line. *)
Definition prepend (a : string) (l : list string) : list string :=
  match l with
  | h :: t => (a +:+ h) :: t
  | [] => [a]
  end.

(** A line of a text stays a line whatever is put in front of the text,
    provided it is not the first one. *)
Definition later_line (l s : string) : Prop :=
  exists h t, lines s = h :: t /\
    existsb (fun x => String.eqb (strip_indent x) l) t = true.

(** The last lines of a text stay its last lines whatever is put in
    front. *)
Definition last_lines (t : list string) (s : string) : Prop :=
  exists h m, lines s = h :: m ++ t.

(** The world after some more events. *)
Definition log (w : world) (evs : list event) : world :=
  mkWorld (files w) (trace w ++ evs).

(** [x] occurs exactly once in [l]. *)
Definition once {A} (x : A) (l : list A) : Prop :=
  exists l1 l2, l = l1 ++ x :: l2 /\ ~ In x l1 /\ ~ In x l2.

(** Nothing, or a regular file, is at [p]: [fs.outputFile] writes there. *)
Definition writable (fs : gmap string node) (p : string) : bool :=
  match fs !! p with
  | None | Some (File _) => true
  | _ => false
  end.

(** Nothing is at [dst], or the link to [src] already. *)
Definition linkable (fs : gmap string node) (dst src : string) : bool :=
  match fs !! dst with
  | None => true
  | Some (Symlink t) => String.eqb t src
  | _ => false
  end.

Module Site.
Import Nginx.

(** The two places of the site [n] can take it. *)
Definition ready (fs : gmap string node) (n : string) : bool :=
  writable fs (available_path n) &&
  linkable fs (enabled_path n) (available_path n).

(** The site [n] is enabled, with configuration [c]: the file is in the
    available directory and the link to it in the enabled directory. *)
Definition enabled (fs : gmap string node) (n c : string) : Prop :=
  fs !! available_path n = Some (File c) /\
  fs !! enabled_path n = Some (Symlink (available_path n)).

(** The site [n] is gone from both directories. *)
Definition absent (fs : gmap string node) (n : string) : Prop :=
  fs !! available_path n = None /\ fs !! enabled_path n = None.

(** The two directories agree: an available entry is a regular file, and
    an enabled entry is the link to the available file of its name. *)
Definition consistent (fs : gmap string node) : Prop :=
  forall n,
    writable fs (available_path n) = true /\
    (fs !! enabled_path n = None \/ exists c, enabled fs n c).

(** The paths of the two directories. *)
Definition in_directories (p : string) : Prop :=
  exists n, p = available_path n \/ p = enabled_path n.

Section Runs.

Variable E : env metadata.

(** The web server is there, or its installation goes through. *)
Definition nginx_available : bool :=
  match commands E "which nginx" with
  | Succeeds => true
  | Fails _ =>
      match commands E "sudo apt-get update" with
      | Succeeds =>
          match commands E "sudo apt-get install -y nginx" with
          | Succeeds => true
          | Fails _ => false
          end
      | Fails _ => false
      end
  end.

Definition install_failure (msg : string) : event :=
  Stderr [Text "Failed to install Nginx:"; Text msg].

(** What [ensureNginxInstalled] leaves on the trace. *)
Definition nginx_events : list event :=
  Exec "which nginx" None ::
  match commands E "which nginx" with
  | Succeeds => [Stdout "Nginx is already installed."]
  | Fails _ =>
      Stdout "Nginx is not installed. Installing Nginx..." ::
      Exec "sudo apt-get update" None ::
      match commands E "sudo apt-get update" with
      | Succeeds =>
          Exec "sudo apt-get install -y nginx" None ::
          match commands E "sudo apt-get install -y nginx" with
          | Succeeds => [Stdout "Nginx installed successfully."]
          | Fails msg => [install_failure msg]
          end
      | Fails msg => [install_failure msg]
      end
  end.

Definition reload_failure (msg : string) : event :=
  Stderr [Text "Error reloading Nginx:"; Text msg].

(** What [reloadNginx] leaves on the trace. *)
Definition reload_events : list event :=
  [Stdout "Reloading Nginx..."; Exec "nginx -s reload" None] ++
  match commands E "nginx -s reload" with
  | Succeeds => [Stdout "Nginx reloaded successfully."]
  | Fails msg => [reload_failure msg]
  end.

Definition certbot_command (d : jsval) : string :=
  "certbot --nginx -d " +:+ toString d +:+
  " --non-interactive --agree-tos --email admin@" +:+ toString d.

Definition certificate_failure (msg : string) : event :=
  Stderr [Text "Error obtaining SSL certificate:"; Text msg].

(** What [obtainSSLCertificate] leaves on the trace. *)
Definition certificate_events (d : jsval) : list event :=
  [Stdout ("Obtaining SSL certificate for " +:+ toString d +:+ "...");
   Exec (certbot_command d) None] ++
  match commands E (certbot_command d) with
  | Succeeds => [Stdout "SSL certificate obtained successfully."]
  | Fails msg => [certificate_failure msg]
  end.

(** The file [add-site] reads its metadata from. *)
Definition metadata_path (options : add_options) : string :=
  if truthy (opt_metadata options) then toString (opt_metadata options)
  else prompt_input E "metadataPath" None.

(** The identifier [remove-site] works on. *)
Definition removal_name (options : remove_options) : string :=
  toString
    (if truthy (opt_remove_domain options) then opt_remove_domain options
     else JStr (prompt_input E "domain" None)).

End Runs.

(** The two toggles of [add-site]. *)
Definition useDomain (options : add_options) : bool :=
  is_not_false (opt_domain options).

Definition useSSL (options : add_options) : bool :=
  is_not_false (opt_ssl options).

(** The configuration [add-site] generates and the name it gives it. *)
Definition config (m : metadata) (options : add_options) : string :=
  generateNginxConfig (domain m) (frontendPort m) (backendPort m)
    (useDomain options) (useSSL options).

Definition name (m : metadata) (options : add_options) : string :=
  toString (configName m (useDomain options)).

(** What a run of [add-site] that goes through leaves on the trace. *)
Definition added_events (E : env metadata) (m : metadata)
  (options : add_options) : list event :=
  nginx_events E ++
  (if useDomain options && useSSL options
   then certificate_events E (domain m) else []) ++
  reload_events E ++
  [Stdout ("Site " +:+ name m options +:+ " added successfully!")].

(** What a run of [remove-site] that goes through leaves on the trace. *)
Definition removed_events (E : env metadata) (options : remove_options)
  : list event :=
  nginx_events E ++
  reload_events E ++
  [Stdout ("Site " +:+ removal_name E options +:+ " removed successfully!")].

(** The runs of the certificate client on a trace. *)
Definition is_certbot (e : event) : bool :=
  match e with
  | Exec cmd _ => String.prefix "certbot" cmd
  | _ => false
  end.

Definition certbot_runs (t : list event) : list event :=
  List.filter is_certbot t.

(** The lines [list-sites] prints for a site. *)
Definition enabled_line (site : string) : event :=
  Stdout ("- " +:+ site +:+ " (enabled)").

Definition disabled_line (site : string) : event :=
  Stdout ("- " +:+ site +:+ " (disabled)").

(** What [list-sites] prints for the two listings. *)
Definition listed (sitesAvailable sitesEnabled : list string) : list event :=
  Stdout "Active sites:" ::
  map enabled_line sitesEnabled ++
  Stdout (LF +:+ "Available sites:") ::
  map disabled_line
    (List.filter (fun s => negb (includes sitesEnabled s)) sitesAvailable).

End Site.

(** ** Reading a compose file

    The port mappings of a compose text, by its layout: a key indented by
    two spaces names a service, a key indented by four opens a section of
    it, and a quoted item [- "host:container"] indented by six in the
    section [ports] is a mapping; the host part ends at the last colon. *)
Module Compose.

Inductive kind :=
| Service (name : string)
| Section (name : string)
| Item (host container : string)
| Other.

(** [key s]: the text before a final colon. *)
Fixpoint key (s : string) : option string :=
  match s with
  | EmptyString => None
  | String ":"%char EmptyString => Some ""
  | String c r =>
      match key r with
      | Some k => Some (String c k)
      | None => None
      end
  end.

(** [closing s]: the text before a final double quote. *)
Fixpoint closing (s : string) : option string :=
  match s with
  | EmptyString => None
  | String "034"%char EmptyString => Some ""
  | String c r =>
      match closing r with
      | Some k => Some (String c k)
      | None => None
      end
  end.

Definition has_colon (s : string) : bool := is_substring ":" s.

(** [mapping s], for the text after the opening quote of an item: the
    parts before and after its last colon, up to the closing quote. *)
Fixpoint mapping (s : string) : option (string * string) :=
  match s with
  | EmptyString => None
  | String c r =>
      match mapping r with
      | Some (h, p) => Some (String c h, p)
      | None =>
          if Ascii.eqb c ":"%char then
            match closing r with
            | Some p => Some ("", p)
            | None => None
            end
          else None
      end
  end.

Definition classify (l : string) : kind :=
  match l with
  | String " " (String " " (String " " (String " " (String " " (String " "
      (String "-" (String " " (String "034" r)))))))) =>
      match mapping r with
      | Some (h, p) => Item h p
      | None => Other
      end
  | String " " (String " " (String " " (String " " (String c r)))) =>
      if Ascii.eqb c " " then Other
      else match key (String c r) with Some k => Section k | None => Other end
  | String " " (String " " (String c r)) =>
      if Ascii.eqb c " " then Other
      else match key (String c r) with Some k => Service k | None => Other end
  | _ => Other
  end%char.

(** The mappings, each with the service it is listed under. *)
Fixpoint scan (service : string) (in_ports : bool) (ks : list kind)
  : list (string * string * string) :=
  match ks with
  | [] => []
  | Service s :: r => scan s false r
  | Section s :: r => scan service (String.eqb s "ports") r
  | Item h p :: r =>
      if in_ports then (service, h, p) :: scan service in_ports r
      else scan service in_ports r
  | Other :: r => scan service in_ports r
  end.

Definition ports (s : string) : list (string * string * string) :=
  scan "" false (map classify (lines s)).

End Compose.

(** ** Files of a project *)

(** What [path.join(p, ...names)] returns. *)
Definition project_file (p : string) (names : list string) : string :=
  match List.filter nonempty (p :: names) with
  | [] => "."
  | parts => normalize (join "/" parts)
  end.

(** The four files the app set-up tool writes in a project. *)
Definition frontend_path (p : string) : string :=
  project_file p ["frontend"; "Dockerfile"].
Definition backend_path (p : string) : string :=
  project_file p ["backend"; "Dockerfile"].
Definition compose_path (p : string) : string :=
  project_file p ["docker-compose.yml"].
Definition metadata_file (p : string) : string :=
  project_file p ["metadata.json"].

(** A plain file name: not empty, not [.] or [..], without slash. *)
Fixpoint no_slash (s : string) : bool :=
  match s with
  | EmptyString => true
  | String c r => negb (Ascii.eqb c "/"%char) && no_slash r
  end.

Definition plain (s : string) : bool :=
  nonempty s && negb (String.eqb s ".") && negb (String.eqb s "..") && no_slash s.

(** Segments joined, with a slash after the last one. *)
Definition directory_of (l : list string) : string :=
  match l with
  | [] => ""
  | _ => join "/" l +:+ "/"
  end.

(** What [path.join(p, name)] puts in front of a plain [name]: the
    normalised [p] with its slash; nothing for a [p] that normalises to
    the current directory. *)
Definition directory_prefix (p : string) : string :=
  match p with
  | EmptyString => ""
  | String c _ =>
      let isAbsolute := Ascii.eqb c "/"%char in
      (if isAbsolute then "/" else "") +:+
      directory_of (rev (normalize_segments (negb isAbsolute) [] (segments p)))
  end.

(** The separator of the members of a written object. *)
Definition separator : string := "," +:+ LF.

(** ** What a written object parses to *)

Definition json_of_value (v : jsval) : option json :=
  match v with
  | JUndefined => None
  | JNull => Some JsNull
  | JBool b => Some (JsBool b)
  | JStr s => Some (JsString s)
  end.

Fixpoint json_members (o : jsobject) : list (string * json) :=
  match o with
  | [] => []
  | (k, v) :: r =>
      match json_of_value v with
      | Some j => (k, j) :: json_members r
      | None => json_members r
      end
  end.

(** ** The tail steps of the app set-up tool *)

Section Tail.

Context {meta : Type}.
Variable E : env meta.

Definition launch_failure (msg : string) : event :=
  Stderr [Text "Error starting Docker containers:"; Text msg].

(** What [startDockerContainers] leaves on the trace. *)
Definition launch_events (projectPath : jsval) : list event :=
  [Stdout "Starting Docker containers...";
   Exec "docker-compose up -d" (Some (toString projectPath))] ++
  match commands E "docker-compose up -d" with
  | Succeeds => [Stdout "Docker containers started successfully."]
  | Fails msg => [launch_failure msg]
  end.

Definition pm2_failure (msg : string) : event :=
  Stderr [Text "Error installing PM2:"; Text msg].

(** What [installPM2] leaves on the trace. *)
Definition pm2_events (projectPath : jsval) : list event :=
  [Stdout "Installing PM2...";
   Exec "npm install -g pm2" (Some (toString projectPath))] ++
  match commands E "npm install -g pm2" with
  | Succeeds => [Stdout "PM2 installed successfully."]
  | Fails msg => [pm2_failure msg]
  end.

(** What the steps after the generation leave on the trace. *)
Definition tail_events (projectPath pm2 : jsval) : list event :=
  launch_events projectPath ++
  (if truthy pm2 then pm2_events projectPath else []) ++
  [Stdout "App setup completed successfully!"].

End Tail.

(** ** The generation steps of the app set-up tool *)

Definition generation_steps
  (projectPath domain frontendPort backendPort : jsval) : M unit :=
  AppSetup.generateDockerfiles projectPath ;;;
  AppSetup.generateDockerCompose projectPath frontendPort backendPort ;;;
  AppSetup.generateMetadata projectPath domain frontendPort backendPort.


(** ** Further notions *)

(** What an option the caller gave as [given] resolves to: itself when it
    is there, else what the operator types at the prompt [name]. *)
Definition asked {meta} (E : env meta) (given : jsval) (name : string)
  (default : option string) : jsval :=
  if truthy given then given else JStr (prompt_input E name default).

(** The commands run, in order. *)
Fixpoint executed (t : list event) : list string :=
  match t with
  | [] => []
  | Exec cmd _ :: r => cmd :: executed r
  | _ :: r => executed r
  end.

(** A text made of decimal digits. *)
Fixpoint digits (s : string) : bool :=
  match s with
  | EmptyString => true
  | String c r => is_digit c && digits r
  end.

(** [without_suffix suf s]: [s] without its suffix [suf]. *)
Fixpoint without_suffix (suf s : string) : option string :=
  if String.eqb s suf then Some ""
  else
    match s with
    | EmptyString => None
    | String c r =>
        match without_suffix suf r with
        | Some x => Some (String c x)
        | None => None
        end
    end.

(** ** Reading the routes of a configuration

    The routes of a configuration text, by its layout: a line
    [location <path> {] opens a location, a line [}] closes it, and a
    line [proxy_pass <target>;] inside gives the location its target. *)
Module Routes.

Inductive kind :=
| Open (path : string)
| Close
| Proxy (target : string)
| Other.

Definition classify (l : string) : kind :=
  let s := strip_indent l in
  match expect "location " s with
  | Some r =>
      match without_suffix " {" r with
      | Some p => Open p
      | None => Other
      end
  | None =>
      match expect "proxy_pass " s with
      | Some r =>
          match without_suffix ";" r with
          | Some t => Proxy t
          | None => Other
          end
      | None => if String.eqb s "}" then Close else Other
      end
  end.

Fixpoint scan (location : option string) (ks : list kind)
  : list (string * string) :=
  match ks with
  | [] => []
  | Open p :: r => scan (Some p) r
  | Close :: r => scan None r
  | Proxy t :: r =>
      match location with
      | Some p => (p, t) :: scan location r
      | None => scan location r
      end
  | Other :: r => scan location r
  end.

Definition routes (s : string) : list (string * string) :=
  scan None (map classify (lines s)).

End Routes.

(** ** Reading the metadata back

    What [add-site] takes out of a metadata file of the store:
    [fs.readJson] parses the text of the file, and
    [const { domain, frontendPort, backendPort } = metadata] takes the
    three properties, [undefined] for one that is missing.  Numbers,
    arrays and objects are not among the values modelled here: a
    property holding one has no value below. *)
Definition value_of_json (j : json) : option jsval :=
  match j with
  | JsNull => Some JNull
  | JsBool b => Some (JBool b)
  | JsString s => Some (JStr s)
  | _ => None
  end.

Definition property (k : string) (ms : list (string * json)) : option jsval :=
  match member k ms with
  | None => Some JUndefined
  | Some j => value_of_json j
  end.

(** Destructuring [null] throws; a string, a number, a boolean or an
    array has none of the three properties. *)
Definition destructure (j : json) : option Nginx.metadata :=
  match j with
  | JsNull => None
  | JsObject ms =>
      match property "domain" ms, property "frontendPort" ms,
            property "backendPort" ms with
      | Some d, Some f, Some b => Some (Nginx.mkMetadata d f b)
      | _, _, _ => None
      end
  | _ => Some (Nginx.mkMetadata JUndefined JUndefined JUndefined)
  end.

Definition stored_metadata (fs : gmap string node) (p : string)
  : option Nginx.metadata :=
  match resolve max_links fs p with
  | Some q =>
      match fs !! q with
      | Some (File text) =>
          match JSON_parse text with
          | Some j => destructure j
          | None => None
          end
      | _ => None
      end
  | None => None
  end.

(** ** Sample inputs *)

Module Sample.
Import Nginx.

Definition app_metadata : metadata :=
  mkMetadata (JStr "example.com") (JStr "3000") (JStr "5000").

(** Every command succeeds, the operator types nothing, the metadata file
    holds [app_metadata], the directories list nothing. *)
Definition calm : env metadata :=
  mkEnv metadata
    (fun _ => Succeeds) (fun _ => "") (fun _ => false)
    (fun _ => inl app_metadata) (fun _ => inl []).

(** [example.com] in the enabled directory is a link to another site. *)
Definition foreign_link : world :=
  mkWorld
    (<[enabled_path "example.com" := Symlink (available_path "default")]>
       (<[available_path "default" := File "server { listen 80; }"]> ∅))
    [].

(** [remove-site --domain example.com]. *)
Definition remove_example : remove_options :=
  mkRemoveOptions (JStr "example.com").

(** A machine without web server, where the package manager fails too. *)
Definition no_nginx : env metadata :=
  mkEnv metadata
    (fun c => if String.eqb c "nginx -s reload" then Succeeds else Fails "not found")
    (fun _ => "") (fun _ => false)
    (fun _ => inl app_metadata) (fun _ => inl []).

(** The certificate client and the reload fail. *)
Definition no_certificate : env metadata :=
  mkEnv metadata
    (fun c => if String.prefix "certbot" c then Fails "challenge failed"
              else if String.eqb c "nginx -s reload" then Fails "nginx: [emerg]"
              else Succeeds)
    (fun _ => "") (fun _ => false)
    (fun _ => inl app_metadata) (fun _ => inl []).

(** A machine with three available sites, two of them enabled. *)
Definition three_sites : env metadata :=
  mkEnv metadata
    (fun _ => Succeeds) (fun _ => "") (fun _ => false)
    (fun _ => inl app_metadata)
    (fun p =>
       if String.eqb p "/etc/nginx/sites-available"
       then inl ["default"; "example.com"; "old.example.com"]
       else inl ["example.com"; "default"]).

Definition fresh : world := mkWorld ∅ [].

(** The app set-up tool, called with all its flags,
    [-p /srv/app -d example.com -f 8080 -b 8081 --pm2]. *)
Definition app_flags : gmap string jsval :=
  <["projectPath" := JStr "/srv/app"]>
    (<["domain" := JStr "example.com"]>
       (<["frontendPort" := JStr "8080"]>
          (<["backendPort" := JStr "8081"]>
             (<["pm2" := JBool true]> ∅)))).

(** The app set-up tool, called without any flag. *)
Definition no_flags : gmap string jsval := ∅.

(** The operator types a domain and accepts every default. *)
Definition defaults : env unit :=
  mkEnv unit
    (fun _ => Succeeds)
    (fun n => if String.eqb n "domain" then "example.com" else "")
    (fun _ => false)
    (fun _ => inl tt) (fun _ => inl []).

(** A project whose [docker-compose.yml] is a directory. *)
Definition compose_blocked : world :=
  mkWorld (<["/srv/app/docker-compose.yml" := Dir]> ∅) [].

(** The metadata file cannot be read. *)
Definition no_metadata : env metadata :=
  mkEnv metadata
    (fun _ => Succeeds) (fun _ => "") (fun _ => false)
    (fun p => inr (mkError "ENOENT" "no such file or directory"))
    (fun _ => inl []).

(** The enabled directory cannot be listed. *)
Definition no_enabled_directory : env metadata :=
  mkEnv metadata
    (fun _ => Succeeds) (fun _ => "") (fun _ => false)
    (fun _ => inl app_metadata)
    (fun p =>
       if String.eqb p "/etc/nginx/sites-available"
       then inl ["default"]
       else inr (mkError "ENOENT" "no such file or directory")).

(** [example.com] in the enabled directory is a regular file. *)
Definition stray_file : world :=
  mkWorld (<[enabled_path "example.com" := File "stray"]> ∅) [].

(** The container tool and the package manager both fail. *)
Definition no_docker : env unit :=
  mkEnv unit
    (fun c => Fails ("Command failed: " +:+ c)) (fun _ => "") (fun _ => false)
    (fun _ => inl tt) (fun _ => inl []).

(** A project whose [frontend/Dockerfile] is a directory. *)
Definition blocked : world :=
  mkWorld (<["/srv/app/frontend/Dockerfile" := Dir]> ∅) [].

(** A second application, on other ports. *)
Definition other_metadata : metadata :=
  mkMetadata (JStr "example.org") (JStr "3001") (JStr "5001").

Definition other : env metadata :=
  mkEnv metadata
    (fun _ => Succeeds) (fun _ => "") (fun _ => false)
    (fun _ => inl other_metadata) (fun _ => inl []).

(** A machine where the metadata file of [/srv/app] holds the ports 8080
    and 8081 and no domain. *)
Definition set_up : env metadata :=
  mkEnv metadata
    (fun _ => Succeeds) (fun _ => "") (fun _ => false)
    (fun p => if String.eqb p "/srv/app/metadata.json"
              then inl (mkMetadata JUndefined (JStr "8080") (JStr "8081"))
              else inr (mkError "ENOENT" "no such file or directory"))
    (fun _ => inl []).

(** [add-site --metadata /srv/app/metadata.json --no-domain --no-ssl]. *)
Definition project_no_domain : add_options :=
  mkAddOptions (JStr "/srv/app/metadata.json") (JBool false) (JBool false).

(** [add-site --metadata metadata.json], with both toggles on. *)
Definition with_domain : add_options :=
  mkAddOptions (JStr "metadata.json") (JBool true) (JBool true).

(** [add-site --metadata metadata.json --no-domain]. *)
Definition no_domain : add_options :=
  mkAddOptions (JStr "metadata.json") (JBool true) (JBool false).

(** [add-site --metadata metadata.json --no-domain --no-ssl]. *)
Definition no_domain_no_ssl : add_options :=
  mkAddOptions (JStr "metadata.json") (JBool false) (JBool false).

End Sample.
(** * Properties *)

(** ** Lines of a text *)

Lemma append_cons (c : ascii) (a b : string) :
  String c a +:+ b = String c (a +:+ b).
Proof. reflexivity. Qed.

Lemma append_assoc (a b c : string) : (a +:+ b) +:+ c = a +:+ b +:+ c.
Proof.
  induction a as [|x a IH]; [reflexivity|]. by rewrite !append_cons, IH.
Qed.

Lemma append_nil_r (a : string) : a +:+ "" = a.
Proof. induction a as [|x a IH]; [reflexivity|]. by rewrite append_cons, IH. Qed.

Lemma lines_nonempty (s : string) : lines s <> [].
Proof.
  induction s as [|c r IH]; cbn; [done|].
  destruct (is_lf c); [done|]. by destruct (lines r).
Qed.

Lemma lines_LF (r : string) : lines (LF +:+ r) = "" :: lines r.
Proof. reflexivity. Qed.

Lemma lines_single (a b : string) :
  single_line a = true -> lines (a +:+ b) = prepend a (lines b).
Proof.
  induction a as [|c a IH]; intros Ha.
  - change ("" +:+ b) with b. pose proof (lines_nonempty b) as Hb.
    by destruct (lines b).
  - cbn in Ha. apply andb_prop in Ha as [Hc Ha].
    change (String c a +:+ b) with (String c (a +:+ b)). cbn [lines].
    destruct (is_lf c); [discriminate|].
    rewrite (IH Ha). pose proof (lines_nonempty b) as Hb.
    by destruct (lines b).
Qed.

Lemma lines_line (a b : string) :
  single_line a = true -> lines (a +:+ LF +:+ b) = a :: lines b.
Proof.
  intros Ha. rewrite (lines_single _ _ Ha), lines_LF. cbn.
  by rewrite append_nil_r.
Qed.

(** Whatever is put in front of a text, its lines after the first stay
    the last lines. *)
Lemma lines_app_suffix (a b h : string) (t : list string) :
  lines b = h :: t -> exists h' m, lines (a +:+ b) = h' :: m ++ t.
Proof.
  intros Hb. induction a as [|c a (h' & m & IH)].
  - exists h, []. done.
  - change (String c a +:+ b) with (String c (a +:+ b)). cbn [lines].
    destruct (is_lf c).
    + exists "", (h' :: m). by rewrite IH.
    + rewrite IH. by exists (String c h'), m.
Qed.

Lemma later_line_skip (l a b : string) :
  later_line l b -> later_line l (a +:+ b).
Proof.
  intros (h & t & Hb & Hl).
  destruct (lines_app_suffix a b h t Hb) as (h' & m & Hab).
  exists h', (m ++ t). split; [done|].
  rewrite existsb_app, Hl. apply orb_true_r.
Qed.

Lemma later_line_here (l x r : string) :
  single_line x = true -> strip_indent x = l ->
  later_line l (LF +:+ x +:+ LF +:+ r).
Proof.
  intros Hx Hl. exists "", (x :: lines r). split.
  - by rewrite lines_LF, lines_line.
  - cbn [existsb]. by rewrite Hl, String.eqb_refl.
Qed.

Lemma later_line_has_line (l s : string) : later_line l s -> has_line l s = true.
Proof.
  intros (h & t & Hs & Hl). unfold has_line. rewrite Hs. cbn [existsb].
  rewrite Hl. apply orb_true_r.
Qed.

Lemma last_lines_skip (t : list string) (a b : string) :
  last_lines t b -> last_lines t (a +:+ b).
Proof.
  intros (h & m & Hb).
  destruct (lines_app_suffix a b h (m ++ t) Hb) as (h' & m' & Hab).
  exists h', (m' ++ m). by rewrite <- app_assoc.
Qed.

Lemma prefix_is_substring (p s : string) :
  String.prefix p s = true -> is_substring p s = true.
Proof. intros H. destruct s; cbn [is_substring]; by rewrite H. Qed.

Lemma prefix_append (p r : string) : String.prefix p (p +:+ r) = true.
Proof.
  induction p as [|c p IH]; [by destruct r|].
  rewrite append_cons. cbn [String.prefix].
  destruct (ascii_dec c c); [done|congruence].
Qed.

Lemma is_substring_skip (p a s : string) :
  is_substring p s = true -> is_substring p (a +:+ s) = true.
Proof.
  intros H. induction a as [|c a IH]; [done|].
  change (String c a +:+ s) with (String c (a +:+ s)). cbn [is_substring].
  rewrite IH. apply orb_true_r.
Qed.

Lemma is_substring_mid (p a r : string) : is_substring p (a +:+ p +:+ r) = true.
Proof. apply is_substring_skip, prefix_is_substring, prefix_append. Qed.

(** ** Server blocks *)

(** A closing brace ends whatever block is open: the blocks of the text
    after it do not depend on what came before. *)
Lemma blocks_from_close (pre rest : list string) (st : option (list string)) :
  exists bs,
    blocks_from st (pre ++ "}" :: rest) = bs ++ blocks_from None rest /\
    (st <> None -> bs <> []).
Proof.
  revert st. induction pre as [|l pre IH]; intros st.
  - destruct st as [acc|]; cbn.
    + exists [rev acc]. done.
    + exists []. done.
  - destruct st as [acc|]; cbn [app blocks_from].
    + destruct (String.eqb l "}").
      * destruct (IH None) as (bs & -> & _). exists (rev acc :: bs). done.
      * destruct (IH (Some (l :: acc))) as (bs & -> & Hne). exists bs.
        split; [done|]. intros _. by apply Hne.
    + destruct (String.eqb l "server {").
      * destruct (IH (Some [])) as (bs & -> & _). exists bs. done.
      * destruct (IH None) as (bs & -> & _). exists bs. done.
Qed.

(** Splits a text made of literal pieces and of pieces known to hold no
    line feed into its lines. *)
Ltac split_lines :=
  rewrite ?append_assoc;
  repeat first
    [ rewrite lines_LF
    | rewrite lines_single by (reflexivity || assumption) ];
  cbn [prepend].

Lemma existsb_later {A} (f : A -> bool) (x : A) (l : list A) :
  existsb f l = true -> existsb f (x :: l) = true.
Proof. intros H. cbn. rewrite H. apply orb_true_r. Qed.

Lemma existsb_here {A} (f : A -> bool) (x : A) (l : list A) :
  f x = true -> existsb f (x :: l) = true.
Proof. intros H. cbn. by rewrite H. Qed.

(** Finds a line that follows a line feed and is followed by one. *)
Ltac find_line_from :=
  lazymatch goal with
  | |- later_line _ (LF +:+ _ +:+ LF +:+ _) =>
      first [ apply later_line_here; [reflexivity|reflexivity]
            | apply later_line_skip; find_line_from ]
  | |- later_line _ (_ +:+ _) => apply later_line_skip; find_line_from
  end.

Ltac find_line := apply later_line_has_line; find_line_from.

Lemma is_substring_indented (a x ax y z r : string) :
  ax = a +:+ x ->
  is_substring (x +:+ y +:+ z) (ax +:+ y +:+ z +:+ r) = true.
Proof.
  intros ->. rewrite append_assoc. apply is_substring_skip.
  rewrite <- !append_assoc, (append_assoc x y z).
  apply prefix_is_substring, prefix_append.
Qed.

(** Finds one of the two certificate directives. *)
Ltac find_path :=
  lazymatch goal with
  | |- is_substring _ ("    ssl_certificate /etc/letsencrypt/live/" +:+ _) = true =>
      first
        [ apply (is_substring_indented "    " "ssl_certificate /etc/letsencrypt/live/");
          reflexivity
        | apply is_substring_skip; find_path ]
  | |- is_substring _ ("    ssl_certificate_key /etc/letsencrypt/live/" +:+ _) = true =>
      first
        [ apply (is_substring_indented "    " "ssl_certificate_key /etc/letsencrypt/live/");
          reflexivity
        | apply is_substring_skip; find_path ]
  | |- is_substring _ (_ +:+ _) = true => apply is_substring_skip; find_path
  end.

(** ** Runs of the commands *)

Lemma log_log (w : world) (a b : list event) : log (log w a) b = log w (a ++ b).
Proof. unfold log. cbn. by rewrite app_assoc. Qed.

Lemma log_nil (w : world) : log w [] = w.
Proof. destruct w. unfold log. cbn. by rewrite app_nil_r. Qed.

Lemma emit_run (e : event) (w : world) : emit e w = (Done tt, log w [e]).
Proof. reflexivity. Qed.

Lemma files_log (w : world) (evs : list event) : files (log w evs) = files w.
Proof. reflexivity. Qed.

Lemma bind_run {A B} (m : M A) (k : A -> M B) (w w' : world) (a : A) :
  m w = (Done a, w') -> bind m k w = k a w'.
Proof. intros H. unfold bind. by rewrite H. Qed.

Lemma bind_exit {A B} (m : M A) (k : A -> M B) (w w' : world) (c : Z) :
  m w = (Exit c, w') -> bind m k w = (Exit c, w').
Proof. intros H. unfold bind. by rewrite H. Qed.

Lemma bind_throw {A B} (m : M A) (k : A -> M B) (w w' : world) (e : error) :
  m w = (Throw e, w') -> bind m k w = (Throw e, w').
Proof. intros H. unfold bind. by rewrite H. Qed.


Lemma bind_assoc {A B C} (m : M A) (k : A -> M B) (k' : B -> M C) (w : world) :
  bind (bind m k) k' w = bind m (fun x => bind (k x) k') w.
Proof. unfold bind. destruct (m w) as [[a|c|e] w']; reflexivity. Qed.

Section NginxRuns.
Import Nginx Site.

Variable E : env metadata.

Lemma ensureNginxInstalled_run (w : world) :
  ensureNginxInstalled E w =
  (if nginx_available E then Done tt else Exit 1%Z, log w (nginx_events E)).
Proof.
  unfold ensureNginxInstalled, nginx_available, nginx_events, try_catch,
    execSync, bind, console_log, console_error, emit, process_exit, ret,
    throw, log, install_failure.
  cbn.
  destruct (commands E "which nginx"); cbn; rewrite <- ?app_assoc; [done|].
  destruct (commands E "sudo apt-get update"); cbn; rewrite <- ?app_assoc;
    [|done].
  destruct (commands E "sudo apt-get install -y nginx"); cbn;
    by rewrite <- ?app_assoc.
Qed.

Lemma reloadNginx_run (w : world) :
  reloadNginx E w = (Done tt, log w (reload_events E)).
Proof.
  unfold reloadNginx, reload_events, try_catch, execSync, bind, console_log,
    console_error, emit, ret, throw, log, reload_failure.
  cbn. destruct (commands E "nginx -s reload"); cbn; by rewrite <- ?app_assoc.
Qed.

Lemma obtainSSLCertificate_run (d : jsval) (w : world) :
  obtainSSLCertificate E d w = (Done tt, log w (certificate_events E d)).
Proof.
  unfold obtainSSLCertificate, certificate_events, try_catch, execSync, bind,
    console_log, console_error, emit, ret, throw, log, certificate_failure.
  cbn. fold (certbot_command d).
  destruct (commands E (certbot_command d)); cbn; by rewrite <- ?app_assoc.
Qed.

End NginxRuns.

(** ** The file store *)

Lemma append_inj_l (p a b : string) : p +:+ a = p +:+ b -> a = b.
Proof.
  induction p as [|c p IH]; [done|]. rewrite !append_cons. intros [= H]. auto.
Qed.

Lemma available_path_inj (n m : string) :
  Nginx.available_path n = Nginx.available_path m -> n = m.
Proof. apply append_inj_l. Qed.

Lemma enabled_path_inj (n m : string) :
  Nginx.enabled_path n = Nginx.enabled_path m -> n = m.
Proof. apply append_inj_l. Qed.

Lemma available_enabled_ne (n m : string) :
  Nginx.available_path n <> Nginx.enabled_path m.
Proof. unfold Nginx.available_path, Nginx.enabled_path. intros H. discriminate H. Qed.

Lemma resolve_plain (fs : gmap string node) (p : string) (n : nat) :
  (forall t, fs !! p <> Some (Symlink t)) -> resolve n fs p = Some p.
Proof.
  intros H. destruct n; cbn; destruct (fs !! p) as [[]|] eqn:Hp; try done;
    by edestruct H.
Qed.

Lemma resolve_link (fs : gmap string node) (p t : string) (n : nat) :
  fs !! p = Some (Symlink t) -> resolve (S n) fs p = resolve n fs t.
Proof. intros H. cbn [resolve]. by rewrite H. Qed.

Lemma outputFile_writable (p c : string) (w : world) :
  writable (files w) p = true ->
  outputFile p c w = (Done tt, mkWorld (<[p := File c]> (files w)) (trace w)).
Proof.
  unfold writable, outputFile. intros H.
  rewrite resolve_plain; [|by intros t Ht; rewrite Ht in H].
  by destruct (files w !! p) as [[]|].
Qed.

Lemma outputFile_cases (p c : string) (w : world) :
  (exists fs', outputFile p c w = (Done tt, mkWorld fs' (trace w))) \/
  (exists e, outputFile p c w = (Throw e, w)).
Proof.
  unfold outputFile. destruct (resolve max_links (files w) p) as [q|]; [|eauto].
  destruct (files w !! q) as [[]|]; eauto.
Qed.

Lemma symlink_cases (src dst : string) (w : world) :
  (exists fs', symlink src dst w = (Done tt, mkWorld fs' (trace w))) \/
  (exists e, symlink src dst w = (Throw e, w)).
Proof. unfold symlink. destruct (files w !! dst); eauto. Qed.

Lemma ensureSymlink_cases (legacy : bool) (src dst : string) (w : world) :
  (exists fs', ensureSymlink legacy src dst w = (Done tt, mkWorld fs' (trace w))) \/
  (exists e, ensureSymlink legacy src dst w = (Throw e, w)).
Proof.
  assert (Hw : w = mkWorld (files w) (trace w)) by by destruct w.
  assert (Hc : forall create : M unit,
    create = match files w !! src with
             | Some _ => symlink src dst
             | None => throw (fs_error "ENOENT" "no such file or directory, ensureSymlink" src)
             end ->
    (exists fs', create w = (Done tt, mkWorld fs' (trace w))) \/
    (exists e, create w = (Throw e, w))).
  { intros create ->. destruct (files w !! src); [apply symlink_cases|].
    right. by eexists. }
  unfold ensureSymlink. destruct legacy.
  - destruct (stat (files w) dst); [|by apply Hc].
    left. exists (files w). by rewrite <- Hw.
  - destruct (files w !! dst) as [[]|]; try by apply Hc.
    destruct (stat (files w) src); [|right; by eexists].
    destruct (stat (files w) _); [|right; by eexists].
    destruct (String.eqb _ _); [|by apply Hc].
    left. exists (files w). by rewrite <- Hw.
Qed.

Lemma ensureSymlink_linkable (legacy : bool) (src dst c : string) (w : world) :
  files w !! src = Some (File c) ->
  linkable (files w) dst src = true ->
  ensureSymlink legacy src dst w =
  (Done tt, mkWorld (<[dst := Symlink src]> (files w)) (trace w)).
Proof.
  intros Hsrc. unfold linkable. intros Hdst.
  assert (Hstat : stat (files w) src = Some src).
  { unfold stat. rewrite resolve_plain; [by rewrite Hsrc|].
    intros t. by rewrite Hsrc. }
  destruct (files w !! dst) as [[| t |]|] eqn:Hd; try done.
  - apply String.eqb_eq in Hdst as ->.
    assert (Hstat' : stat (files w) dst = Some src).
    { unfold stat, max_links. rewrite (resolve_link _ _ _ 39 Hd).
      rewrite resolve_plain; [by rewrite Hsrc|]. intros t. by rewrite Hsrc. }
    assert (Hid : <[dst := Symlink src]> (files w) = files w)
      by by apply insert_id.
    rewrite Hid. unfold ensureSymlink.
    destruct legacy; rewrite ?Hd, ?Hstat, ?Hstat', ?String.eqb_refl;
      by destruct w.
  - assert (Hstat' : stat (files w) dst = None).
    { unfold stat. rewrite resolve_plain; [by rewrite Hd|].
      intros t. by rewrite Hd. }
    unfold ensureSymlink, symlink.
    destruct legacy; by rewrite ?Hd, ?Hstat', ?Hsrc, ?Hd.
Qed.

(** ** Runs of add-site and remove-site *)

Section SiteRuns.
Import Nginx Site.

Variable legacy : bool.
Variable E : env metadata.

Lemma readJson_run (options : add_options) (m : metadata) (w : world) :
  json_at E (metadata_path E options) = inl m ->
  (if truthy (opt_metadata options)
   then readJson E (toString (opt_metadata options))
   else readJson E (prompt_input E "metadataPath" None)) w = (Done m, w).
Proof.
  unfold metadata_path, readJson.
  destruct (truthy (opt_metadata options)); by intros ->.
Qed.

Lemma ready_writable (fs : gmap string node) (n : string) :
  ready fs n = true -> writable fs (available_path n) = true.
Proof. unfold ready. by intros [? ?]%andb_prop. Qed.

Lemma ready_linkable (fs : gmap string node) (n c : string) :
  ready fs n = true ->
  linkable (<[available_path n := File c]> fs) (enabled_path n) (available_path n)
  = true.
Proof.
  unfold ready, linkable. intros [_ H]%andb_prop.
  by rewrite lookup_insert_ne by apply available_enabled_ne.
Qed.

(** A run of [add-site] on a site whose two places can take it. *)
Lemma addSite_run (options : add_options) (m : metadata) (w : world) :
  nginx_available E = true ->
  json_at E (metadata_path E options) = inl m ->
  ready (files w) (name m options) = true ->
  addSite legacy E options w =
  (Done tt,
   mkWorld
     (<[enabled_path (name m options) := Symlink (available_path (name m options))]>
        (<[available_path (name m options) := File (config m options)]> (files w)))
     (trace w ++ added_events E m options)).
Proof.
  intros Hn Hm Hr. unfold addSite.
  erewrite bind_run; [|by rewrite ensureNginxInstalled_run, Hn].
  erewrite bind_run; [|by apply readJson_run].
  cbv zeta. fold (useDomain options) (useSSL options).
  fold (name m options) (config m options).
  erewrite bind_run;
    [|by apply outputFile_writable, ready_writable].
  erewrite bind_run;
    [|eapply ensureSymlink_linkable;
      [apply lookup_insert_eq|by apply ready_linkable]].
  cbn [files trace log].
  assert (Hc : forall w0,
    (if useDomain options && useSSL options
     then obtainSSLCertificate E (domain m) else ret tt) w0 =
    (Done tt, log w0 (if useDomain options && useSSL options
                      then certificate_events E (domain m) else []))).
  { intros w0. destruct (_ && _); [apply obtainSSLCertificate_run|].
    by rewrite log_nil. }
  erewrite bind_run; [|apply Hc].
  erewrite bind_run; [|apply reloadNginx_run].
  unfold console_log. rewrite emit_run, !log_log.
  unfold log, added_events. cbn [files trace].
  by rewrite <- !app_assoc.
Qed.

(** Without a web server, no command does anything. *)
Lemma addSite_exit (options : add_options) (w : world) :
  nginx_available E = false ->
  addSite legacy E options w = (Exit 1%Z, log w (nginx_events E)).
Proof.
  intros Hn. unfold addSite.
  erewrite bind_exit; [done|]. by rewrite ensureNginxInstalled_run, Hn.
Qed.

Lemma removeSite_run (options : remove_options) (w : world) :
  nginx_available E = true ->
  removeSite E options w =
  (Done tt,
   mkWorld
     (delete (enabled_path (removal_name E options))
        (delete (available_path (removal_name E options)) (files w)))
     (trace w ++ removed_events E options)).
Proof.
  intros Hn. unfold removeSite.
  erewrite bind_run; [|by rewrite ensureNginxInstalled_run, Hn].
  cbv zeta. fold (removal_name E options).
  unfold remove at 1. erewrite bind_run; [|reflexivity].
  unfold remove at 1. erewrite bind_run; [|reflexivity].
  erewrite bind_run; [|apply reloadNginx_run].
  unfold console_log. rewrite emit_run.
  unfold log, removed_events. cbn [files trace].
  by rewrite <- !app_assoc.
Qed.

Lemma removeSite_exit (options : remove_options) (w : world) :
  nginx_available E = false ->
  removeSite E options w = (Exit 1%Z, log w (nginx_events E)).
Proof.
  intros Hn. unfold removeSite.
  erewrite bind_exit; [done|]. by rewrite ensureNginxInstalled_run, Hn.
Qed.

Lemma certbot_runs_app (a b : list event) :
  certbot_runs (a ++ b) = certbot_runs a ++ certbot_runs b.
Proof. apply List.filter_app. Qed.

Lemma certbot_runs_nginx : certbot_runs (nginx_events E) = [].
Proof.
  unfold nginx_events, install_failure.
  destruct (commands E "which nginx"); [done|].
  destruct (commands E "sudo apt-get update"); [|done].
  by destruct (commands E "sudo apt-get install -y nginx").
Qed.

Lemma certbot_runs_reload : certbot_runs (reload_events E) = [].
Proof.
  unfold reload_events, reload_failure.
  by destruct (commands E "nginx -s reload").
Qed.

Lemma certbot_runs_added (m : metadata) (options : add_options) :
  useDomain options && useSSL options = false ->
  certbot_runs (added_events E m options) = [].
Proof.
  intros H. unfold added_events. rewrite H.
  by rewrite !certbot_runs_app, certbot_runs_nginx, certbot_runs_reload.
Qed.

(** Any run of [add-site]: what may be on the trace, and how it may end. *)
Lemma addSite_any (options : add_options) (w : world) :
  exists o fs' evs,
    addSite legacy E options w = (o, mkWorld fs' (trace w ++ evs)) /\
    (forall c, o = Exit c -> c = 1%Z /\ nginx_available E = false) /\
    (useDomain options && useSSL options = false -> certbot_runs evs = []).
Proof.
  destruct (nginx_available E) eqn:Hn.
  2:{ exists (Exit 1%Z), (files w), (nginx_events E).
      rewrite addSite_exit by done. split; [done|]. split.
      - by intros c [= <-].
      - intros _. apply certbot_runs_nginx. }
  destruct (json_at E (metadata_path E options)) as [m|e] eqn:Hm.
  2:{ exists (Throw e), (files w), (nginx_events E). unfold addSite.
      erewrite bind_run; [|by rewrite ensureNginxInstalled_run, Hn].
      erewrite bind_throw.
      - split; [done|]. split; [done|]. intros _. apply certbot_runs_nginx.
      - unfold metadata_path in Hm. unfold readJson.
        destruct (truthy (opt_metadata options)); by rewrite Hm. }
  unfold addSite.
  erewrite bind_run; [|by rewrite ensureNginxInstalled_run, Hn].
  erewrite bind_run; [|by apply readJson_run].
  cbv zeta. fold (useDomain options) (useSSL options).
  fold (name m options) (config m options).
  destruct (outputFile_cases (available_path (name m options))
              (config m options) (log w (nginx_events E)))
    as [[fs1 H1]|[e H1]].
  2:{ exists (Throw e), (files w), (nginx_events E).
      erewrite bind_throw; [|exact H1].
      split; [done|]. split; [done|]. intros _. apply certbot_runs_nginx. }
  erewrite bind_run; [|exact H1].
  destruct (ensureSymlink_cases legacy (available_path (name m options))
              (enabled_path (name m options))
              (mkWorld fs1 (trace (log w (nginx_events E)))))
    as [[fs2 H2]|[e H2]].
  2:{ exists (Throw e), fs1, (nginx_events E).
      erewrite bind_throw; [|exact H2].
      split; [done|]. split; [done|]. intros _. apply certbot_runs_nginx. }
  erewrite bind_run; [|exact H2].
  assert (Hc : forall w0,
    (if useDomain options && useSSL options
     then obtainSSLCertificate E (domain m) else ret tt) w0 =
    (Done tt, log w0 (if useDomain options && useSSL options
                      then certificate_events E (domain m) else []))).
  { intros w0. destruct (_ && _); [apply obtainSSLCertificate_run|].
    by rewrite log_nil. }
  erewrite bind_run; [|apply Hc].
  erewrite bind_run; [|apply reloadNginx_run].
  unfold console_log. rewrite emit_run, !log_log.
  exists (Done tt), fs2, (added_events E m options).
  split; [|split; [done|by apply certbot_runs_added]].
  unfold log, added_events. cbn [files trace]. by rewrite <- !app_assoc.
Qed.

End SiteRuns.

(** ** The generated configuration *)

Section Configuration.
Import Nginx Site.

Variables d fp bp : jsval.

(** Without domain, and with values that hold no line feed. *)
Lemma config_without_domain (ssl : bool) :
  single_line (toString fp) = true ->
  single_line (toString bp) = true ->
  (ssl = true -> single_line (toString d) = true) ->
  let c := generateNginxConfig d fp bp false ssl in
  has_line "listen 80;" c = negb ssl /\
  has_line "listen 443 ssl;" c = ssl /\
  directive_lines "server_name" c = [] /\
  directive_lines "return" c = [] /\
  length (server_blocks c) = 1.
Proof.
  intros Hf Hb Hd c. subst c.
  unfold has_line, directive_lines, server_blocks, generateNginxConfig.
  destruct ssl; cbn [andb].
  - specialize (Hd eq_refl). split_lines. by vm_compute.
  - split_lines. by vm_compute.
Qed.

(** With SSL, whatever the values: the listening line and the two
    certificate paths. *)
Lemma config_with_ssl (dom : bool) :
  let c := generateNginxConfig d fp bp dom true in
  has_line "listen 443 ssl;" c = true /\
  is_substring
    ("ssl_certificate /etc/letsencrypt/live/" +:+ toString d +:+ "/fullchain.pem;")
    c = true /\
  is_substring
    ("ssl_certificate_key /etc/letsencrypt/live/" +:+ toString d +:+ "/privkey.pem;")
    c = true.
Proof.
  intros c. subst c. unfold generateNginxConfig.
  destruct dom; cbn [andb]; rewrite !append_assoc.
  all: split; [find_line|split].
  all: find_path.
Qed.

End Configuration.

(** With the domain [example.com] and SSL, whatever the ports. *)
Lemma config_example_com (fp bp : jsval) :
  let c := Nginx.generateNginxConfig (JStr "example.com") fp bp true true in
  has_line "server_name example.com;" c = true /\
  has_line "listen 443 ssl;" c = true /\
  exists first rest,
    server_blocks c =
    first :: rest ++
    [["    listen 80;"; "    server_name example.com;";
      "    return 301 https://$host$request_uri;"]] /\
    (single_line (toString fp) = true -> single_line (toString bp) = true ->
     rest = []).
Proof.
  intros c. split; [|split].
  - subst c. unfold has_line, Nginx.generateNginxConfig. cbn [andb toString].
    split_lines. do 2 apply existsb_later. by apply existsb_here.
  - apply (config_with_ssl (JStr "example.com") fp bp true).
  - assert (Hl : exists h m,
      lines c =
      "" :: "server {" :: (h :: m) ++ "}" ::
      [""; "server {"; "    listen 80;"; "    server_name example.com;";
       "    return 301 https://$host$request_uri;"; "}"; ""]).
    { subst c. unfold Nginx.generateNginxConfig. cbn [andb toString].
      rewrite !append_assoc, lines_LF, lines_line by done.
      match goal with
      | |- exists h m, _ :: _ :: lines ?y = _ :: _ :: (h :: m) ++ ?t =>
          assert (Hy : last_lines t y)
      end.
      { repeat
          lazymatch goal with
          | |- last_lines _ (LF +:+ "}" +:+ _) => by exists "", []
          | |- last_lines _ (_ +:+ _) => apply last_lines_skip
          end. }
      destruct Hy as (h & m & ->). by exists h, m. }
    destruct Hl as (h & m & Hl). unfold server_blocks. rewrite Hl.
    cbn [blocks_from String.eqb Ascii.eqb Bool.eqb].
    destruct (blocks_from_close (h :: m)
      [""; "server {"; "    listen 80;"; "    server_name example.com;";
       "    return 301 https://$host$request_uri;"; "}"; ""] (Some []))
      as (bs & Hbs & Hne).
    destruct bs as [|first rest]; [by destruct Hne|].
    exists first, rest. split; [exact Hbs|].
    intros Hf Hb.
    assert (Hlen : length (server_blocks c) = 2).
    { subst c. unfold server_blocks, Nginx.generateNginxConfig.
      cbn [andb toString]. split_lines. by vm_compute. }
    unfold server_blocks in Hlen. rewrite Hl in Hlen.
    cbn [blocks_from String.eqb Ascii.eqb Bool.eqb] in Hlen.
    rewrite Hbs in Hlen. cbn in Hlen. rewrite length_app in Hlen. cbn in Hlen.
    destruct rest; [done|]. cbn in Hlen. lia.
Qed.

(** ** Runs of list-sites *)

Section ListRuns.
Import Nginx Site.

Variable E : env metadata.

Lemma printEnabled_run (l : list string) (w : world) :
  printEnabled l w = (Done tt, log w (map enabled_line l)).
Proof.
  revert w. induction l as [|s l IH]; intros w.
  - by rewrite log_nil.
  - cbn [printEnabled map]. unfold console_log.
    erewrite bind_run; [|apply emit_run]. by rewrite IH, log_log.
Qed.

Lemma printDisabled_run (a e : list string) (w : world) :
  printDisabled a e w =
  (Done tt,
   log w (map disabled_line (List.filter (fun s => negb (includes e s)) a))).
Proof.
  revert w. induction a as [|s a IH]; intros w.
  - by rewrite log_nil.
  - cbn [printDisabled List.filter]. destruct (negb (includes e s)).
    + unfold console_log. erewrite bind_run; [|apply emit_run].
      by rewrite IH, log_log.
    + erewrite bind_run; [|reflexivity]. by rewrite IH.
Qed.

Lemma listSites_run (a e : list string) (w : world) :
  nginx_available E = true ->
  listing E "/etc/nginx/sites-available" = inl a ->
  listing E "/etc/nginx/sites-enabled" = inl e ->
  listSites E w = (Done tt, log w (nginx_events E ++ listed a e)).
Proof.
  intros Hn Ha He. unfold listSites, readdir.
  erewrite bind_run; [|by rewrite ensureNginxInstalled_run, Hn].
  rewrite Ha, He.
  erewrite bind_run; [|reflexivity]. erewrite bind_run; [|reflexivity].
  unfold console_log.
  erewrite bind_run; [|apply emit_run].
  erewrite bind_run; [|apply printEnabled_run].
  erewrite bind_run; [|apply emit_run].
  rewrite printDisabled_run, !log_log. unfold listed.
  by rewrite <- ?app_assoc.
Qed.

Lemma listSites_exit (w : world) :
  nginx_available E = false ->
  listSites E w = (Exit 1%Z, log w (nginx_events E)).
Proof.
  intros Hn. unfold listSites.
  erewrite bind_exit; [done|]. by rewrite ensureNginxInstalled_run, Hn.
Qed.

Lemma listSites_any_exit (w : world) (c : Z) :
  fst (listSites E w) = Exit c -> c = 1%Z /\ nginx_available E = false.
Proof.
  destruct (nginx_available E) eqn:Hn.
  2:{ rewrite listSites_exit by done. by intros [= <-]. }
  destruct (listing E "/etc/nginx/sites-available") as [a|e] eqn:Ha.
  2:{ unfold listSites, readdir.
      erewrite bind_run; [|by rewrite ensureNginxInstalled_run, Hn].
      rewrite Ha. by erewrite bind_throw. }
  destruct (listing E "/etc/nginx/sites-enabled") as [e|e'] eqn:He.
  2:{ unfold listSites, readdir.
      erewrite bind_run; [|by rewrite ensureNginxInstalled_run, Hn].
      rewrite Ha, He. erewrite bind_run; [|reflexivity].
      by erewrite bind_throw. }
  by rewrite (listSites_run a e).
Qed.

End ListRuns.

(** * The claims *)

Section AddSite.
Import Nginx Site.

(** C1, as stated, fails: [add-site --no-domain] leaves SSL on, and the
    configuration it writes under the name [site_3000_5000] listens on 443
    and has no [listen 80;] line. *)
Lemma add_site_without_domain_keeps_ssl :
  exists w' c,
    addSite false Sample.calm Sample.no_domain Sample.fresh = (Done tt, w') /\
    files w' !! available_path "site_3000_5000" = Some (File c) /\
    has_line "listen 80;" c = false /\
    has_line "listen 443 ssl;" c = true.
Proof.
  exists (snd (addSite false Sample.calm Sample.no_domain Sample.fresh)),
    (config Sample.app_metadata Sample.no_domain).
  by vm_compute.
Qed.

(** C1, amended: without domain, and for metadata values that hold no
    line feed, a run that goes through writes the configuration under the
    name [site_<frontendPort>_<backendPort>]; the configuration has no
    [server_name] line, no [return] line and a single server block; it has
    the line [listen 80;] when SSL is off, and the line [listen 443 ssl;]
    in its place when SSL is on. *)
Theorem add_site_without_domain
  (legacy : bool) (E : env metadata) (options : add_options)
  (m : metadata) (w : world) :
  useDomain options = false ->
  single_line (toString (frontendPort m)) = true ->
  single_line (toString (backendPort m)) = true ->
  (useSSL options = true -> single_line (toString (domain m)) = true) ->
  nginx_available E = true ->
  json_at E (metadata_path E options) = inl m ->
  ready (files w) (name m options) = true ->
  exists w' c,
    addSite legacy E options w = (Done tt, w') /\
    files w' !!
      available_path
        ("site_" +:+ toString (frontendPort m) +:+ "_" +:+ toString (backendPort m))
    = Some (File c) /\
    has_line "listen 80;" c = negb (useSSL options) /\
    has_line "listen 443 ssl;" c = useSSL options /\
    directive_lines "server_name" c = [] /\
    directive_lines "return" c = [] /\
    length (server_blocks c) = 1.
Proof.
  intros Hd Hf Hb Hs Hn Hm Hr.
  eexists _, (config m options). split; [by apply addSite_run|].
  split.
  - cbn [files]. unfold name, configName. rewrite Hd. cbn [toString].
    rewrite lookup_insert_ne by (apply not_eq_sym, available_enabled_ne).
    apply lookup_insert_eq.
  - unfold config. rewrite Hd. by apply config_without_domain.
Qed.

Lemma add_site_without_domain_witness :
  exists w' c,
    addSite false Sample.calm Sample.no_domain_no_ssl Sample.fresh = (Done tt, w') /\
    files w' !! available_path ("site_" +:+ "3000" +:+ "_" +:+ "5000")
    = Some (File c) /\
    has_line "listen 80;" c = negb false /\
    has_line "listen 443 ssl;" c = false /\
    directive_lines "server_name" c = [] /\
    directive_lines "return" c = [] /\
    length (server_blocks c) = 1.
Proof.
  apply (add_site_without_domain false Sample.calm Sample.no_domain_no_ssl
           Sample.app_metadata Sample.fresh);
    first [ reflexivity | discriminate ].
Defined.

(** C3: with the domain [example.com] and SSL, a run that goes through
    writes the configuration under the name [example.com]; whatever the
    ports, it has the lines [server_name example.com;] and
    [listen 443 ssl;], and after its first server block comes a block
    made of [listen 80;], [server_name example.com;] and
    [return 301 https://$host$request_uri;] -- the second block, when the
    ports hold no line feed. *)
Theorem add_site_example_com
  (legacy : bool) (E : env metadata) (options : add_options)
  (m : metadata) (w : world) :
  useDomain options = true ->
  useSSL options = true ->
  domain m = JStr "example.com" ->
  nginx_available E = true ->
  json_at E (metadata_path E options) = inl m ->
  ready (files w) "example.com" = true ->
  exists w' c,
    addSite legacy E options w = (Done tt, w') /\
    files w' !! available_path "example.com" = Some (File c) /\
    files w' !! enabled_path "example.com"
    = Some (Symlink (available_path "example.com")) /\
    has_line "server_name example.com;" c = true /\
    has_line "listen 443 ssl;" c = true /\
    exists first rest,
      server_blocks c =
      first :: rest ++
      [["    listen 80;"; "    server_name example.com;";
        "    return 301 https://$host$request_uri;"]] /\
      (single_line (toString (frontendPort m)) = true ->
       single_line (toString (backendPort m)) = true ->
       rest = []).
Proof.
  intros Hd Hs Hdom Hn Hm Hr.
  assert (Hname : name m options = "example.com").
  { unfold name, configName. by rewrite Hd, Hdom. }
  eexists _, (config m options). split.
  { apply addSite_run; try done. by rewrite Hname. }
  rewrite Hname. cbn [files]. split; [|split].
  - rewrite lookup_insert_ne by (apply not_eq_sym, available_enabled_ne).
    apply lookup_insert_eq.
  - apply lookup_insert_eq.
  - unfold config. rewrite Hd, Hs, Hdom. apply config_example_com.
Qed.

Lemma add_site_example_com_witness :
  exists w' c,
    addSite false Sample.calm Sample.with_domain Sample.fresh = (Done tt, w') /\
    files w' !! available_path "example.com" = Some (File c) /\
    files w' !! enabled_path "example.com"
    = Some (Symlink (available_path "example.com")) /\
    has_line "server_name example.com;" c = true /\
    has_line "listen 443 ssl;" c = true /\
    exists first rest,
      server_blocks c =
      first :: rest ++
      [["    listen 80;"; "    server_name example.com;";
        "    return 301 https://$host$request_uri;"]] /\
      (single_line "3000" = true -> single_line "5000" = true -> rest = []).
Proof.
  apply (add_site_example_com false Sample.calm Sample.with_domain
           Sample.app_metadata Sample.fresh);
    reflexivity.
Defined.

(** C10: with SSL and without domain, the configuration, named after the
    two ports, still has the line [listen 443 ssl;] and names the two
    certificate files below [/etc/letsencrypt/live/<domain>/], with
    whatever the metadata gives as domain ([undefined] when it gives
    none); no run of [add-site] with these toggles starts the certificate
    client, whose runs on the trace of any [add-site] show that both
    toggles were on. *)
Theorem add_site_ssl_without_domain
  (legacy : bool) (E : env metadata) (options : add_options)
  (m : metadata) (w : world) :
  useSSL options = true ->
  useDomain options = false ->
  name m options
  = "site_" +:+ toString (frontendPort m) +:+ "_" +:+ toString (backendPort m) /\
  has_line "listen 443 ssl;" (config m options) = true /\
  is_substring
    ("ssl_certificate /etc/letsencrypt/live/" +:+ toString (domain m) +:+
     "/fullchain.pem;")
    (config m options) = true /\
  is_substring
    ("ssl_certificate_key /etc/letsencrypt/live/" +:+ toString (domain m) +:+
     "/privkey.pem;")
    (config m options) = true /\
  certbot_runs (trace (snd (addSite legacy E options w))) = certbot_runs (trace w) /\
  (nginx_available E = true ->
   json_at E (metadata_path E options) = inl m ->
   ready (files w) (name m options) = true ->
   exists w',
     addSite legacy E options w = (Done tt, w') /\
     enabled (files w') (name m options) (config m options)) /\
  (forall options',
     certbot_runs (trace (snd (addSite legacy E options' w)))
     <> certbot_runs (trace w) ->
     useDomain options' = true /\ useSSL options' = true) /\
  (forall options',
     useDomain options' = true -> useSSL options' = true ->
     nginx_available E = true ->
     json_at E (metadata_path E options') = inl m ->
     ready (files w) (name m options') = true ->
     certbot_runs (trace (snd (addSite legacy E options' w)))
     = certbot_runs (trace w) ++ [Exec (certbot_command (domain m)) None]).
Proof.
  intros Hs Hd.
  assert (Hquiet : forall o,
    useDomain o && useSSL o = false ->
    certbot_runs (trace (snd (addSite legacy E o w))) = certbot_runs (trace w)).
  { intros o Ho. destruct (addSite_any legacy E o w) as (r & fs' & evs & -> & _ & He).
    cbn [snd trace]. by rewrite certbot_runs_app, (He Ho), app_nil_r. }
  split; [|split; [|split; [|split; [|split; [|split; [|split]]]]]].
  - unfold name, configName. by rewrite Hd.
  - unfold config. rewrite Hs. apply config_with_ssl.
  - unfold config. rewrite Hs. apply config_with_ssl.
  - unfold config. rewrite Hs. apply config_with_ssl.
  - apply Hquiet. by rewrite Hd.
  - intros Hn Hm Hr. eexists. split; [by apply addSite_run|].
    unfold enabled. cbn [files]. split.
    + rewrite lookup_insert_ne by (apply not_eq_sym, available_enabled_ne).
      apply lookup_insert_eq.
    + apply lookup_insert_eq.
  - intros o Ho. destruct (useDomain o) eqn:Hod, (useSSL o) eqn:Hos; try done.
    all: exfalso; apply Ho, Hquiet; by rewrite Hod, Hos.
  - intros o Hod Hos Hn Hm Hr. rewrite (addSite_run legacy E o m w) by done.
    cbn [snd trace]. unfold added_events. rewrite Hod, Hos. cbn [andb].
    rewrite !certbot_runs_app, certbot_runs_nginx, certbot_runs_reload.
    unfold certificate_events, certificate_failure.
    by destruct (commands E (certbot_command (domain m))).
Qed.

Lemma add_site_ssl_without_domain_witness :
  has_line "listen 443 ssl;" (config Sample.app_metadata Sample.no_domain) = true /\
  certbot_runs
    (trace (snd (addSite false Sample.calm Sample.no_domain Sample.fresh)))
  = certbot_runs (trace Sample.fresh).
Proof.
  destruct (add_site_ssl_without_domain false Sample.calm Sample.no_domain
              Sample.app_metadata Sample.fresh)
    as (_ & H1 & _ & _ & H2 & _); [reflexivity|reflexivity|].
  exact (conj H1 H2).
Defined.

End AddSite.

Section TwoDirectories.
Import Nginx Site.

Lemma consistent_empty : consistent ∅.
Proof. intros n. split; [done|]. left. apply lookup_empty. Qed.

Lemma consistent_ready (fs : gmap string node) (n : string) :
  consistent fs -> ready fs n = true.
Proof.
  intros H. destruct (H n) as [Hw He]. unfold ready, linkable.
  rewrite Hw. destruct He as [->|(c & _ & ->)]; [done|].
  by rewrite String.eqb_refl.
Qed.

Lemma added_available (fs : gmap string node) (n c k : string) :
  <[enabled_path n := Symlink (available_path n)]>
    (<[available_path n := File c]> fs) !! available_path k
  = if decide (k = n) then Some (File c) else fs !! available_path k.
Proof.
  rewrite lookup_insert_ne by (apply not_eq_sym, available_enabled_ne).
  case_decide as Hk.
  - subst k. apply lookup_insert_eq.
  - apply lookup_insert_ne. intros Heq. apply Hk. symmetry.
    by apply available_path_inj.
Qed.

Lemma added_enabled (fs : gmap string node) (n c k : string) :
  <[enabled_path n := Symlink (available_path n)]>
    (<[available_path n := File c]> fs) !! enabled_path k
  = if decide (k = n) then Some (Symlink (available_path n))
    else fs !! enabled_path k.
Proof.
  case_decide as Hk.
  - subst k. apply lookup_insert_eq.
  - rewrite lookup_insert_ne.
    + apply lookup_insert_ne, available_enabled_ne.
    + intros Heq. apply Hk. symmetry. by apply enabled_path_inj.
Qed.

Lemma removed_available (fs : gmap string node) (n k : string) :
  delete (enabled_path n) (delete (available_path n) fs) !! available_path k
  = if decide (k = n) then None else fs !! available_path k.
Proof.
  rewrite lookup_delete_ne by (apply not_eq_sym, available_enabled_ne).
  case_decide as Hk.
  - subst k. apply lookup_delete_eq.
  - apply lookup_delete_ne. intros Heq. apply Hk. symmetry.
    by apply available_path_inj.
Qed.

Lemma removed_enabled (fs : gmap string node) (n k : string) :
  delete (enabled_path n) (delete (available_path n) fs) !! enabled_path k
  = if decide (k = n) then None else fs !! enabled_path k.
Proof.
  case_decide as Hk.
  - subst k. apply lookup_delete_eq.
  - rewrite lookup_delete_ne.
    + apply lookup_delete_ne, available_enabled_ne.
    + intros Heq. apply Hk. symmetry. by apply enabled_path_inj.
Qed.

Lemma consistent_add (fs : gmap string node) (n c : string) :
  consistent fs ->
  consistent
    (<[enabled_path n := Symlink (available_path n)]>
       (<[available_path n := File c]> fs)).
Proof.
  intros H k. destruct (H k) as [Hw He]. unfold writable, enabled in *.
  destruct (decide (k = n)) as [->|Hk].
  - split.
    + by rewrite added_available, decide_True.
    + right. exists c. by rewrite added_available, added_enabled, !decide_True.
  - split.
    + by rewrite added_available, decide_False.
    + destruct He as [He|(c' & Ha & He)]; [left|right; exists c'].
      * by rewrite added_enabled, decide_False.
      * by rewrite added_available, added_enabled, !decide_False.
Qed.

Lemma consistent_remove (fs : gmap string node) (n : string) :
  consistent fs ->
  consistent (delete (enabled_path n) (delete (available_path n) fs)).
Proof.
  intros H k. destruct (H k) as [Hw He]. unfold writable, enabled in *.
  destruct (decide (k = n)) as [->|Hk].
  - split.
    + by rewrite removed_available, decide_True.
    + left. by rewrite removed_enabled, decide_True.
  - split.
    + by rewrite removed_available, decide_False.
    + destruct He as [He|(c' & Ha & He)]; [left|right; exists c'].
      * by rewrite removed_enabled, decide_False.
      * by rewrite removed_available, removed_enabled, !decide_False.
Qed.






End TwoDirectories.

Section ExitBehaviour.
Import Nginx Site.

Lemma install_failure_last (E : env metadata) :
  nginx_available E = false ->
  exists msg,
    last (nginx_events E) = Some (install_failure msg) /\
    (commands E "sudo apt-get update" = Fails msg \/
     commands E "sudo apt-get install -y nginx" = Fails msg).
Proof.
  unfold nginx_available, nginx_events.
  destruct (commands E "which nginx"); [done|].
  destruct (commands E "sudo apt-get update") as [|msg1] eqn:Hu.
  - destruct (commands E "sudo apt-get install -y nginx") as [|msg2]; [done|].
    intros _. exists msg2. auto.
  - intros _. exists msg1. auto.
Qed.

(** C6: [process.exit] is reached in one place only, the failed
    installation of the web server: a run of any of the three commands
    ends by an exit exactly when the server is missing and the package
    manager fails, the status is then 1, the failure is the last thing on
    the trace, on standard error, and nothing else was done.  A failure of
    the certificate client or of the reload is caught where it happens and
    leaves its message on standard error; the commands go on to their
    message of success. *)
Theorem exit_only_when_install_fails
  (legacy : bool) (E : env metadata) (ao : add_options) (ro : remove_options)
  (w : world) :
  (forall c,
     fst (addSite legacy E ao w) = Exit c \/
     fst (removeSite E ro w) = Exit c \/
     fst (listSites E w) = Exit c ->
     c = 1%Z /\ nginx_available E = false) /\
  (nginx_available E = false ->
   addSite legacy E ao w = (Exit 1%Z, log w (nginx_events E)) /\
   removeSite E ro w = (Exit 1%Z, log w (nginx_events E)) /\
   listSites E w = (Exit 1%Z, log w (nginx_events E)) /\
   exists msg,
     last (nginx_events E) = Some (install_failure msg) /\
     (commands E "sudo apt-get update" = Fails msg \/
      commands E "sudo apt-get install -y nginx" = Fails msg)) /\
  (forall d w0,
     obtainSSLCertificate E d w0 = (Done tt, log w0 (certificate_events E d))) /\
  (forall d msg,
     commands E (certbot_command d) = Fails msg ->
     last (certificate_events E d) = Some (certificate_failure msg)) /\
  (forall w0, reloadNginx E w0 = (Done tt, log w0 (reload_events E))) /\
  (forall msg,
     commands E "nginx -s reload" = Fails msg ->
     last (reload_events E) = Some (reload_failure msg)) /\
  (nginx_available E = true ->
   exists fs',
     removeSite E ro w = (Done tt, mkWorld fs' (trace w ++ removed_events E ro))) /\
  (forall m,
     nginx_available E = true ->
     json_at E (metadata_path E ao) = inl m ->
     ready (files w) (name m ao) = true ->
     exists fs',
       addSite legacy E ao w
       = (Done tt, mkWorld fs' (trace w ++ added_events E m ao))).
Proof.
  split; [|split; [|split; [|split; [|split; [|split; [|split]]]]]].
  - intros c [H|[H|H]].
    + destruct (addSite_any legacy E ao w) as (o & fs' & evs & Hrun & Hexit & _).
      rewrite Hrun in H. by apply Hexit.
    + destruct (nginx_available E) eqn:Hn.
      * by rewrite removeSite_run in H.
      * rewrite removeSite_exit in H by done. by injection H as <-.
    + by apply listSites_any_exit in H.
  - intros Hn. split; [by apply addSite_exit|].
    split; [by apply removeSite_exit|]. split; [by apply listSites_exit|].
    by apply install_failure_last.
  - apply obtainSSLCertificate_run.
  - intros d msg H. unfold certificate_events. by rewrite H.
  - apply reloadNginx_run.
  - intros msg H. unfold reload_events. by rewrite H.
  - intros Hn. eexists. by apply removeSite_run.
  - intros m Hn Hm Hr. eexists. by apply addSite_run.
Qed.

(** A run of [add-site] where the certificate client and the reload both
    fail: both failures are on standard error, and the run ends with its
    message of success. *)
Example add_site_with_failing_tail :
  addSite false Sample.no_certificate Sample.with_domain Sample.fresh
  = (Done tt,
     mkWorld
       (files (snd (addSite false Sample.calm Sample.with_domain Sample.fresh)))
       [Exec "which nginx" None;
        Stdout "Nginx is already installed.";
        Stdout "Obtaining SSL certificate for example.com...";
        Exec "certbot --nginx -d example.com --non-interactive --agree-tos --email admin@example.com" None;
        Stderr [Text "Error obtaining SSL certificate:"; Text "challenge failed"];
        Stdout "Reloading Nginx...";
        Exec "nginx -s reload" None;
        Stderr [Text "Error reloading Nginx:"; Text "nginx: [emerg]"];
        Stdout "Site example.com added successfully!"]).
Proof. by vm_compute. Qed.

(** A run on a machine without web server where the installation fails. *)
Example add_site_without_nginx :
  addSite false Sample.no_nginx Sample.with_domain Sample.fresh
  = (Exit 1%Z,
     mkWorld ∅
       [Exec "which nginx" None;
        Stdout "Nginx is not installed. Installing Nginx...";
        Exec "sudo apt-get update" None;
        Stderr [Text "Failed to install Nginx:"; Text "not found"]]).
Proof. by vm_compute. Qed.

End ExitBehaviour.

Section Listing.
Import Nginx Site.

Lemma list_ascii_append (a b : string) :
  String.list_ascii_of_string (a +:+ b)
  = String.list_ascii_of_string a ++ String.list_ascii_of_string b.
Proof.
  induction a as [|c a IH]; [done|]. rewrite append_cons. cbn. by rewrite IH.
Qed.

Lemma list_ascii_inj (a b : string) :
  String.list_ascii_of_string a = String.list_ascii_of_string b -> a = b.
Proof.
  intros H. rewrite <- (String.string_of_list_ascii_of_string a),
    <- (String.string_of_list_ascii_of_string b). by rewrite H.
Qed.

Lemma append_inj_r (a b s : string) : a +:+ s = b +:+ s -> a = b.
Proof.
  intros H. apply list_ascii_inj.
  apply (f_equal String.list_ascii_of_string) in H.
  rewrite !list_ascii_append in H. by apply app_inv_tail in H.
Qed.

Lemma enabled_line_inj (s t : string) : enabled_line s = enabled_line t -> s = t.
Proof.
  unfold enabled_line. intros [= H]. apply append_inj_l in H.
  by apply append_inj_r in H.
Qed.

Lemma disabled_line_inj (s t : string) :
  disabled_line s = disabled_line t -> s = t.
Proof.
  unfold disabled_line. intros [= H]. apply append_inj_l in H.
  by apply append_inj_r in H.
Qed.

Lemma enabled_not_disabled (s t : string) : enabled_line s <> disabled_line t.
Proof.
  unfold enabled_line, disabled_line. intros [= H]. apply append_inj_l in H.
  apply (f_equal String.list_ascii_of_string) in H.
  rewrite !list_ascii_append in H.
  apply (f_equal (@rev ascii)) in H. rewrite !rev_app_distr in H.
  cbn in H. discriminate H.
Qed.

Lemma includes_In (l : list string) (x : string) :
  includes l x = true <-> In x l.
Proof.
  induction l as [|y l IH]; cbn; [split; [discriminate|tauto]|].
  rewrite orb_true_iff, IH, String.eqb_eq. tauto.
Qed.

Lemma not_enabled_In (a e : list string) (s : string) :
  In s (List.filter (fun s => negb (includes e s)) a) <-> In s a /\ ~ In s e.
Proof.
  rewrite filter_In, negb_true_iff, <- (includes_In e).
  destruct (includes e s); intuition congruence.
Qed.

Lemma NoDup_split (l : list string) (x : string) :
  List.NoDup l -> In x l ->
  exists l1 l2, l = l1 ++ x :: l2 /\ ~ In x l1 /\ ~ In x l2.
Proof.
  intros Hn Hx. destruct (in_split x l Hx) as (l1 & l2 & ->).
  exists l1, l2. split; [done|].
  apply NoDup_remove_2 in Hn. rewrite in_app_iff in Hn. tauto.
Qed.

Lemma In_listed_enabled (a e : list string) (s : string) :
  In (enabled_line s) (listed a e) <-> In s e.
Proof.
  unfold listed. cbn [In]. rewrite in_app_iff. cbn [In]. rewrite !in_map_iff.
  split.
  - intros [H|[(t & Ht & Hin)|[H|(t & Ht & Hin)]]]; try discriminate H.
    + by apply enabled_line_inj in Ht as ->.
    + symmetry in Ht. by apply enabled_not_disabled in Ht.
  - intros H. right. left. by exists s.
Qed.

Lemma In_listed_disabled (a e : list string) (s : string) :
  In (disabled_line s) (listed a e) <-> In s a /\ ~ In s e.
Proof.
  unfold listed. cbn [In]. rewrite in_app_iff. cbn [In]. rewrite !in_map_iff.
  rewrite <- not_enabled_In. split.
  - intros [H|[(t & Ht & Hin)|[H|(t & Ht & Hin)]]]; try discriminate H.
    + by apply enabled_not_disabled in Ht.
    + by apply disabled_line_inj in Ht as ->.
  - intros H. right. right. right. by exists s.
Qed.

(** C9: with listings that name each entry once, a run of [list-sites]
    that passes the web-server check prints the heading of the active
    sites, then a line tagged (enabled) for each entry of the enabled
    directory in turn, then the heading of the available sites, then a
    line tagged (disabled) for each entry of the available directory that
    the enabled directory does not have.  So the enabled line of an
    enabled entry is printed exactly once, the disabled line of an entry
    that is only available is printed exactly once, and no entry of the
    enabled directory gets a disabled line. *)
Theorem list_sites_output
  (E : env metadata) (sitesAvailable sitesEnabled : list string) (w : world) :
  List.NoDup sitesAvailable ->
  List.NoDup sitesEnabled ->
  nginx_available E = true ->
  listing E "/etc/nginx/sites-available" = inl sitesAvailable ->
  listing E "/etc/nginx/sites-enabled" = inl sitesEnabled ->
  let printed :=
    Stdout "Active sites:" ::
    map enabled_line sitesEnabled ++
    Stdout (LF +:+ "Available sites:") ::
    map disabled_line
      (List.filter (fun s => negb (includes sitesEnabled s)) sitesAvailable) in
  listSites E w = (Done tt, log w (nginx_events E ++ printed)) /\
  (forall s, In s sitesEnabled ->
     once (enabled_line s) printed /\ ~ In (disabled_line s) printed) /\
  (forall s, In s sitesAvailable -> ~ In s sitesEnabled ->
     once (disabled_line s) printed /\ ~ In (enabled_line s) printed) /\
  (forall s, In (enabled_line s) printed -> In s sitesEnabled) /\
  (forall s, In (disabled_line s) printed ->
     In s sitesAvailable /\ ~ In s sitesEnabled).
Proof.
  intros Ha He Hn Hla Hle printed.
  change printed with (listed sitesAvailable sitesEnabled) in *. clear printed.
  split; [by apply listSites_run|].
  split; [|split; [|split]].
  - intros s Hs. split.
    2:{ rewrite In_listed_disabled. tauto. }
    destruct (NoDup_split _ _ He Hs) as (e1 & e2 & -> & H1 & H2).
    exists (Stdout "Active sites:" :: map enabled_line e1),
      (map enabled_line e2 ++ Stdout (LF +:+ "Available sites:") ::
       map disabled_line
         (List.filter (fun x => negb (includes (e1 ++ s :: e2) x)) sitesAvailable)).
    split; [|split].
    + unfold listed. rewrite map_app. cbn [map app].
      by rewrite <- ?app_assoc.
    + cbn [In]. rewrite in_map_iff.
      intros [H|(t & Ht & Hin)]; [discriminate H|].
      by apply enabled_line_inj in Ht as ->.
    + rewrite in_app_iff. cbn [In]. rewrite !in_map_iff.
      intros [(t & Ht & Hin)|[H|(t & Ht & Hin)]]; try discriminate H.
      * by apply enabled_line_inj in Ht as ->.
      * symmetry in Ht. by apply enabled_not_disabled in Ht.
  - intros s Hs Hns. split.
    2:{ by rewrite In_listed_enabled. }
    assert (Hf : In s (List.filter (fun s => negb (includes sitesEnabled s))
                         sitesAvailable)) by by apply not_enabled_In.
    destruct (NoDup_split _ _ (List.NoDup_filter _ Ha) Hf)
      as (f1 & f2 & Hsplit & H1 & H2).
    exists (Stdout "Active sites:" :: map enabled_line sitesEnabled ++
            Stdout (LF +:+ "Available sites:") :: map disabled_line f1),
      (map disabled_line f2).
    split; [|split].
    + unfold listed. rewrite Hsplit, map_app. cbn [map app].
      by rewrite <- ?app_assoc.
    + cbn [In]. rewrite in_app_iff. cbn [In]. rewrite !in_map_iff.
      intros [H|[(t & Ht & Hin)|[H|(t & Ht & Hin)]]]; try discriminate H.
      * by apply enabled_not_disabled in Ht.
      * by apply disabled_line_inj in Ht as ->.
    + rewrite in_map_iff. intros (t & Ht & Hin).
      by apply disabled_line_inj in Ht as ->.
  - intros s. by rewrite In_listed_enabled.
  - intros s. by rewrite In_listed_disabled.
Qed.

Lemma list_sites_output_witness :
  listSites Sample.three_sites Sample.fresh
  = (Done tt,
     log Sample.fresh
       (nginx_events Sample.three_sites ++
        [Stdout "Active sites:";
         Stdout "- example.com (enabled)";
         Stdout "- default (enabled)";
         Stdout (LF +:+ "Available sites:");
         Stdout "- old.example.com (disabled)"])).
Proof.
  apply (list_sites_output Sample.three_sites
           ["default"; "example.com"; "old.example.com"]
           ["example.com"; "default"] Sample.fresh);
    try reflexivity;
    repeat constructor; simpl; intuition discriminate.
Defined.

End Listing.

(** ** JSON: what is written is what is read *)

Section JsonRoundTrip.

#[local] Arguments String.append !s1 s2 : simpl nomatch.

Lemma parse_chars_escape_char (c : ascii) (r : string) :
  parse_chars (escape_char c +:+ r) = with_text (String c "") (parse_chars r).
Proof.
  destruct c as [[] [] [] [] [] [] [] []]; reflexivity.
Qed.

Lemma with_text_append (a b : string) (r : option (string * string)) :
  with_text a (with_text b r) = with_text (a +:+ b) r.
Proof. destruct r as [[s rest]|]; cbn; [|done]. by rewrite append_assoc. Qed.

(** The characters of an escaped string, up to its closing quote, are the
    string. *)
Lemma parse_chars_escape (s rest : string) :
  parse_chars (escape s +:+ String "034" rest) = Some (s, rest).
Proof.
  induction s as [|c s IH]; [reflexivity|].
  cbn [escape]. rewrite append_assoc, parse_chars_escape_char, IH.
  reflexivity.
Qed.

Lemma parse_value_string (f : nat) (s rest : string) :
  parse_value (S f) (String " " (quote s +:+ rest)) = Some (JsString s, rest).
Proof.
  unfold quote. rewrite !append_assoc. cbn.
  change (String "034" rest) with (DQ +:+ rest).
  cbn. by rewrite parse_chars_escape.
Qed.

(** A written value parses to itself. *)
Lemma parse_value_stringify (f : nat) (v : jsval) (t : string) (j : json)
  (rest : string) :
  stringify_value v = Some t ->
  json_of_value v = Some j ->
  parse_value (S f) (String " " (t +:+ rest)) = Some (j, rest).
Proof.
  destruct v as [| |[]|s]; intros [= <-] [= <-]; try reflexivity.
  apply parse_value_string.
Qed.

Lemma stringify_json_members_nil (o : jsobject) :
  stringify_members o = [] -> json_members o = [].
Proof.
  induction o as [|[k v] o IH]; [done|]. cbn.
  destruct v as [| |[]|s]; cbn; auto; discriminate.
Qed.

(** One member, the last one or not. *)
Lemma parse_members_last (f : nat) (k X T rest : string) (j : json) :
  parse_value f X = Some (j, T) ->
  skip_ws T = String "}" rest ->
  parse_members (S f) (LF +:+ "  " +:+ quote k +:+ ":" +:+ X)
  = Some ([(k, j)], rest).
Proof.
  intros HX HT. unfold quote, LF, DQ. rewrite !append_assoc.
  cbn [String.append parse_members skip_ws is_ws].
  rewrite parse_chars_escape. cbn [skip_ws is_ws]. by rewrite HX, HT.
Qed.

Lemma parse_members_more (f : nat) (k X T r : string) (j : json)
  (ms : list (string * json)) (rest : string) :
  parse_value f X = Some (j, T) ->
  skip_ws T = String "," r ->
  parse_members f r = Some (ms, rest) ->
  parse_members (S f) (LF +:+ "  " +:+ quote k +:+ ":" +:+ X)
  = Some ((k, j) :: ms, rest).
Proof.
  intros HX HT Hr. unfold quote, LF, DQ. rewrite !append_assoc.
  cbn [String.append parse_members skip_ws is_ws].
  rewrite parse_chars_escape. cbn [skip_ws is_ws]. by rewrite HX, HT, Hr.
Qed.

(** The members of a written object, after its opening brace. *)
Lemma parse_members_written (o : jsobject) (f : nat) (rest : string) :
  stringify_members o <> [] ->
  length (stringify_members o) < f ->
  parse_members f
    (LF +:+ join separator (stringify_members o) +:+ LF +:+ "}" +:+ rest)
  = Some (json_members o, rest).
Proof.
  revert f. induction o as [|[k v] o IH]; intros f Hne Hf; [done|].
  cbn [stringify_members json_members] in *.
  destruct (stringify_value v) as [t|] eqn:Ht,
    (json_of_value v) as [j|] eqn:Hj.
  2,3: destruct v as [| |[]|]; discriminate.
  2: by apply IH.
  cbn [length] in Hf. destruct f as [|[|f]]; [lia|lia|].
  destruct (stringify_members o) as [|m ms] eqn:Hms.
  - rewrite (stringify_json_members_nil o Hms). cbn [join].
    replace (LF +:+ ("  " +:+ quote k +:+ ": " +:+ t) +:+ LF +:+ "}" +:+ rest)
      with (LF +:+ "  " +:+ quote k +:+ ":" +:+
            String " " (t +:+ LF +:+ "}" +:+ rest))
      by (by rewrite !append_assoc).
    eapply parse_members_last.
    + by apply (parse_value_stringify _ v).
    + reflexivity.
  - change (join separator (("  " +:+ quote k +:+ ": " +:+ t) :: m :: ms))
      with (("  " +:+ quote k +:+ ": " +:+ t) +:+ separator +:+
            join separator (m :: ms)).
    replace (LF +:+ (("  " +:+ quote k +:+ ": " +:+ t) +:+ separator +:+
                     join separator (m :: ms)) +:+ LF +:+ "}" +:+ rest)
      with (LF +:+ "  " +:+ quote k +:+ ":" +:+
            String " " (t +:+ "," +:+ LF +:+ join separator (m :: ms) +:+
                        LF +:+ "}" +:+ rest))
      by (unfold separator; by rewrite !append_assoc).
    eapply parse_members_more.
    + by apply (parse_value_stringify _ v).
    + reflexivity.
    + apply IH; [done|]. cbn [length] in *. lia.
Qed.

Lemma length_append (a b : string) :
  String.length (a +:+ b) = String.length a + String.length b.
Proof. induction a as [|c a IH]; [done|]. cbn. by rewrite IH. Qed.

Lemma join_length (sep : string) (l : list string) :
  Forall (fun m => 1 <= String.length m) l ->
  length l <= String.length (join sep l).
Proof.
  induction 1 as [|m l Hm Hl IH]; [done|]. destruct l as [|m' l].
  - cbn. lia.
  - change (join sep (m :: m' :: l)) with (m +:+ sep +:+ join sep (m' :: l)).
    rewrite !length_append. cbn [length] in *. lia.
Qed.

Lemma stringify_members_nonempty (o : jsobject) :
  Forall (fun m => 1 <= String.length m) (stringify_members o).
Proof.
  induction o as [|[k v] o IH]; [constructor|]. cbn.
  destruct (stringify_value v); [|done]. constructor; [|done].
  cbn. lia.
Qed.

Lemma members_start (o : jsobject) (X : string) :
  stringify_members o <> [] ->
  exists Y,
    join separator (stringify_members o) +:+ X
    = String " " (String " " (String "034" Y)).
Proof.
  induction o as [|[k v] o IH]; [done|]. cbn [stringify_members].
  destruct (stringify_value v) as [t|]; [|exact IH]. intros _.
  destruct (stringify_members o) as [|m ms].
  - cbn [join]. unfold quote. rewrite !append_assoc. cbn. by eexists.
  - change (join separator (("  " +:+ quote k +:+ ": " +:+ t) :: m :: ms))
      with (("  " +:+ quote k +:+ ": " +:+ t) +:+ separator +:+
            join separator (m :: ms)).
    unfold quote. rewrite !append_assoc. cbn. by eexists.
Qed.

Lemma skip_ws_plain (c : ascii) (r : string) :
  is_ws c = false -> skip_ws (String c r) = String c r.
Proof. intros H. cbn. by rewrite H. Qed.

(** What [JSON.stringify] writes for an object, with the line feed
    [fs.writeJson] adds, parses to the object: every property that has a
    value, in the same order, with the same value. *)
Lemma JSON_parse_stringify (o : jsobject) :
  JSON_parse (JSON_stringify o +:+ LF) = Some (JsObject (json_members o)).
Proof.
  unfold JSON_stringify.
  destruct (stringify_members o) as [|m ms] eqn:Hms.
  { by rewrite (stringify_json_members_nil o Hms). }
  rewrite <- Hms. unfold JSON_parse. change ("," +:+ LF) with separator.
  set (text := ("{" +:+ LF +:+ join separator (stringify_members o) +:+ LF +:+ "}") +:+ LF).
  assert (Hlen : length (stringify_members o) < String.length text).
  { subst text. rewrite !length_append.
    pose proof (join_length separator _ (stringify_members_nonempty o)).
    unfold separator in *. cbn in *. lia. }
  destruct (members_start o (LF +:+ "}" +:+ LF)) as [Y HY];
    [by rewrite Hms|].
  assert (Htext : text =
    String "{" (LF +:+ join separator (stringify_members o) +:+ LF +:+ "}" +:+ LF)).
  { subst text. by rewrite !append_assoc. }
  rewrite Htext at 2. clear Htext.
  generalize dependent (String.length text). clear text. intros n Hlen.
  cbn [parse_value skip_ws is_ws Ascii.eqb Bool.eqb].
  unfold LF at 1. cbn [String.append skip_ws is_ws].
  change (String "}" LF) with ("}" +:+ LF). rewrite HY at 1.
  cbn [skip_ws is_ws].
  rewrite parse_members_written; [done|by rewrite Hms|done].
Qed.

End JsonRoundTrip.

(** ** Paths of a project *)

Section Paths.

Lemma plain_nonempty (a : string) : plain a = true -> nonempty a = true.
Proof. unfold plain. by intros [[[? ?]%andb_prop ?]%andb_prop ?]%andb_prop. Qed.

Lemma plain_no_slash (a : string) : plain a = true -> no_slash a = true.
Proof. unfold plain. by intros [_ ?]%andb_prop. Qed.

Lemma segments_nonempty (s : string) : segments s <> [].
Proof.
  induction s as [|c r IH]; cbn; [done|].
  destruct (Ascii.eqb c "/"); [done|]. by destruct (segments r).
Qed.

Lemma segments_no_slash (a : string) : no_slash a = true -> segments a = [a].
Proof.
  induction a as [|c a IH]; [done|]. cbn. intros [Hc Ha]%andb_prop.
  destruct (Ascii.eqb c "/"); [done|]. by rewrite (IH Ha).
Qed.

(** The segments of two paths put together with a slash. *)
Lemma segments_slash (x y : string) :
  segments (x +:+ "/" +:+ y) = segments x ++ segments y.
Proof.
  induction x as [|c x IH]; [done|]. rewrite append_cons. cbn [segments].
  destruct (Ascii.eqb c "/"); [by rewrite IH|].
  rewrite IH. pose proof (segments_nonempty x). by destruct (segments x).
Qed.

Lemma segments_join (names : list string) :
  names <> [] -> Forall (fun a => no_slash a = true) names ->
  segments (join "/" names) = names.
Proof.
  intros Hne H. induction H as [|a names Ha H IH]; [done|].
  destruct names as [|b names]; [by apply segments_no_slash|].
  change (join "/" (a :: b :: names)) with (a +:+ "/" +:+ join "/" (b :: names)).
  rewrite segments_slash, segments_no_slash by done. by rewrite IH.
Qed.

Lemma normalize_segments_app (al : bool) (k S T : list string) :
  normalize_segments al k (S ++ T)
  = normalize_segments al (normalize_segments al k S) T.
Proof.
  revert k. induction S as [|seg S IH]; intros k; [done|].
  cbn [app normalize_segments].
  destruct (String.eqb seg "" || String.eqb seg "."); [apply IH|].
  destruct (String.eqb seg ".."); [|apply IH].
  destruct k as [|top below]; [apply IH|].
  destruct (String.eqb top ".."); apply IH.
Qed.

(** Plain names are kept as they are. *)
Lemma normalize_segments_plain (al : bool) (k names : list string) :
  Forall (fun a => plain a = true) names ->
  normalize_segments al k names = rev names ++ k.
Proof.
  intros H. revert k. induction H as [|a names Ha H IH]; intros k; [done|].
  cbn [normalize_segments rev]. unfold plain in Ha.
  apply andb_prop in Ha as [[[Ha1 Ha2]%andb_prop Ha3]%andb_prop Ha4].
  assert (String.eqb a "" = false) as -> by by destruct a.
  apply negb_true_iff in Ha2 as ->. apply negb_true_iff in Ha3 as ->.
  cbn [orb]. by rewrite IH, <- app_assoc.
Qed.

Lemma join_app (L names : list string) :
  names <> [] ->
  join "/" (L ++ names) = directory_of L +:+ join "/" names.
Proof.
  intros Hne. induction L as [|x L IH]; [done|].
  destruct L as [|y L].
  - destruct names as [|n names]; [done|]. cbn [app directory_of].
    change (join "/" (x :: n :: names)) with (x +:+ "/" +:+ join "/" (n :: names)).
    cbn [join]. by rewrite append_assoc.
  - change (join "/" ((x :: y :: L) ++ names))
      with (x +:+ "/" +:+ join "/" ((y :: L) ++ names)).
    rewrite IH. unfold directory_of.
    change (join "/" (x :: y :: L)) with (x +:+ "/" +:+ join "/" (y :: L)).
    by rewrite !append_assoc.
Qed.

Lemma join_plain_nonempty (names : list string) :
  names <> [] -> Forall (fun a => plain a = true) names ->
  nonempty (join "/" names) = true.
Proof.
  intros Hne H. destruct H as [|a names Ha H]; [done|].
  apply plain_nonempty in Ha. destruct a; [done|]. by destruct names.
Qed.

Lemma filter_nonempty_plain (names : list string) :
  Forall (fun a => plain a = true) names -> List.filter nonempty names = names.
Proof.
  induction 1 as [|a names Ha H IH]; [done|]. cbn.
  by rewrite (plain_nonempty a Ha), IH.
Qed.

Lemma ends_with_slash_plain (S names : list string) (s : string) :
  segments s = S ++ names ->
  names <> [] -> Forall (fun a => plain a = true) names ->
  ends_with_slash s = false.
Proof.
  intros Hs Hne H. unfold ends_with_slash. rewrite Hs, rev_app_distr.
  destruct (rev names) as [|b l] eqn:Hr.
  { apply (f_equal (@rev string)) in Hr. rewrite rev_involutive in Hr. done. }
  assert (Hb : plain b = true).
  { rewrite Forall_forall in H. apply H. apply list_elem_of_In, in_rev.
    rewrite Hr. by left. }
  apply plain_nonempty in Hb. by destruct b.
Qed.

Lemma match_nonempty {A} (s : string) (x : A) (f : string -> A) :
  nonempty s = true ->
  match s with EmptyString => x | String _ _ => f s end = f s.
Proof. by destruct s. Qed.

(** [path.join(p, ...names)] for plain names: the names, joined, behind
    what the project path normalises to. *)
Lemma project_file_plain (p : string) (names : list string) :
  names <> [] -> Forall (fun a => plain a = true) names ->
  project_file p names = directory_prefix p +:+ join "/" names.
Proof.
  intros Hne H. unfold project_file. cbn [List.filter].
  rewrite (filter_nonempty_plain names H).
  assert (Hslash : Forall (fun a => no_slash a = true) names).
  { eapply Forall_impl; [exact H|]. apply plain_no_slash. }
  pose proof (join_plain_nonempty names Hne H) as Hj.
  destruct p as [|c p].
  - cbn [nonempty directory_prefix]. destruct names as [|a names]; [done|].
    set (s := join "/" (a :: names)) in *.
    assert (Hseg : segments s = [] ++ a :: names) by by apply segments_join.
    assert (Hfirst : exists c0 r0, s = String c0 r0 /\ Ascii.eqb c0 "/" = false).
    { inversion H as [|? ? Ha _]; subst. pose proof (plain_no_slash a Ha) as Hs.
      pose proof (plain_nonempty a Ha) as Hn. destruct a as [|c0 a]; [done|].
      cbn in Hs. apply andb_prop in Hs as [Hc _]. apply negb_true_iff in Hc.
      destruct names; subst s; by eexists _, _. }
    destruct Hfirst as (c0 & r0 & Hs0 & Hc0).
    unfold normalize. rewrite Hs0 at 1. rewrite Hc0. cbn [negb].
    rewrite (ends_with_slash_plain [] (a :: names) s Hseg Hne H).
    rewrite Hseg. cbn [app].
    rewrite (normalize_segments_plain true [] (a :: names) H), app_nil_r,
      rev_involutive.
    fold s. by destruct s.
  - cbn [nonempty]. destruct names as [|a names]; [done|].
    change (join "/" (String c p :: a :: names))
      with (String c p +:+ "/" +:+ join "/" (a :: names)).
    set (tail := join "/" (a :: names)) in *.
    assert (Hseg : segments (String c p +:+ "/" +:+ tail)
                   = segments (String c p) ++ a :: names).
    { rewrite segments_slash. subst tail. by rewrite segments_join. }
    unfold normalize, directory_prefix. rewrite append_cons.
    rewrite <- append_cons.
    rewrite (ends_with_slash_plain _ (a :: names) _ Hseg Hne H).
    rewrite Hseg, normalize_segments_app.
    rewrite (normalize_segments_plain _ _ (a :: names) H).
    rewrite rev_app_distr, rev_involutive, join_app by done. fold tail.
    set (dir := directory_of _).
    assert (Hbody : nonempty (dir +:+ tail) = true).
    { destruct dir; [exact Hj|done]. }
    destruct (dir +:+ tail) as [|c1 b1] eqn:Hb; [done|]. rewrite <- Hb.
    destruct (Ascii.eqb c "/"); [by rewrite append_assoc|done].
Qed.

End Paths.

(** ** Runs of the app set-up tool *)

Section AppSetupRuns.
Import AppSetup.

Lemma path_join_run (p : string) (names : list string) (w : world) :
  path_join (JStr p :: map JStr names) w = (Done (project_file p names), w).
Proof.
  unfold path_join, project_file.
  assert (Hs : strings_of (JStr p :: map JStr names) = Some (p :: names)).
  { cbn. induction names as [|n names IH]; [done|]. cbn in *.
    destruct (strings_of (map JStr names)) as [l|]; [|done].
    by injection IH as ->. }
  rewrite Hs. by destruct (List.filter nonempty (p :: names)).
Qed.

Lemma path_join_not_string (v : jsval) (names : list jsval) (w : world) :
  (forall s, v <> JStr s) ->
  exists e, path_join (v :: names) w = (Throw e, w) /\
            code e = "ERR_INVALID_ARG_TYPE".
Proof.
  intros Hv. unfold path_join.
  assert (strings_of (v :: names) = None) as ->.
  { destruct v; try done. by edestruct Hv. }
  by eexists.
Qed.

Lemma writable_insert (fs : gmap string node) (p q c : string) :
  writable fs q = true -> writable (<[p := File c]> fs) q = true.
Proof.
  unfold writable. destruct (decide (p = q)) as [->|Hpq].
  - by rewrite lookup_insert_eq.
  - by rewrite lookup_insert_ne.
Qed.

Lemma generateDockerfiles_run (p : string) (w : world) :
  writable (files w) (frontend_path p) = true ->
  writable (files w) (backend_path p) = true ->
  generateDockerfiles (JStr p) w =
  (Done tt,
   mkWorld
     (<[backend_path p := File backend_dockerfile]>
        (<[frontend_path p := File frontend_dockerfile]> (files w)))
     (trace w ++ [Stdout "Dockerfiles generated successfully."])).
Proof.
  intros Hf Hb. unfold generateDockerfiles.
  erewrite bind_run; [|apply (path_join_run p ["frontend"; "Dockerfile"])].
  erewrite bind_run; [|apply (path_join_run p ["backend"; "Dockerfile"])].
  erewrite bind_run; [|by apply outputFile_writable].
  erewrite bind_run;
    [|by apply outputFile_writable, writable_insert].
  reflexivity.
Qed.

Lemma generateDockerCompose_run (p : string) (fp bp : jsval) (w : world) :
  writable (files w) (compose_path p) = true ->
  generateDockerCompose (JStr p) fp bp w =
  (Done tt,
   mkWorld (<[compose_path p := File (docker_compose fp bp)]> (files w))
     (trace w ++ [Stdout "docker-compose.yml generated successfully."])).
Proof.
  intros Hc. unfold generateDockerCompose.
  erewrite bind_run; [|apply (path_join_run p ["docker-compose.yml"])].
  erewrite bind_run; [|by apply outputFile_writable].
  reflexivity.
Qed.

Lemma generateMetadata_run (p : string) (d fp bp : jsval) (w : world) :
  writable (files w) (metadata_file p) = true ->
  generateMetadata (JStr p) d fp bp w =
  (Done tt,
   mkWorld
     (<[metadata_file p :=
          File (JSON_stringify
                  [("domain", d); ("frontendPort", fp); ("backendPort", bp)]
                +:+ LF)]> (files w))
     (trace w ++ [Stdout "metadata.json generated successfully."])).
Proof.
  intros Hm. unfold generateMetadata, writeJson.
  erewrite bind_run; [|apply (path_join_run p ["metadata.json"])].
  erewrite bind_run; [|by apply outputFile_writable].
  reflexivity.
Qed.

(** The three generation steps on a project whose four files can be
    written. *)
Lemma generation_steps_run (p : string) (d fp bp : jsval) (w : world) :
  writable (files w) (frontend_path p) = true ->
  writable (files w) (backend_path p) = true ->
  writable (files w) (compose_path p) = true ->
  writable (files w) (metadata_file p) = true ->
  generation_steps (JStr p) d fp bp w =
  (Done tt,
   mkWorld
     (<[metadata_file p :=
          File (JSON_stringify
                  [("domain", d); ("frontendPort", fp); ("backendPort", bp)]
                +:+ LF)]>
        (<[compose_path p := File (docker_compose fp bp)]>
           (<[backend_path p := File backend_dockerfile]>
              (<[frontend_path p := File frontend_dockerfile]> (files w)))))
     (trace w ++
      [Stdout "Dockerfiles generated successfully.";
       Stdout "docker-compose.yml generated successfully.";
       Stdout "metadata.json generated successfully."])).
Proof.
  intros Hf Hb Hc Hm. unfold generation_steps.
  erewrite bind_run; [|by apply generateDockerfiles_run].
  erewrite bind_run;
    [|apply generateDockerCompose_run; cbn [files];
      by do 2 apply writable_insert].
  rewrite generateMetadata_run by (cbn [files]; by do 3 apply writable_insert).
  cbn [files trace]. by rewrite <- !app_assoc.
Qed.

(** The four files of a project are four paths. *)
Lemma project_paths_distinct (p : string) :
  frontend_path p <> backend_path p /\
  frontend_path p <> compose_path p /\
  frontend_path p <> metadata_file p /\
  backend_path p <> compose_path p /\
  backend_path p <> metadata_file p /\
  compose_path p <> metadata_file p.
Proof.
  unfold frontend_path, backend_path, compose_path, metadata_file.
  rewrite !project_file_plain by (try done; by repeat constructor).
  repeat split; intros H%append_inj_l; discriminate H.
Qed.

End AppSetupRuns.

Section AppSetupClaims.
Import AppSetup.

(** The port at the end of an item of a compose file. *)
Lemma mapping_last (x tail port : string) :
  Compose.mapping tail = None ->
  Compose.closing tail = Some port ->
  Compose.mapping (x +:+ ":" +:+ tail) = Some (x, port).
Proof.
  intros Ht Hc. induction x as [|c x IH].
  - change ("" +:+ ":" +:+ tail) with (String ":" tail).
    cbn [Compose.mapping]. by rewrite Ht, Hc.
  - rewrite append_cons. cbn [Compose.mapping]. by rewrite IH.
Qed.

Lemma classify_item (x tail port : string) :
  Compose.mapping tail = None ->
  Compose.closing tail = Some port ->
  Compose.classify ("      - " +:+ DQ +:+ x +:+ ":" +:+ tail)
  = Compose.Item x port.
Proof.
  intros Ht Hc.
  change ("      - " +:+ DQ +:+ x +:+ ":" +:+ tail)
    with (String " " (String " " (String " " (String " " (String " " (String " "
           (String "-" (String " " (String "034" (x +:+ ":" +:+ tail)))))))))).
  cbn [Compose.classify]. by rewrite (mapping_last x tail port Ht Hc).
Qed.

(** The mappings of the generated compose file. *)
Lemma docker_compose_ports (fp bp : jsval) :
  single_line (toString fp) = true ->
  single_line (toString bp) = true ->
  Compose.ports (docker_compose fp bp)
  = [("frontend", toString fp, "3000"); ("backend", toString bp, "5000")].
Proof.
  intros Hf Hb. unfold Compose.ports, docker_compose.
  assert (Hd : single_line DQ = true) by reflexivity.
  split_lines. cbn [map].
  change ("      - " +:+ DQ +:+ toString fp +:+ ":3000" +:+ DQ +:+ "")
    with ("      - " +:+ DQ +:+ toString fp +:+ ":" +:+ ("3000" +:+ DQ)).
  change ("      - " +:+ DQ +:+ toString bp +:+ ":5000" +:+ DQ +:+ "")
    with ("      - " +:+ DQ +:+ toString bp +:+ ":" +:+ ("5000" +:+ DQ)).
  rewrite (classify_item (toString fp) ("3000" +:+ DQ) "3000") by reflexivity.
  rewrite (classify_item (toString bp) ("5000" +:+ DQ) "5000") by reflexivity.
  by vm_compute.
Qed.

(** C4: on a project whose files can be written, and for port values
    that hold no line feed, the generation steps leave a compose file with
    two mappings: the service [frontend] maps the supplied frontend port
    to 3000 and the service [backend] the supplied backend port to 5000;
    and they leave the two Dockerfiles, whose only [EXPOSE] lines are
    [EXPOSE 3000] and [EXPOSE 5000], whatever the ports. *)
Theorem compose_maps_supplied_ports
  (p : string) (d frontendPort backendPort : jsval) (w : world) :
  single_line (toString frontendPort) = true ->
  single_line (toString backendPort) = true ->
  writable (files w) (frontend_path p) = true ->
  writable (files w) (backend_path p) = true ->
  writable (files w) (compose_path p) = true ->
  writable (files w) (metadata_file p) = true ->
  exists w' compose frontend backend,
    generation_steps (JStr p) d frontendPort backendPort w = (Done tt, w') /\
    files w' !! compose_path p = Some (File compose) /\
    files w' !! frontend_path p = Some (File frontend) /\
    files w' !! backend_path p = Some (File backend) /\
    Compose.ports compose
    = [("frontend", toString frontendPort, "3000");
       ("backend", toString backendPort, "5000")] /\
    directive_lines "EXPOSE" frontend = ["EXPOSE 3000"] /\
    directive_lines "EXPOSE" backend = ["EXPOSE 5000"].
Proof.
  intros Hf Hb Hwf Hwb Hwc Hwm.
  destruct (project_paths_distinct p) as (Hfb & Hfc & Hfm & Hbc & Hbm & Hcm).
  eexists _, (docker_compose frontendPort backendPort),
    frontend_dockerfile, backend_dockerfile.
  split; [by apply generation_steps_run|]. cbn [files].
  split; [|split; [|split; [|split; [|split]]]].
  - rewrite lookup_insert_ne by done. apply lookup_insert_eq.
  - rewrite !lookup_insert_ne by done. apply lookup_insert_eq.
  - rewrite !lookup_insert_ne by done. apply lookup_insert_eq.
  - by apply docker_compose_ports.
  - reflexivity.
  - reflexivity.
Qed.

Lemma compose_maps_supplied_ports_witness :
  exists w' compose frontend backend,
    generation_steps (JStr "/srv/app") (JStr "example.com") (JStr "8080")
      (JStr "8081") Sample.fresh = (Done tt, w') /\
    files w' !! compose_path "/srv/app" = Some (File compose) /\
    files w' !! frontend_path "/srv/app" = Some (File frontend) /\
    files w' !! backend_path "/srv/app" = Some (File backend) /\
    Compose.ports compose
    = [("frontend", "8080", "3000"); ("backend", "8081", "5000")] /\
    directive_lines "EXPOSE" frontend = ["EXPOSE 3000"] /\
    directive_lines "EXPOSE" backend = ["EXPOSE 5000"].
Proof.
  apply (compose_maps_supplied_ports "/srv/app" (JStr "example.com")
           (JStr "8080") (JStr "8081") Sample.fresh);
    reflexivity.
Defined.

(** C5: on a project whose files can be written, and for any three
    strings, the generation steps leave a file [metadata.json] at the
    project path that parses as JSON, to an object whose three members
    [domain], [frontendPort] and [backendPort] are the three strings, as
    strings. *)
Theorem metadata_round_trip
  (p domain frontendPort backendPort : string) (w : world) :
  writable (files w) (frontend_path p) = true ->
  writable (files w) (backend_path p) = true ->
  writable (files w) (compose_path p) = true ->
  writable (files w) (metadata_file p) = true ->
  exists w' text members,
    generation_steps (JStr p) (JStr domain) (JStr frontendPort)
      (JStr backendPort) w = (Done tt, w') /\
    files w' !! metadata_file p = Some (File text) /\
    JSON_parse text = Some (JsObject members) /\
    members = [("domain", JsString domain);
               ("frontendPort", JsString frontendPort);
               ("backendPort", JsString backendPort)] /\
    member "domain" members = Some (JsString domain) /\
    member "frontendPort" members = Some (JsString frontendPort) /\
    member "backendPort" members = Some (JsString backendPort).
Proof.
  intros Hwf Hwb Hwc Hwm. eexists _, _, _.
  split; [by apply generation_steps_run|]. cbn [files].
  split; [apply lookup_insert_eq|].
  split; [apply JSON_parse_stringify|].
  by repeat split.
Qed.

Lemma metadata_round_trip_witness :
  exists w' text members,
    generation_steps (JStr "/srv/app") (JStr "example.com") (JStr "08080")
      (JStr "8081") Sample.fresh = (Done tt, w') /\
    files w' !! metadata_file "/srv/app" = Some (File text) /\
    JSON_parse text = Some (JsObject members) /\
    members = [("domain", JsString "example.com");
               ("frontendPort", JsString "08080");
               ("backendPort", JsString "8081")] /\
    member "domain" members = Some (JsString "example.com") /\
    member "frontendPort" members = Some (JsString "08080") /\
    member "backendPort" members = Some (JsString "8081").
Proof.
  apply (metadata_round_trip "/srv/app" "example.com" "08080" "8081"
           Sample.fresh);
    reflexivity.
Defined.

Section Tail.

Context {meta : Type}.
Variable E : env meta.

Lemma startDockerContainers_run (p : jsval) (w : world) :
  startDockerContainers E p w = (Done tt, log w (launch_events E p)).
Proof.
  unfold startDockerContainers, launch_events, try_catch, execSync, bind,
    console_log, console_error, emit, ret, throw, log, launch_failure.
  cbn. destruct (commands E "docker-compose up -d"); cbn;
    by rewrite <- ?app_assoc.
Qed.

Lemma installPM2_run (p : jsval) (w : world) :
  installPM2 E p w = (Done tt, log w (pm2_events E p)).
Proof.
  unfold installPM2, pm2_events, try_catch, execSync, bind,
    console_log, console_error, emit, ret, throw, log, pm2_failure.
  cbn. destruct (commands E "npm install -g pm2"); cbn;
    by rewrite <- ?app_assoc.
Qed.

Lemma tail_run (p pm2 : jsval) (w : world) :
  (startDockerContainers E p ;;;
   (if truthy pm2 then installPM2 E p else ret tt) ;;;
   console_log "App setup completed successfully!") w
  = (Done tt, log w (tail_events E p pm2)).
Proof.
  erewrite bind_run; [|apply startDockerContainers_run].
  assert (Hp : forall w0,
    (if truthy pm2 then installPM2 E p else ret tt) w0
    = (Done tt, log w0 (if truthy pm2 then pm2_events E p else []))).
  { intros w0. destruct (truthy pm2); [apply installPM2_run|].
    by rewrite log_nil. }
  erewrite bind_run; [|apply Hp].
  unfold console_log. rewrite emit_run, !log_log. unfold tail_events.
  by rewrite <- ?app_assoc.
Qed.

(** [main] is the generation steps, then the tail. *)
Lemma main_split (argv : gmap string jsval) (w : world) :
  let options := promptForMissingOptions E argv in
  main E argv w
  = bind
      (generation_steps (get options "projectPath") (get options "domain")
         (get options "frontendPort") (get options "backendPort"))
      (fun _ =>
         startDockerContainers E (get options "projectPath") ;;;
         (if truthy (get options "pm2")
          then installPM2 E (get options "projectPath") else ret tt) ;;;
         console_log "App setup completed successfully!") w.
Proof.
  intros options. unfold main, generation_steps. fold options.
  unfold bind at 1 6 7.
  destruct (generateDockerfiles _ w) as [[[]|c|e] w1]; [|done|done].
  unfold bind at 1 5.
  destruct (generateDockerCompose _ _ _ w1) as [[[]|c|e] w2]; [|done|done].
  unfold bind at 1 4.
  by destruct (generateMetadata _ _ _ _ w2) as [[[]|c|e] w3].
Qed.

Lemma path_join_cases (args : list jsval) (w : world) :
  (exists s, path_join args w = (Done s, w)) \/
  (exists e, path_join args w = (Throw e, w)).
Proof.
  unfold path_join. destruct (strings_of args) as [l|]; [|right; by eexists].
  left. destruct (List.filter nonempty l); by eexists.
Qed.

Ltac run_cases :=
  repeat
    lazymatch goal with
    | |- context [bind (path_join ?a) ?k ?w0] =>
        let H := fresh "Hp" in
        destruct (path_join_cases a w0) as [[? H]|[? H]];
        [erewrite (bind_run (path_join a)); [cbv beta|exact H]
        |erewrite (bind_throw (path_join a)); [|exact H];
         right; by eexists _, _]
    | |- context [bind (outputFile ?a ?c) ?k ?w0] =>
        let H := fresh "Hp" in
        destruct (outputFile_cases a c w0) as [[? H]|[? H]];
        [erewrite (bind_run (outputFile a c)); [cbv beta|exact H]
        |erewrite (bind_throw (outputFile a c)); [|exact H];
         right; by eexists _, _]
    end;
  left; eexists; reflexivity.

Lemma generateDockerfiles_cases (p : jsval) (w : world) :
  (exists w1, generateDockerfiles p w = (Done tt, w1)) \/
  (exists e w1, generateDockerfiles p w = (Throw e, w1)).
Proof. unfold generateDockerfiles, console_log. run_cases. Qed.

Lemma generateDockerCompose_cases (p fp bp : jsval) (w : world) :
  (exists w1, generateDockerCompose p fp bp w = (Done tt, w1)) \/
  (exists e w1, generateDockerCompose p fp bp w = (Throw e, w1)).
Proof. unfold generateDockerCompose, console_log. run_cases. Qed.

Lemma generateMetadata_cases (p d fp bp : jsval) (w : world) :
  (exists w1, generateMetadata p d fp bp w = (Done tt, w1)) \/
  (exists e w1, generateMetadata p d fp bp w = (Throw e, w1)).
Proof. unfold generateMetadata, writeJson, console_log. run_cases. Qed.

(** The generation steps end with a value or with an error, never by an
    exit. *)
Lemma generation_steps_cases (p d fp bp : jsval) (w : world) :
  (exists w1, generation_steps p d fp bp w = (Done tt, w1)) \/
  (exists e w1, generation_steps p d fp bp w = (Throw e, w1)).
Proof.
  unfold generation_steps.
  destruct (generateDockerfiles_cases p w) as [[w1 H1]|(e & w1 & H1)].
  2:{ right. exists e, w1. by erewrite bind_throw. }
  erewrite bind_run; [|exact H1].
  destruct (generateDockerCompose_cases p fp bp w1) as [[w2 H2]|(e & w2 & H2)].
  2:{ right. exists e, w2. by erewrite bind_throw. }
  erewrite bind_run; [|exact H2].
  destruct (generateMetadata_cases p d fp bp w2) as [[w3 H3]|(e & w3 & H3)].
  - left. by exists w3.
  - right. by exists e, w3.
Qed.

End Tail.

(** C7: a failed launch of the containers and a failed installation of
    the process manager are caught in their own step, which leaves the
    error on standard error: once the generation steps are through, the
    run goes on to the message of completion and ends with status zero,
    whatever the two commands do.  An error thrown by a generation step
    is caught by nobody but the last line of the program: it is printed
    on standard error, the process exits with status 1, and neither
    containers nor process manager were started. *)
Theorem app_setup_exit_behaviour
  {meta : Type} (E : env meta) (argv : gmap string jsval) (w : world) :
  let options := promptForMissingOptions E argv in
  let projectPath := get options "projectPath" in
  let generation :=
    generation_steps projectPath (get options "domain")
      (get options "frontendPort") (get options "backendPort") in
  (forall w1,
     generation w = (Done tt, w1) ->
     cli E argv w
     = (Done tt, log w1 (tail_events E projectPath (get options "pm2"))) /\
     exit_status (fst (cli E argv w)) = Some 0%Z /\
     last (trace (snd (cli E argv w)))
     = Some (Stdout "App setup completed successfully!")) /\
  (forall e w1,
     generation w = (Throw e, w1) ->
     cli E argv w
     = (Exit 1%Z, log w1 [Stderr [Text "An error occurred:"; ErrObj e]]) /\
     exit_status (fst (cli E argv w)) = Some 1%Z) /\
  ((exists w1, generation w = (Done tt, w1)) \/
   (exists e w1, generation w = (Throw e, w1))) /\
  (forall msg,
     commands E "docker-compose up -d" = Fails msg ->
     In (launch_failure msg) (tail_events E projectPath (get options "pm2"))) /\
  (forall msg,
     truthy (get options "pm2") = true ->
     commands E "npm install -g pm2" = Fails msg ->
     In (pm2_failure msg) (tail_events E projectPath (get options "pm2"))).
Proof.
  intros options projectPath generation.
  assert (Hdone : forall w1,
    generation w = (Done tt, w1) ->
    cli E argv w
    = (Done tt, log w1 (tail_events E projectPath (get options "pm2")))).
  { intros w1 Hg. unfold cli, try_catch. rewrite main_split.
    fold options projectPath generation.
    erewrite bind_run; [|exact Hg]. by rewrite tail_run. }
  assert (Hthrow : forall e w1,
    generation w = (Throw e, w1) ->
    cli E argv w
    = (Exit 1%Z, log w1 [Stderr [Text "An error occurred:"; ErrObj e]])).
  { intros e w1 Hg. unfold cli, try_catch. rewrite main_split.
    fold options projectPath generation.
    erewrite bind_throw; [|exact Hg]. reflexivity. }
  split; [|split; [|split; [|split]]].
  - intros w1 Hg. rewrite (Hdone w1 Hg). split; [done|]. split; [done|].
    cbn [snd log trace]. unfold tail_events. rewrite !app_assoc.
    apply last_snoc.
  - intros e w1 Hg. by rewrite (Hthrow e w1 Hg).
  - apply generation_steps_cases.
  - intros msg Hc. unfold tail_events, launch_events. rewrite Hc.
    rewrite !in_app_iff. left. right. by left.
  - intros msg Hp Hc. unfold tail_events, pm2_events. rewrite Hp, Hc.
    rewrite !in_app_iff. right. left. right. by left.
Qed.

(** A run where the launch and the installation both fail. *)
Example app_setup_with_failing_tail :
  cli Sample.no_docker Sample.app_flags Sample.fresh
  = (Done tt,
     mkWorld
       (files
          (snd (generation_steps (JStr "/srv/app") (JStr "example.com")
                  (JStr "8080") (JStr "8081") Sample.fresh)))
       [Stdout "Dockerfiles generated successfully.";
        Stdout "docker-compose.yml generated successfully.";
        Stdout "metadata.json generated successfully.";
        Stdout "Starting Docker containers...";
        Exec "docker-compose up -d" (Some "/srv/app");
        Stderr [Text "Error starting Docker containers:";
                Text "Command failed: docker-compose up -d"];
        Stdout "Installing PM2...";
        Exec "npm install -g pm2" (Some "/srv/app");
        Stderr [Text "Error installing PM2:";
                Text "Command failed: npm install -g pm2"];
        Stdout "App setup completed successfully!"]).
Proof. by vm_compute. Qed.

(** A run on a project whose frontend Dockerfile cannot be written. *)
Example app_setup_with_failing_generation :
  exists e,
    cli Sample.no_docker Sample.app_flags Sample.blocked
    = (Exit 1%Z,
       mkWorld (files Sample.blocked)
         [Stderr [Text "An error occurred:"; ErrObj e]]) /\
    code e = "EISDIR".
Proof. eexists. by vm_compute. Qed.

End AppSetupClaims.

(** * Further properties *)

(** ** Options and prompts of the app set-up tool *)

Section Prompts.
Import AppSetup.

Context {meta : Type}.
Variable E : env meta.

Lemma get_union (a o : gmap string jsval) (k : string) :
  get (a ∪ o) k = match a !! k with Some v => v | None => get o k end.
Proof.
  unfold get. rewrite lookup_union. destruct (a !! k), (o !! k); done.
Qed.

(** What [promptForMissingOptions] resolves each option to. *)
Lemma promptForMissingOptions_get (argv : gmap string jsval) :
  let o := promptForMissingOptions E argv in
  get o "projectPath" = asked E (get argv "projectPath") "projectPath" (Some ".") /\
  get o "domain" = asked E (get argv "domain") "domain" None /\
  get o "frontendPort" = asked E (get argv "frontendPort") "frontendPort" (Some "3000") /\
  get o "backendPort" = asked E (get argv "backendPort") "backendPort" (Some "5000") /\
  get o "pm2"
  = match get argv "pm2" with
    | JUndefined => JBool (confirmed E "pm2")
    | v => v
    end /\
  (forall k,
     k <> "projectPath" -> k <> "domain" -> k <> "frontendPort" ->
     k <> "backendPort" -> k <> "pm2" -> o !! k = argv !! k).
Proof.
  intros o. subst o. unfold promptForMissingOptions, asked.
  destruct (truthy (get argv "projectPath")) eqn:H1,
    (truthy (get argv "domain")) eqn:H2,
    (truthy (get argv "frontendPort")) eqn:H3,
    (truthy (get argv "backendPort")) eqn:H4,
    (get argv "pm2") as [| |b|s] eqn:H5;
    cbn [negb app inquirer_prompt q_name];
    rewrite !get_union;
    (repeat split;
     [ .. | intros k ? ? ? ? ?; rewrite lookup_union;
            rewrite ?lookup_insert_ne, lookup_empty by done;
            by destruct (argv !! k) ]);
    rewrite ?lookup_insert_eq, ?lookup_insert_ne, ?lookup_empty by done;
    rewrite ?lookup_insert_eq, ?lookup_insert_ne, ?lookup_empty by done;
    rewrite ?lookup_insert_eq, ?lookup_insert_ne, ?lookup_empty by done;
    rewrite ?lookup_insert_eq, ?lookup_insert_ne, ?lookup_empty by done;
    rewrite ?lookup_insert_eq, ?lookup_insert_ne, ?lookup_empty by done;
    try rewrite H5; reflexivity.
Qed.

Lemma asked_truthy (given : jsval) (name default : string) :
  nonempty default = true ->
  truthy (asked E given name (Some default)) = true.
Proof.
  intros Hd. unfold asked, prompt_input.
  destruct (truthy given) eqn:Hg; [done|].
  destruct (typed E name); [by destruct default|done].
Qed.

(** X1: an option the caller gives is never asked again: a non-empty
    value of one of the four text options, and any value of [pm2], stays
    as given whatever the operator would type; and every other property
    of the options object is carried over. *)
Theorem prompt_keeps_given_options (argv : gmap string jsval) (k : string) :
  In k ["projectPath"; "domain"; "frontendPort"; "backendPort"] ->
  truthy (get argv k) = true ->
  get (promptForMissingOptions E argv) k = get argv k /\
  (get argv "pm2" <> JUndefined ->
   get (promptForMissingOptions E argv) "pm2" = get argv "pm2") /\
  (forall k',
     ~ In k' ["projectPath"; "domain"; "frontendPort"; "backendPort"; "pm2"] ->
     promptForMissingOptions E argv !! k' = argv !! k').
Proof.
  intros Hk Ht.
  destruct (promptForMissingOptions_get argv) as (H1 & H2 & H3 & H4 & H5 & H6).
  split; [|split].
  - cbn in Hk. unfold asked in *.
    destruct Hk as [<-|[<-|[<-|[<-|[]]]]];
      [rewrite H1|rewrite H2|rewrite H3|rewrite H4]; by rewrite Ht.
  - intros Hp. rewrite H5. by destruct (get argv "pm2").
  - intros k' Hk'. cbn in Hk'. apply H6; intros ->; tauto.
Qed.

(** X2: after the prompts the project path and the two ports are never
    missing or empty -- each is the given value, or what the operator
    typed, or its default ([.], [3000], [5000]) when nothing was typed --
    while the domain, which has no default, is the empty string when it
    is neither given nor typed. *)
Theorem prompt_fills_missing_options (argv : gmap string jsval) :
  let o := promptForMissingOptions E argv in
  truthy (get o "projectPath") = true /\
  truthy (get o "frontendPort") = true /\
  truthy (get o "backendPort") = true /\
  (truthy (get argv "projectPath") = false -> typed E "projectPath" = "" ->
   get o "projectPath" = JStr ".") /\
  (truthy (get argv "frontendPort") = false -> typed E "frontendPort" = "" ->
   get o "frontendPort" = JStr "3000") /\
  (truthy (get argv "backendPort") = false -> typed E "backendPort" = "" ->
   get o "backendPort" = JStr "5000") /\
  (truthy (get argv "domain") = false ->
   get o "domain" = JStr (typed E "domain")) /\
  (get argv "pm2" = JUndefined -> get o "pm2" = JBool (confirmed E "pm2")).
Proof.
  intros o.
  destruct (promptForMissingOptions_get argv) as (H1 & H2 & H3 & H4 & H5 & _).
  fold o in H1, H2, H3, H4, H5. rewrite H1, H2, H3, H4, H5.
  repeat split; try by apply asked_truthy.
  - intros Hg Ht. unfold asked, prompt_input. by rewrite Hg, Ht.
  - intros Hg Ht. unfold asked, prompt_input. by rewrite Hg, Ht.
  - intros Hg Ht. unfold asked, prompt_input. by rewrite Hg, Ht.
  - intros Hg. unfold asked, prompt_input. rewrite Hg.
    by destruct (typed E "domain").
  - by intros ->.
Qed.

(** With every option given, nothing is asked. *)
Lemma promptForMissingOptions_complete (argv : gmap string jsval) :
  truthy (get argv "projectPath") = true ->
  truthy (get argv "domain") = true ->
  truthy (get argv "frontendPort") = true ->
  truthy (get argv "backendPort") = true ->
  get argv "pm2" <> JUndefined ->
  promptForMissingOptions E argv = argv.
Proof.
  intros H1 H2 H3 H4 H5. unfold promptForMissingOptions.
  rewrite H1, H2, H3, H4. cbn [negb].
  destruct (get argv "pm2"); [done|..]; cbn [inquirer_prompt];
    apply (left_id_L ∅ (∪)).
Qed.

End Prompts.

Section NonInteractive.
Import AppSetup.

Context {meta : Type}.

Lemma tail_events_commands (E E' : env meta) (p pm2 : jsval) :
  (forall c, commands E' c = commands E c) ->
  tail_events E' p pm2 = tail_events E p pm2.
Proof.
  intros H. unfold tail_events, launch_events, pm2_events. by rewrite !H.
Qed.

(** What a run of the program is, once the options are resolved. *)
Lemma cli_run (E : env meta) (argv : gmap string jsval) (w : world) :
  let options := promptForMissingOptions E argv in
  cli E argv w
  = match generation_steps (get options "projectPath") (get options "domain")
            (get options "frontendPort") (get options "backendPort") w with
    | (Done _, w1) =>
        (Done tt,
         log w1 (tail_events E (get options "projectPath") (get options "pm2")))
    | (Throw e, w1) =>
        (Exit 1%Z, log w1 [Stderr [Text "An error occurred:"; ErrObj e]])
    | (Exit c, w1) => (Exit c, w1)
    end.
Proof.
  intros options. unfold cli, try_catch. rewrite main_split. fold options.
  destruct (generation_steps _ _ _ _ w) as [[[]|c|e] w1] eqn:Hg.
  - erewrite bind_run; [|exact Hg]. by rewrite tail_run.
  - by erewrite bind_exit.
  - by erewrite bind_throw.
Qed.

(** X3: called with all its options ([--pm2] included), the program asks
    nothing: the options stay as given, and the run is the same whatever
    the operator would have typed or confirmed. *)
Theorem cli_with_all_options_asks_nothing
  (E E' : env meta) (argv : gmap string jsval) (w : world) :
  truthy (get argv "projectPath") = true ->
  truthy (get argv "domain") = true ->
  truthy (get argv "frontendPort") = true ->
  truthy (get argv "backendPort") = true ->
  get argv "pm2" <> JUndefined ->
  (forall c, commands E' c = commands E c) ->
  promptForMissingOptions E argv = argv /\
  cli E' argv w = cli E argv w.
Proof.
  intros H1 H2 H3 H4 H5 Hc.
  split; [by apply promptForMissingOptions_complete|].
  rewrite !cli_run, !promptForMissingOptions_complete by done.
  by rewrite (tail_events_commands E E').
Qed.

End NonInteractive.

Lemma prompt_keeps_given_options_witness :
  AppSetup.get (AppSetup.promptForMissingOptions Sample.defaults Sample.app_flags)
    "frontendPort"
  = JStr "8080".
Proof.
  apply (prompt_keeps_given_options Sample.defaults Sample.app_flags
           "frontendPort");
    [simpl; tauto | reflexivity].
Defined.

Lemma cli_with_all_options_asks_nothing_witness :
  AppSetup.promptForMissingOptions Sample.no_docker Sample.app_flags
  = Sample.app_flags.
Proof.
  apply (cli_with_all_options_asks_nothing Sample.no_docker Sample.no_docker
           Sample.app_flags Sample.fresh);
    first [ reflexivity | discriminate ].
Defined.

(** Called without any flag, with an operator who types a domain and
    nothing else. *)
Example prompts_with_defaults :
  map (AppSetup.get (AppSetup.promptForMissingOptions Sample.defaults Sample.no_flags))
    ["projectPath"; "domain"; "frontendPort"; "backendPort"; "pm2"]
  = [JStr "."; JStr "example.com"; JStr "3000"; JStr "5000"; JBool false].
Proof. reflexivity. Qed.

(** ** What the app set-up tool writes *)

Section Written.
Import AppSetup.

Lemma outputFile_directory (p c : string) (w : world) :
  files w !! p = Some Dir ->
  exists e, outputFile p c w = (Throw e, w) /\ code e = "EISDIR".
Proof.
  intros H. unfold outputFile.
  rewrite resolve_plain by (intros t; by rewrite H). rewrite H. by eexists.
Qed.

(** X4: whatever the three values are, [generateMetadata] on a writable
    path leaves a [metadata.json] that parses as JSON and gives back each
    value: a string as that string, [null] and booleans as themselves,
    and no member at all for a value that is [undefined]; no other path
    is touched. *)
Theorem metadata_of_any_values
  (p : string) (domain frontendPort backendPort : jsval) (w : world) :
  writable (files w) (metadata_file p) = true ->
  exists w' text members,
    generateMetadata (JStr p) domain frontendPort backendPort w = (Done tt, w') /\
    files w' !! metadata_file p = Some (File text) /\
    JSON_parse text = Some (JsObject members) /\
    member "domain" members = json_of_value domain /\
    member "frontendPort" members = json_of_value frontendPort /\
    member "backendPort" members = json_of_value backendPort /\
    (forall q, q <> metadata_file p -> files w' !! q = files w !! q).
Proof.
  intros Hw. eexists _, _, _.
  split; [by apply generateMetadata_run|]. cbn [files].
  split; [apply lookup_insert_eq|].
  split; [apply JSON_parse_stringify|].
  split; [|split; [|split]].
  1-3: by destruct domain as [| |[]|], frontendPort as [| |[]|],
         backendPort as [| |[]|].
  intros q Hq. by rewrite lookup_insert_ne.
Qed.

Lemma metadata_of_any_values_witness :
  exists w' text members,
    generateMetadata (JStr "/srv/app") JUndefined (JStr "3000") JNull
      Sample.fresh = (Done tt, w') /\
    files w' !! metadata_file "/srv/app" = Some (File text) /\
    JSON_parse text = Some (JsObject members) /\
    member "domain" members = None /\
    member "frontendPort" members = Some (JsString "3000") /\
    member "backendPort" members = Some JsNull /\
    (forall q, q <> metadata_file "/srv/app" ->
               files w' !! q = files Sample.fresh !! q).
Proof.
  apply (metadata_of_any_values "/srv/app" JUndefined (JStr "3000") JNull
           Sample.fresh).
  reflexivity.
Defined.

(** X5: the generation steps write four paths and nothing else: every
    other path of the file store is as it was, what was at the four
    paths is overwritten, and the three messages of success are all that
    is printed. *)
Theorem generation_touches_four_files
  (p : string) (d fp bp : jsval) (w : world) :
  writable (files w) (frontend_path p) = true ->
  writable (files w) (backend_path p) = true ->
  writable (files w) (compose_path p) = true ->
  writable (files w) (metadata_file p) = true ->
  exists w',
    generation_steps (JStr p) d fp bp w = (Done tt, w') /\
    (forall q,
       q <> frontend_path p -> q <> backend_path p ->
       q <> compose_path p -> q <> metadata_file p ->
       files w' !! q = files w !! q) /\
    files w' !! frontend_path p = Some (File frontend_dockerfile) /\
    files w' !! backend_path p = Some (File backend_dockerfile) /\
    files w' !! compose_path p = Some (File (docker_compose fp bp)) /\
    files w' !! metadata_file p
    = Some (File (JSON_stringify
                    [("domain", d); ("frontendPort", fp); ("backendPort", bp)]
                  +:+ LF)) /\
    trace w' = trace w ++
      [Stdout "Dockerfiles generated successfully.";
       Stdout "docker-compose.yml generated successfully.";
       Stdout "metadata.json generated successfully."].
Proof.
  intros Hwf Hwb Hwc Hwm.
  destruct (project_paths_distinct p) as (Hfb & Hfc & Hfm & Hbc & Hbm & Hcm).
  eexists. split; [by apply generation_steps_run|]. cbn [files trace].
  split; [|split; [|split; [|split; [|split]]]].
  - intros q H1 H2 H3 H4. by rewrite !lookup_insert_ne.
  - rewrite !lookup_insert_ne by done. apply lookup_insert_eq.
  - rewrite !lookup_insert_ne by done. apply lookup_insert_eq.
  - rewrite lookup_insert_ne by done. apply lookup_insert_eq.
  - apply lookup_insert_eq.
  - reflexivity.
Qed.

Lemma generation_touches_four_files_witness :
  exists w',
    generation_steps (JStr ".") (JStr "") (JStr "3000") (JStr "5000")
      Sample.blocked = (Done tt, w') /\
    files w' !! "/srv/app/frontend/Dockerfile" = Some Dir /\
    files w' !! "frontend/Dockerfile" = Some (File frontend_dockerfile).
Proof.
  destruct (generation_touches_four_files "." (JStr "") (JStr "3000")
              (JStr "5000") Sample.blocked)
    as (w' & Hrun & Hframe & Hf & _); [reflexivity..|].
  exists w'. split; [exact Hrun|]. split; [|exact Hf].
  rewrite Hframe; [reflexivity|discriminate..].
Defined.

(** X6: nothing is rolled back.  When the compose file cannot be written
    because a directory is in its place, the generation steps stop there
    with [EISDIR]: the two Dockerfiles written before stay, no
    [metadata.json] is written, and the program prints the error, starts
    neither the containers nor the installation, and exits with status
    1. *)
Theorem generation_failure_keeps_written_files
  {meta : Type} (E : env meta) (argv : gmap string jsval) (p : string)
  (w : world) :
  get (promptForMissingOptions E argv) "projectPath" = JStr p ->
  writable (files w) (frontend_path p) = true ->
  writable (files w) (backend_path p) = true ->
  files w !! compose_path p = Some Dir ->
  exists e w',
    cli E argv w = (Exit 1%Z, w') /\
    code e = "EISDIR" /\
    trace w' = trace w ++
      [Stdout "Dockerfiles generated successfully.";
       Stderr [Text "An error occurred:"; ErrObj e]] /\
    files w' !! frontend_path p = Some (File frontend_dockerfile) /\
    files w' !! backend_path p = Some (File backend_dockerfile) /\
    files w' !! compose_path p = Some Dir /\
    files w' !! metadata_file p = files w !! metadata_file p.
Proof.
  intros Hp Hwf Hwb Hc.
  destruct (project_paths_distinct p) as (Hfb & Hfc & Hfm & Hbc & Hbm & Hcm).
  set (w1 := mkWorld
     (<[backend_path p := File backend_dockerfile]>
        (<[frontend_path p := File frontend_dockerfile]> (files w)))
     (trace w ++ [Stdout "Dockerfiles generated successfully."])).
  assert (Hc1 : files w1 !! compose_path p = Some Dir).
  { cbn [w1 files]. by rewrite !lookup_insert_ne. }
  destruct (outputFile_directory (compose_path p)
              (docker_compose (get (promptForMissingOptions E argv) "frontendPort")
                 (get (promptForMissingOptions E argv) "backendPort")) w1 Hc1)
    as (e & He & Hcode).
  exists e, (log w1 [Stderr [Text "An error occurred:"; ErrObj e]]).
  split.
  - rewrite cli_run. cbv zeta. rewrite Hp. unfold generation_steps.
    erewrite bind_run; [|by apply generateDockerfiles_run].
    fold w1. erewrite bind_throw; [reflexivity|].
    unfold generateDockerCompose.
    erewrite bind_run; [|apply (path_join_run p ["docker-compose.yml"])].
    erewrite bind_throw; [reflexivity|exact He].
  - split; [exact Hcode|]. cbn [log w1 files trace].
    split; [by rewrite <- app_assoc|].
    split; [rewrite lookup_insert_ne by done; apply lookup_insert_eq|].
    split; [apply lookup_insert_eq|].
    split; [by rewrite !lookup_insert_ne|].
    by rewrite !lookup_insert_ne.
Qed.

Lemma generation_failure_keeps_written_files_witness :
  exists e w',
    cli Sample.no_docker Sample.app_flags Sample.compose_blocked = (Exit 1%Z, w') /\
    code e = "EISDIR" /\
    trace w' = trace Sample.compose_blocked ++
      [Stdout "Dockerfiles generated successfully.";
       Stderr [Text "An error occurred:"; ErrObj e]] /\
    files w' !! frontend_path "/srv/app" = Some (File frontend_dockerfile) /\
    files w' !! backend_path "/srv/app" = Some (File backend_dockerfile) /\
    files w' !! compose_path "/srv/app" = Some Dir /\
    files w' !! metadata_file "/srv/app"
    = files Sample.compose_blocked !! metadata_file "/srv/app".
Proof.
  apply (generation_failure_keeps_written_files Sample.no_docker
           Sample.app_flags "/srv/app" Sample.compose_blocked);
    reflexivity.
Defined.

Lemma single_line_escape_char (c : ascii) : single_line (escape_char c) = true.
Proof. destruct c as [[] [] [] [] [] [] [] []]; reflexivity. Qed.

Lemma single_line_append (a b : string) :
  single_line (a +:+ b) = single_line a && single_line b.
Proof.
  induction a as [|c a IH]; [done|]. rewrite append_cons. cbn.
  by rewrite IH, andb_assoc.
Qed.

Lemma single_line_escape (s : string) : single_line (escape s) = true.
Proof.
  induction s as [|c s IH]; [done|]. cbn [escape].
  by rewrite single_line_append, single_line_escape_char, IH.
Qed.

Lemma single_line_quote (s : string) : single_line (quote s) = true.
Proof.
  unfold quote. by rewrite !single_line_append, single_line_escape.
Qed.

(** X7: the written [metadata.json] has the same six lines whatever the
    three strings hold: an opening brace, one line per member, indented
    by two spaces, a closing brace and the empty line after the final
    line feed.  A line feed inside a value is written as an escape and
    breaks no line. *)
Theorem metadata_text_lines (domain frontendPort backendPort : string) :
  lines
    (JSON_stringify
       [("domain", JStr domain); ("frontendPort", JStr frontendPort);
        ("backendPort", JStr backendPort)] +:+ LF)
  = ["{";
     "  " +:+ quote "domain" +:+ ": " +:+ quote domain +:+ ",";
     "  " +:+ quote "frontendPort" +:+ ": " +:+ quote frontendPort +:+ ",";
     "  " +:+ quote "backendPort" +:+ ": " +:+ quote backendPort;
     "}";
     ""].
Proof.
  pose proof (single_line_quote domain) as Hd.
  pose proof (single_line_quote frontendPort) as Hf.
  pose proof (single_line_quote backendPort) as Hb.
  unfold JSON_stringify. cbn [stringify_members stringify_value join].
  split_lines. by rewrite !append_nil_r.
Qed.

End Written.

(** ** Runs of the site manager *)

Section SiteManager.
Import Nginx Site.

Lemma executed_app (a b : list event) : executed (a ++ b) = executed a ++ executed b.
Proof.
  induction a as [|[] a IH]; cbn; [done|done|done|]. by rewrite IH.
Qed.

Lemma executed_nginx (E : env metadata) :
  executed (nginx_events E)
  = "which nginx" ::
    match commands E "which nginx" with
    | Succeeds => []
    | Fails _ =>
        "sudo apt-get update" ::
        match commands E "sudo apt-get update" with
        | Succeeds => ["sudo apt-get install -y nginx"]
        | Fails _ => []
        end
    end.
Proof.
  unfold nginx_events, install_failure.
  destruct (commands E "which nginx"); [done|].
  destruct (commands E "sudo apt-get update"); [|done].
  by destruct (commands E "sudo apt-get install -y nginx").
Qed.

Lemma executed_reload (E : env metadata) :
  executed (reload_events E) = ["nginx -s reload"].
Proof.
  unfold reload_events, reload_failure.
  by destruct (commands E "nginx -s reload").
Qed.

Lemma executed_certificate (E : env metadata) (d : jsval) :
  executed (certificate_events E d) = [certbot_command d].
Proof.
  unfold certificate_events, certificate_failure.
  by destruct (commands E (certbot_command d)).
Qed.

Lemma reload_not_in_check (E : env metadata) :
  ~ In "nginx -s reload" (executed (nginx_events E)).
Proof.
  rewrite executed_nginx.
  destruct (commands E "which nginx"); [cbn; intuition discriminate|].
  destruct (commands E "sudo apt-get update"); cbn; intuition discriminate.
Qed.

Lemma reload_not_certbot (d : jsval) : "nginx -s reload" <> certbot_command d.
Proof. unfold certbot_command. intros H. discriminate H. Qed.

(** X8: the web server check runs the package manager only when the
    server is missing, and the installation only after a successful
    update; it never touches the file store. *)
Theorem ensure_nginx_commands (E : env metadata) (w : world) :
  files (snd (ensureNginxInstalled E w)) = files w /\
  executed (trace (snd (ensureNginxInstalled E w)))
  = executed (trace w) ++
    "which nginx" ::
    match commands E "which nginx" with
    | Succeeds => []
    | Fails _ =>
        "sudo apt-get update" ::
        match commands E "sudo apt-get update" with
        | Succeeds => ["sudo apt-get install -y nginx"]
        | Fails _ => []
        end
    end /\
  (fst (ensureNginxInstalled E w) = Done tt <->
   commands E "which nginx" = Succeeds \/
   (commands E "sudo apt-get update" = Succeeds /\
    commands E "sudo apt-get install -y nginx" = Succeeds)).
Proof.
  rewrite ensureNginxInstalled_run. cbn [fst snd log files trace].
  split; [done|]. split; [by rewrite executed_app, executed_nginx|].
  unfold nginx_available.
  destruct (commands E "which nginx"); [intuition|].
  destruct (commands E "sudo apt-get update");
    [|intuition discriminate].
  destruct (commands E "sudo apt-get install -y nginx");
    intuition discriminate.
Qed.

Section Runs.

Variable legacy : bool.
Variable E : env metadata.

(** X9: when the metadata file cannot be read, [add-site] stops with
    the error of the read, after the web-server check and before
    anything else: no file is written, no certificate asked for, no
    reload. *)
Theorem add_site_without_metadata
  (options : add_options) (e : error) (w : world) :
  nginx_available E = true ->
  json_at E (metadata_path E options) = inr e ->
  addSite legacy E options w = (Throw e, log w (nginx_events E)) /\
  files (snd (addSite legacy E options w)) = files w /\
  executed (trace (snd (addSite legacy E options w)))
  = executed (trace w) ++ executed (nginx_events E).
Proof.
  intros Hn Hm.
  assert (Hrun : addSite legacy E options w = (Throw e, log w (nginx_events E))).
  { unfold addSite.
    erewrite bind_run; [|by rewrite ensureNginxInstalled_run, Hn].
    erewrite bind_throw; [reflexivity|].
    unfold metadata_path in Hm. unfold readJson.
    destruct (truthy (opt_metadata options)); by rewrite Hm. }
  rewrite Hrun. cbn [snd log files trace]. by rewrite executed_app.
Qed.

(** How a run of [add-site] may end, and what it leaves on the trace. *)
Lemma addSite_outcomes (options : add_options) (w : world) :
  exists o fs' evs,
    addSite legacy E options w = (o, mkWorld fs' (trace w ++ evs)) /\
    ((o = Done tt /\ exists m, evs = added_events E m options) \/
     (o <> Done tt /\ evs = nginx_events E)).
Proof.
  destruct (nginx_available E) eqn:Hn.
  2:{ exists (Exit 1%Z), (files w), (nginx_events E).
      rewrite addSite_exit by done. split; [done|]. by right. }
  destruct (json_at E (metadata_path E options)) as [m|e] eqn:Hm.
  2:{ exists (Throw e), (files w), (nginx_events E). unfold addSite.
      erewrite bind_run; [|by rewrite ensureNginxInstalled_run, Hn].
      erewrite bind_throw.
      - split; [done|]. by right.
      - unfold metadata_path in Hm. unfold readJson.
        destruct (truthy (opt_metadata options)); by rewrite Hm. }
  unfold addSite.
  erewrite bind_run; [|by rewrite ensureNginxInstalled_run, Hn].
  erewrite bind_run; [|by apply readJson_run].
  cbv zeta. fold (useDomain options) (useSSL options).
  fold (name m options) (config m options).
  destruct (outputFile_cases (available_path (name m options))
              (config m options) (log w (nginx_events E)))
    as [[fs1 H1]|[e H1]].
  2:{ exists (Throw e), (files w), (nginx_events E).
      erewrite bind_throw; [|exact H1]. split; [done|]. by right. }
  erewrite bind_run; [|exact H1].
  destruct (ensureSymlink_cases legacy (available_path (name m options))
              (enabled_path (name m options))
              (mkWorld fs1 (trace (log w (nginx_events E)))))
    as [[fs2 H2]|[e H2]].
  2:{ exists (Throw e), fs1, (nginx_events E).
      erewrite bind_throw; [|exact H2]. split; [done|]. by right. }
  erewrite bind_run; [|exact H2].
  assert (Hc : forall w0,
    (if useDomain options && useSSL options
     then obtainSSLCertificate E (domain m) else ret tt) w0 =
    (Done tt, log w0 (if useDomain options && useSSL options
                      then certificate_events E (domain m) else []))).
  { intros w0. destruct (_ && _); [apply obtainSSLCertificate_run|].
    by rewrite log_nil. }
  erewrite bind_run; [|apply Hc].
  erewrite bind_run; [|apply reloadNginx_run].
  unfold console_log. rewrite emit_run, !log_log.
  exists (Done tt), fs2, (added_events E m options).
  split; [|left; split; [done|by exists m]].
  unfold log, added_events. cbn [files trace]. by rewrite <- !app_assoc.
Qed.

(** X10: the web server is reloaded by the runs of [add-site] that go
    through, and by no other: a run that stops early -- failed
    installation, unreadable metadata, a file or a link that cannot be
    written -- never reloads; and in a run that goes through the reload
    is the last command, run once. *)
Theorem add_site_reloads_only_after_success
  (options : add_options) (w : world) :
  exists o w' evs,
    addSite legacy E options w = (o, w') /\
    trace w' = trace w ++ evs /\
    (In "nginx -s reload" (executed evs) <-> o = Done tt) /\
    (o = Done tt ->
     exists before,
       executed evs = before ++ ["nginx -s reload"] /\
       ~ In "nginx -s reload" before).
Proof.
  destruct (addSite_outcomes options w) as (o & fs' & evs & Hrun & Hevs).
  exists o, (mkWorld fs' (trace w ++ evs)), evs.
  split; [exact Hrun|]. split; [done|].
  destruct Hevs as [[-> [m ->]]|[Ho ->]].
  - assert (Hex : executed (added_events E m options)
      = (executed (nginx_events E) ++
         (if useDomain options && useSSL options
          then [certbot_command (domain m)] else [])) ++
        ["nginx -s reload"]).
    { unfold added_events.
      rewrite !executed_app, executed_reload, <- !app_assoc.
      destruct (_ && _); [by rewrite executed_certificate|done]. }
    assert (Hbefore : ~ In "nginx -s reload"
      (executed (nginx_events E) ++
       (if useDomain options && useSSL options
        then [certbot_command (domain m)] else []))).
    { rewrite in_app_iff. intros [H|H]; [by apply reload_not_in_check in H|].
      destruct (_ && _); [|done]. destruct H as [H|[]].
      symmetry in H. by apply reload_not_certbot in H. }
    split.
    + split; [done|]. intros _. rewrite Hex, in_app_iff. right. by left.
    + intros _. eexists. by split.
  - split; [|done]. split; [|done].
    intros H. by apply reload_not_in_check in H.
Qed.

(** X11: [add-site] replaces nothing in the enabled directory.  With a
    regular file in the place of the link, the configuration is written
    to the available directory all the same and the file in the enabled
    directory stays: the newer linking routine then stops the run with
    [EEXIST], before any reload, and the older one lets the run go on to
    its message of success. *)
Theorem add_site_keeps_a_stray_file
  (options : add_options) (m : metadata) (x : string) (w : world) :
  nginx_available E = true ->
  json_at E (metadata_path E options) = inl m ->
  writable (files w) (available_path (name m options)) = true ->
  files w !! enabled_path (name m options) = Some (File x) ->
  exists o w',
    addSite legacy E options w = (o, w') /\
    files w' !! available_path (name m options) = Some (File (config m options)) /\
    files w' !! enabled_path (name m options) = Some (File x) /\
    (legacy = false ->
     exists e, o = Throw e /\ code e = "EEXIST" /\
               trace w' = trace w ++ nginx_events E) /\
    (legacy = true ->
     o = Done tt /\ trace w' = trace w ++ added_events E m options).
Proof.
  intros Hn Hm Hwa Hen.
  set (n := name m options) in *.
  set (fs1 := <[available_path n := File (config m options)]> (files w)).
  assert (Hfe : fs1 !! enabled_path n = Some (File x)).
  { unfold fs1. by rewrite lookup_insert_ne by apply available_enabled_ne. }
  assert (Hfa : fs1 !! available_path n = Some (File (config m options))).
  { apply lookup_insert_eq. }
  assert (Hstart : forall k : unit -> M unit,
    addSite legacy E options w
    = bind (ensureSymlink legacy (available_path n) (enabled_path n))
        (fun _ =>
           (if useDomain options && useSSL options
            then obtainSSLCertificate E (domain m) else ret tt) ;;;
           reloadNginx E ;;;
           console_log ("Site " +:+ n +:+ " added successfully!"))
        (mkWorld fs1 (trace w ++ nginx_events E))).
  { intros _. unfold addSite.
    erewrite bind_run; [|by rewrite ensureNginxInstalled_run, Hn].
    erewrite bind_run; [|by apply readJson_run].
    cbv zeta. fold (useDomain options) (useSSL options).
    fold (name m options) (config m options). fold n.
    erewrite bind_run; [|by apply outputFile_writable]. reflexivity. }
  rewrite (Hstart (fun _ => ret tt)). clear Hstart.
  destruct legacy.
  - assert (Hlink : ensureSymlink true (available_path n) (enabled_path n)
                      (mkWorld fs1 (trace w ++ nginx_events E))
                    = (Done tt, mkWorld fs1 (trace w ++ nginx_events E))).
    { unfold ensureSymlink, stat. cbn [files].
      rewrite resolve_plain by (intros t; by rewrite Hfe). by rewrite Hfe. }
    erewrite bind_run; [|exact Hlink].
    assert (Hc : forall w0,
      (if useDomain options && useSSL options
       then obtainSSLCertificate E (domain m) else ret tt) w0 =
      (Done tt, log w0 (if useDomain options && useSSL options
                        then certificate_events E (domain m) else []))).
    { intros w0. destruct (_ && _); [apply obtainSSLCertificate_run|].
      by rewrite log_nil. }
    erewrite bind_run; [|apply Hc].
    erewrite bind_run; [|apply reloadNginx_run].
    unfold console_log. rewrite emit_run, !log_log.
    eexists _, _. split; [reflexivity|]. cbn [log files trace].
    split; [done|]. split; [done|]. split; [done|]. intros _.
    split; [done|]. unfold added_events. fold n. by rewrite <- !app_assoc.
  - assert (Hlink : exists e,
      ensureSymlink false (available_path n) (enabled_path n)
        (mkWorld fs1 (trace w ++ nginx_events E))
      = (Throw e, mkWorld fs1 (trace w ++ nginx_events E)) /\
      code e = "EEXIST").
    { unfold ensureSymlink, symlink, throw. cbn [files].
      rewrite Hfe, Hfa. cbn [files]. rewrite Hfe.
      eexists. split; reflexivity. }
    destruct Hlink as (e & Hlink & Hcode).
    erewrite bind_throw; [|exact Hlink].
    eexists _, _. split; [reflexivity|]. cbn [files trace].
    split; [done|]. split; [done|]. split; [|done]. intros _.
    by exists e.
Qed.



End Runs.

Lemma add_site_without_metadata_witness :
  addSite false Sample.no_metadata Sample.with_domain Sample.stray_file
  = (Throw (mkError "ENOENT" "no such file or directory"),
     log Sample.stray_file (nginx_events Sample.no_metadata)) /\
  files (snd (addSite false Sample.no_metadata Sample.with_domain
                Sample.stray_file)) = files Sample.stray_file /\
  executed (trace (snd (addSite false Sample.no_metadata Sample.with_domain
                          Sample.stray_file)))
  = executed (trace Sample.stray_file) ++
    executed (nginx_events Sample.no_metadata).
Proof.
  apply (add_site_without_metadata false Sample.no_metadata
           Sample.with_domain (mkError "ENOENT" "no such file or directory")
           Sample.stray_file); reflexivity.
Defined.

Lemma add_site_keeps_a_stray_file_witness :
  exists o w',
    addSite false Sample.calm Sample.with_domain Sample.stray_file = (o, w') /\
    files w' !! available_path "example.com"
    = Some (File (config Sample.app_metadata Sample.with_domain)) /\
    files w' !! enabled_path "example.com" = Some (File "stray") /\
    (false = false ->
     exists e, o = Throw e /\ code e = "EEXIST" /\
               trace w' = trace Sample.stray_file ++ nginx_events Sample.calm) /\
    (false = true ->
     o = Done tt /\
     trace w' = trace Sample.stray_file ++
                added_events Sample.calm Sample.app_metadata Sample.with_domain).
Proof.
  apply (add_site_keeps_a_stray_file false Sample.calm Sample.with_domain
           Sample.app_metadata "stray" Sample.stray_file); reflexivity.
Defined.



End SiteManager.

(** ** The configuration for the four settings of the toggles *)

Section Configurations.
Import Nginx Site.

Lemma without_suffix_append (suf x : string) :
  without_suffix suf (x +:+ suf) = Some x.
Proof.
  induction x as [|c x IH].
  - change ("" +:+ suf) with suf.
    destruct suf; cbn [without_suffix]; by rewrite String.eqb_refl.
  - rewrite append_cons. cbn [without_suffix].
    destruct (String.eqb_spec (String c (x +:+ suf)) suf) as [Heq|_].
    + apply (f_equal String.length) in Heq. cbn [String.length] in Heq.
      rewrite length_append in Heq. lia.
    + by rewrite IH.
Qed.

Lemma classify_proxy (x : string) :
  Routes.classify ("        proxy_pass " +:+ x +:+ ";") = Routes.Proxy x.
Proof.
  change ("        proxy_pass " +:+ x +:+ ";")
    with (String " " (String " " (String " " (String " " (String " "
         (String " " (String " " (String " " ("proxy_pass " +:+ x +:+ ";"))))))))).
  unfold Routes.classify. cbn [strip_indent].
  change ("proxy_pass " +:+ x +:+ ";")
    with (String "p" (String "r" (String "o" (String "x" (String "y"
         (String "_" (String "p" (String "a" (String "s" (String "s"
         (String " " (x +:+ ";")))))))))))).
  cbn [strip_indent expect Ascii.eqb Bool.eqb].
  by rewrite without_suffix_append.
Qed.

Variables d fp bp : jsval.
Hypothesis Hfp : single_line (toString fp) = true.
Hypothesis Hbp : single_line (toString bp) = true.

Lemma generateNginxConfig_routes (useDomain useSSL : bool) :
  (useDomain || useSSL = true -> single_line (toString d) = true) ->
  Routes.routes (generateNginxConfig d fp bp useDomain useSSL)
  = [("/", "http://localhost:" +:+ toString fp);
     ("/api", "http://localhost:" +:+ toString bp)].
Proof.
  intros Hd. unfold Routes.routes, generateNginxConfig.
  destruct useDomain, useSSL; cbn [andb orb] in *;
    try specialize (Hd eq_refl).
  all: split_lines; cbn [map].
  all: rewrite ?append_nil_r.
  all: change ("        proxy_pass http://localhost:" +:+ toString fp +:+ ";")
         with ("        proxy_pass " +:+ ("http://localhost:" +:+ toString fp) +:+ ";").
  all: change ("        proxy_pass http://localhost:" +:+ toString bp +:+ ";")
         with ("        proxy_pass " +:+ ("http://localhost:" +:+ toString bp) +:+ ";").
  all: rewrite !classify_proxy.
  all: by vm_compute.
Qed.

(** X14: whatever the two toggles, the configuration routes [/] to the
    frontend port and [/api] to the backend port on the local host, and
    nothing else. *)
Theorem config_routes (useDomain useSSL : bool) :
  (useDomain || useSSL = true -> single_line (toString d) = true) ->
  Routes.routes (generateNginxConfig d fp bp useDomain useSSL)
  = [("/", "http://localhost:" +:+ toString fp);
     ("/api", "http://localhost:" +:+ toString bp)].
Proof. apply generateNginxConfig_routes. Qed.

(** X15: the directives of the configuration, for the four settings of
    the toggles.  The first block listens on 443 with SSL, on 80 without;
    the names and the certificate paths are made of the domain value;
    the second block -- listening on 80, named, redirecting to https --
    is there with a domain and SSL, and only then. *)
Theorem config_directives (useDomain useSSL : bool) :
  (useDomain || useSSL = true -> single_line (toString d) = true) ->
  let c := generateNginxConfig d fp bp useDomain useSSL in
  map strip_indent (directive_lines "listen" c)
  = (if useSSL then ["listen 443 ssl;"] else ["listen 80;"]) ++
    (if useDomain && useSSL then ["listen 80;"] else []) /\
  map strip_indent (directive_lines "server_name" c)
  = (if useDomain then ["server_name " +:+ toString d +:+ ";"] else []) ++
    (if useDomain && useSSL then ["server_name " +:+ toString d +:+ ";"] else []) /\
  map strip_indent (directive_lines "ssl_certificate" c)
  = (if useSSL
     then ["ssl_certificate /etc/letsencrypt/live/" +:+ toString d +:+ "/fullchain.pem;";
           "ssl_certificate_key /etc/letsencrypt/live/" +:+ toString d +:+ "/privkey.pem;"]
     else []) /\
  map strip_indent (directive_lines "return" c)
  = (if useDomain && useSSL then ["return 301 https://$host$request_uri;"] else []) /\
  length (server_blocks c) = (if useDomain && useSSL then 2 else 1).
Proof.
  intros Hd c. subst c.
  unfold directive_lines, server_blocks, generateNginxConfig.
  destruct useDomain, useSSL; cbn [andb orb] in *;
    try specialize (Hd eq_refl).
  all: split_lines.
  all: by vm_compute.
Qed.

End Configurations.

Lemma config_routes_witness :
  Routes.routes
    (Nginx.generateNginxConfig (JStr "example.com") (JStr "8080") JUndefined
       true true)
  = [("/", "http://localhost:" +:+ "8080");
     ("/api", "http://localhost:" +:+ "undefined")].
Proof.
  apply (config_routes (JStr "example.com") (JStr "8080") JUndefined);
    reflexivity.
Defined.

Lemma config_directives_witness :
  let c := Nginx.generateNginxConfig JNull (JStr "3000") (JStr "5000")
             false true in
  map strip_indent (directive_lines "listen" c)
  = ["listen 443 ssl;"] ++ [] /\
  map strip_indent (directive_lines "server_name" c) = [] ++ [] /\
  map strip_indent (directive_lines "ssl_certificate" c)
  = ["ssl_certificate /etc/letsencrypt/live/" +:+ "null" +:+ "/fullchain.pem;";
     "ssl_certificate_key /etc/letsencrypt/live/" +:+ "null" +:+ "/privkey.pem;"] /\
  map strip_indent (directive_lines "return" c) = [] /\
  length (server_blocks c) = 1.
Proof.
  apply (config_directives JNull (JStr "3000") (JStr "5000")); reflexivity.
Defined.

(** ** Listing, and sites named by their ports *)

Section Listing.
Import Nginx Site.

Lemma executed_listed (a e : list string) : executed (listed a e) = [].
Proof.
  unfold listed. cbn [executed]. rewrite executed_app. cbn [executed].
  assert (He : forall l, executed (map enabled_line l) = [])
    by (induction l; done).
  assert (Hd : forall l, executed (map disabled_line l) = [])
    by (induction l; done).
  by rewrite He, Hd.
Qed.

(** X16: [list-sites] only reads.  It leaves the file store as it is
    and runs no command but those of the web-server check; and it lists
    all or nothing: when one of the two directories cannot be listed the
    run stops with that error -- the available directory's first --
    before the first line of the listing. *)
Theorem list_sites_all_or_nothing (E : env metadata) (w : world) :
  exists o evs,
    listSites E w = (o, log w (nginx_events E ++ evs)) /\
    files (snd (listSites E w)) = files w /\
    executed (trace (snd (listSites E w)))
    = executed (trace w) ++ executed (nginx_events E) /\
    (nginx_available E = true ->
     match listing E "/etc/nginx/sites-available",
           listing E "/etc/nginx/sites-enabled" with
     | inl a, inl e => o = Done tt /\ evs = listed a e
     | inr err, _ => o = Throw err /\ evs = []
     | inl _, inr err => o = Throw err /\ evs = []
     end) /\
    (nginx_available E = false -> o = Exit 1%Z /\ evs = []).
Proof.
  assert (Hgen : forall o evs,
    listSites E w = (o, log w (nginx_events E ++ evs)) ->
    executed evs = [] ->
    files (snd (listSites E w)) = files w /\
    executed (trace (snd (listSites E w)))
    = executed (trace w) ++ executed (nginx_events E)).
  { intros o evs -> Hex. cbn [snd log files trace]. split; [done|].
    by rewrite !executed_app, Hex, app_nil_r. }
  destruct (nginx_available E) eqn:Hn.
  2:{ exists (Exit 1%Z), [].
      assert (Hrun : listSites E w = (Exit 1%Z, log w (nginx_events E ++ [])))
        by (rewrite app_nil_r; by apply listSites_exit).
      split; [exact Hrun|]. destruct (Hgen _ _ Hrun eq_refl) as [Hf He].
      by repeat (split; [done|]). }
  destruct (listing E "/etc/nginx/sites-available") as [a|err] eqn:Ha.
  2:{ exists (Throw err), [].
      assert (Hrun : listSites E w = (Throw err, log w (nginx_events E ++ []))).
      { rewrite app_nil_r. unfold listSites, readdir.
        erewrite bind_run; [|by rewrite ensureNginxInstalled_run, Hn].
        rewrite Ha. by erewrite bind_throw. }
      split; [exact Hrun|]. destruct (Hgen _ _ Hrun eq_refl) as [Hf He].
      by repeat (split; [done|]). }
  destruct (listing E "/etc/nginx/sites-enabled") as [e|err] eqn:He.
  2:{ exists (Throw err), [].
      assert (Hrun : listSites E w = (Throw err, log w (nginx_events E ++ []))).
      { rewrite app_nil_r. unfold listSites, readdir.
        erewrite bind_run; [|by rewrite ensureNginxInstalled_run, Hn].
        rewrite Ha, He. erewrite bind_run; [|reflexivity].
        by erewrite bind_throw. }
      split; [exact Hrun|]. destruct (Hgen _ _ Hrun eq_refl) as [Hf Hx].
      by repeat (split; [done|]). }
  exists (Done tt), (listed a e).
  assert (Hrun : listSites E w = (Done tt, log w (nginx_events E ++ listed a e)))
    by by apply listSites_run.
  split; [exact Hrun|].
  destruct (Hgen _ _ Hrun (executed_listed a e)) as [Hf Hx].
  by repeat (split; [done|]).
Qed.

Example list_sites_without_enabled_directory :
  listSites Sample.no_enabled_directory Sample.stray_file
  = (Throw (mkError "ENOENT" "no such file or directory"),
     log Sample.stray_file [Exec "which nginx" None;
                            Stdout "Nginx is already installed."]).
Proof. reflexivity. Qed.

Lemma digits_name_inj (f f' b b' : string) :
  digits f = true -> digits f' = true ->
  f +:+ "_" +:+ b = f' +:+ "_" +:+ b' -> f = f' /\ b = b'.
Proof.
  revert f'. induction f as [|c f IH]; intros [|c' f'] Hf Hf' H.
  - change ("" +:+ "_" +:+ b) with (String "_" b) in H.
    change ("" +:+ "_" +:+ b') with (String "_" b') in H.
    by injection H as ->.
  - change ("" +:+ "_" +:+ b) with (String "_" b) in H.
    rewrite append_cons in H. injection H as <- _.
    cbn in Hf'. discriminate Hf'.
  - change ("" +:+ "_" +:+ b') with (String "_" b') in H.
    rewrite append_cons in H. injection H as -> _.
    cbn in Hf. discriminate Hf.
  - rewrite !append_cons in H. injection H as -> H.
    cbn [digits] in Hf, Hf'.
    apply andb_prop in Hf as [_ Hf]. apply andb_prop in Hf' as [_ Hf'].
    destruct (IH f' Hf Hf' H) as [-> ->]. done.
Qed.

Lemma port_names_inj (m m' : metadata) :
  digits (toString (frontendPort m)) = true ->
  digits (toString (frontendPort m')) = true ->
  toString (configName m false) = toString (configName m' false) ->
  toString (frontendPort m) = toString (frontendPort m') /\
  toString (backendPort m) = toString (backendPort m').
Proof.
  intros Hf Hf' H. unfold configName in H. cbn [toString] in H.
  apply append_inj_l in H. by apply digits_name_inj.
Qed.

(** Ports that are not numbers can give two applications one name. *)
Example port_names_clash :
  toString (configName (mkMetadata JNull (JStr "1_2") (JStr "3")) false)
  = toString (configName (mkMetadata JNull (JStr "1") (JStr "2_3")) false).
Proof. reflexivity. Qed.

Lemma ready_other (fs : gmap string node) (n k c : string) :
  n <> k ->
  ready fs k = true ->
  ready (<[enabled_path n := Symlink (available_path n)]>
           (<[available_path n := File c]> fs)) k = true.
Proof.
  intros Hnk. unfold ready, writable, linkable.
  rewrite (lookup_insert_ne _ (enabled_path n) (available_path k))
    by (apply not_eq_sym, available_enabled_ne).
  rewrite (lookup_insert_ne _ (available_path n) (available_path k))
    by (intros H; by apply available_path_inj in H).
  rewrite (lookup_insert_ne _ (enabled_path n) (enabled_path k))
    by (intros H; by apply enabled_path_inj in H).
  by rewrite (lookup_insert_ne _ (available_path n) (enabled_path k))
    by apply available_enabled_ne.
Qed.

(** X17: two applications on different ports live side by side.  Added
    one after the other without domain, each under the name made of its
    ports, both are enabled in the end, each with its own configuration:
    the second run does not touch the site of the first. *)
Theorem port_sites_side_by_side
  (legacy : bool) (E1 E2 : env metadata) (o1 o2 : add_options)
  (m1 m2 : metadata) (w : world) :
  nginx_available E1 = true ->
  nginx_available E2 = true ->
  json_at E1 (metadata_path E1 o1) = inl m1 ->
  json_at E2 (metadata_path E2 o2) = inl m2 ->
  useDomain o1 = false ->
  useDomain o2 = false ->
  digits (toString (frontendPort m1)) = true ->
  digits (toString (frontendPort m2)) = true ->
  (toString (frontendPort m1) <> toString (frontendPort m2) \/
   toString (backendPort m1) <> toString (backendPort m2)) ->
  ready (files w) (name m1 o1) = true ->
  ready (files w) (name m2 o2) = true ->
  exists w1 w2,
    addSite legacy E1 o1 w = (Done tt, w1) /\
    addSite legacy E2 o2 w1 = (Done tt, w2) /\
    enabled (files w2) (name m1 o1) (config m1 o1) /\
    enabled (files w2) (name m2 o2) (config m2 o2) /\
    name m1 o1 <> name m2 o2.
Proof.
  intros Hn1 Hn2 Hm1 Hm2 Hd1 Hd2 Hf1 Hf2 Hne Hr1 Hr2.
  assert (Hnames : name m1 o1 <> name m2 o2).
  { unfold name. rewrite Hd1, Hd2. intros H.
    apply port_names_inj in H; [|done|done].
    destruct H as [Ha Hb]. by destruct Hne. }
  eexists _, _. split; [by apply addSite_run|].
  split; [apply addSite_run; try done; by apply ready_other|].
  cbn [files]. split; [|split; [|done]].
  - split.
    + rewrite lookup_insert_ne by (apply not_eq_sym, available_enabled_ne).
      rewrite lookup_insert_ne
        by (intros H; apply available_path_inj in H; by symmetry in H).
      rewrite lookup_insert_ne by (apply not_eq_sym, available_enabled_ne).
      apply lookup_insert_eq.
    + rewrite lookup_insert_ne
        by (intros H; apply enabled_path_inj in H; by symmetry in H).
      rewrite lookup_insert_ne by apply available_enabled_ne.
      apply lookup_insert_eq.
  - split.
    + rewrite lookup_insert_ne by (apply not_eq_sym, available_enabled_ne).
      apply lookup_insert_eq.
    + apply lookup_insert_eq.
Qed.

Lemma port_sites_side_by_side_witness :
  exists w1 w2,
    addSite false Sample.calm Sample.no_domain Sample.stray_file = (Done tt, w1) /\
    addSite false Sample.other Sample.no_domain_no_ssl w1 = (Done tt, w2) /\
    enabled (files w2) "site_3000_5000"
      (config Sample.app_metadata Sample.no_domain) /\
    enabled (files w2) "site_3001_5001"
      (config Sample.other_metadata Sample.no_domain_no_ssl) /\
    "site_3000_5000" <> "site_3001_5001".
Proof.
  apply (port_sites_side_by_side false Sample.calm Sample.other
           Sample.no_domain Sample.no_domain_no_ssl
           Sample.app_metadata Sample.other_metadata Sample.stray_file);
    try reflexivity.
  left. discriminate.
Defined.

End Listing.

(** ** From the set-up of an application to its site *)

Section SetUpThenSite.
Import Nginx Site AppSetup.

Lemma stored_metadata_written (fs : gmap string node) (p : string)
  (d fp bp : jsval) :
  stored_metadata
    (<[p := File (JSON_stringify
                    [("domain", d); ("frontendPort", fp); ("backendPort", bp)]
                  +:+ LF)]> fs) p
  = Some (mkMetadata d fp bp).
Proof.
  unfold stored_metadata.
  rewrite resolve_plain
    by (intros t; rewrite lookup_insert_eq; discriminate).
  rewrite lookup_insert_eq, JSON_parse_stringify.
  by destruct d as [| |[]|], fp as [| |[]|], bp as [| |[]|].
Qed.



End SetUpThenSite.
